(** * The store access layer of weviateview (lib/weaviate.ts) and its UI callers

    A shallow embedding of the renderer's access layer: the module-level
    connection state, the transport (fetch), the query builders and the
    response handling, followed by the three UI handlers that sit directly
    on top of it (settings save, collection creation form, search form).

    Conventions of the embedding.
    - Strings are sequences of ASCII characters; the case and whitespace
      functions below act on that range and leave other code units alone.
    - [JNum z] is the JavaScript number of the integer [z]; the numbers the
      access layer itself produces (0, 10, limits, counts) are integers.
    - Property lookup sees the own properties of JSON-parsed values; keys
      are not meant to name members inherited from a prototype.
    - Console output is not part of the model: a [catch] that only logs and
      rethrows is kept as [logged], which is the identity on outcomes. *)

From Stdlib Require Import String Ascii List ZArith Bool Lia.
Import ListNotations.
Open Scope string_scope.
Open Scope Z_scope.

(** ** JavaScript strings *)

Module JsString.

Definition is_upper (c : ascii) : bool :=
  let n := nat_of_ascii c in (65 <=? n)%nat && (n <=? 90)%nat.

Definition is_lower (c : ascii) : bool :=
  let n := nat_of_ascii c in (97 <=? n)%nat && (n <=? 122)%nat.

Definition lower_char (c : ascii) : ascii :=
  if is_upper c then ascii_of_nat (nat_of_ascii c + 32) else c.

Definition upper_char (c : ascii) : ascii :=
  if is_lower c then ascii_of_nat (nat_of_ascii c - 32) else c.

Fixpoint toLowerCase (s : string) : string :=
  match s with
  | EmptyString => EmptyString
  | String c r => String (lower_char c) (toLowerCase r)
  end.

Fixpoint toUpperCase (s : string) : string :=
  match s with
  | EmptyString => EmptyString
  | String c r => String (upper_char c) (toUpperCase r)
  end.

(** [s.charAt(0)]: the first character as a string, the empty string when there is none. *)
Definition charAt0 (s : string) : string :=
  match s with
  | EmptyString => EmptyString
  | String c _ => String c EmptyString
  end.

(** [s.slice(1)] *)
Definition slice1 (s : string) : string :=
  match s with
  | EmptyString => EmptyString
  | String _ r => r
  end.

(** tab, line feed, vertical tab, form feed, carriage return, space *)
Definition is_ws (c : ascii) : bool :=
  let n := nat_of_ascii c in ((9 <=? n)%nat && (n <=? 13)%nat) || (n =? 32)%nat.

Fixpoint trimStart (s : string) : string :=
  match s with
  | EmptyString => EmptyString
  | String c r => if is_ws c then trimStart r else s
  end.

Fixpoint trimEnd (s : string) : string :=
  match s with
  | EmptyString => EmptyString
  | String c r =>
      match trimEnd r with
      | EmptyString => if is_ws c then EmptyString else String c EmptyString
      | r' => String c r'
      end
  end.

Definition trim (s : string) : string := trimEnd (trimStart s).

Fixpoint prefixb (p s : string) : bool :=
  match p, s with
  | EmptyString, _ => true
  | String a p', String b s' => Ascii.eqb a b && prefixb p' s'
  | String _ _, EmptyString => false
  end.

Definition startsWith (s p : string) : bool := prefixb p s.

(** [s.includes(p)] *)
Fixpoint includes (s p : string) : bool :=
  prefixb p s ||
  match s with
  | EmptyString => false
  | String _ r => includes r p
  end.

Fixpoint drop (n : nat) (s : string) : string :=
  match n, s with
  | O, _ => s
  | S k, String _ r => drop k r
  | S _, EmptyString => EmptyString
  end.

(** [s.replace(p, q)] with a string pattern: the first occurrence only. *)
Fixpoint replace (s p q : string) : string :=
  if prefixb p s then q ++ drop (String.length p) s
  else match s with
       | EmptyString => EmptyString
       | String c r => String c (replace r p q)
       end.

(** [s.replace(/\/$/, '')]: one slash at the very end is removed. *)
Fixpoint stripTrailingSlash (s : string) : string :=
  match s with
  | EmptyString => EmptyString
  | String c r =>
      match r with
      | EmptyString => if Ascii.eqb c "/" then EmptyString else s
      | _ => String c (stripTrailingSlash r)
      end
  end.

Fixpoint endsWithSlash (s : string) : bool :=
  match s with
  | EmptyString => false
  | String c EmptyString => Ascii.eqb c "/"
  | String _ r => endsWithSlash r
  end.

(** Truthiness of a string: only the empty string is falsy. *)
Definition truthy (s : string) : bool :=
  match s with EmptyString => false | _ => true end.

Fixpoint join (sep : string) (l : list string) : string :=
  match l with
  | [] => EmptyString
  | [x] => x
  | x :: r => x ++ sep ++ join sep r
  end.

Definition digit (n : nat) : string :=
  String (ascii_of_nat (48 + n)) EmptyString.

Fixpoint digits_of (fuel : nat) (n : N) (acc : string) : string :=
  match fuel with
  | O => acc
  | S f =>
      let acc' := digit (N.to_nat (n mod 10)) ++ acc in
      if (n / 10 =? 0)%N then acc' else digits_of f (n / 10) acc'
  end.

Definition of_N (n : N) : string := digits_of (S (N.size_nat n)) n EmptyString.

(** [String(z)] for an integer number. *)
Definition of_Z (z : Z) : string :=
  match z with
  | Z0 => "0"
  | Zpos p => of_N (Npos p)
  | Zneg p => "-" ++ of_N (Npos p)
  end.

(** A canonical array index: a decimal numeral without leading zero. *)
Fixpoint all_digits (s : string) : bool :=
  match s with
  | EmptyString => true
  | String c r =>
      let n := nat_of_ascii c in
      (48 <=? n)%nat && (n <=? 57)%nat && all_digits r
  end.

Fixpoint digits_value (acc : N) (s : string) : N :=
  match s with
  | EmptyString => acc
  | String c r => digits_value (10 * acc + (N_of_ascii c - 48))%N r
  end.

Definition parse_index (s : string) : option N :=
  match s with
  | EmptyString => None
  | String c r =>
      if all_digits s && (negb (Ascii.eqb c "0") || String.eqb r EmptyString)
      then Some (digits_value 0 s) else None
  end.

End JsString.

(** ** JavaScript values, as JSON gives them *)

#[local] Unset Elimination Schemes.
Inductive JsVal : Type :=
| VUndefined
| VNull
| VBool (b : bool)
| VNum (z : Z)
| VStr (s : string)
| VArr (items : list JsVal)
| VObj (fields : list (string * JsVal)).
#[local] Set Elimination Schemes.

(** What a [throw] carries.  [Error msg] is [new Error(msg)]; the others are
    raised by the runtime (a property read on null or undefined, a call of
    something that is no function, a body that is no JSON) or by [fetch]
    when no response arrives. *)
Inductive JsError : Type :=
| Error (message : string)
| TypeError
| SyntaxError
| FetchFailed (reason : string).

Inductive Outcome (A : Type) : Type :=
| Return (a : A)
| Throw (e : JsError).
Arguments Return {A} a.
Arguments Throw {A} e.

Module Js.

Definition truthy (v : JsVal) : bool :=
  match v with
  | VUndefined | VNull => false
  | VBool b => b
  | VNum z => negb (z =? 0)
  | VStr s => JsString.truthy s
  | VArr _ | VObj _ => true
  end.

Definition nullish (v : JsVal) : bool :=
  match v with
  | VUndefined | VNull => true
  | _ => false
  end.

(** [a || b] and [a ?? b] on values *)
Definition or_else (a b : JsVal) : JsVal := if truthy a then a else b.
Definition coalesce (a b : JsVal) : JsVal := if nullish a then b else a.

(** [typeof v === 'object'] *)
Definition typeof_object (v : JsVal) : bool :=
  match v with
  | VNull | VArr _ | VObj _ => true
  | _ => false
  end.

(** An object is the list of its own properties in insertion order. *)
Fixpoint lookup (fields : list (string * JsVal)) (k : string) : JsVal :=
  match fields with
  | [] => VUndefined
  | (k', v) :: r => if String.eqb k' k then v else lookup r k
  end.

(** Assignment to a key: in place when the key exists, appended otherwise. *)
Fixpoint set_field (fields : list (string * JsVal)) (k : string) (v : JsVal)
  : list (string * JsVal) :=
  match fields with
  | [] => [(k, v)]
  | (k', v') :: r =>
      if String.eqb k' k then (k, v) :: r else (k', v') :: set_field r k v
  end.

Fixpoint chars (s : string) : list JsVal :=
  match s with
  | EmptyString => []
  | String c r => VStr (String c EmptyString) :: chars r
  end.

Definition index (items : list JsVal) (k : string) : JsVal :=
  if String.eqb k "length" then VNum (Z.of_nat (List.length items))
  else match JsString.parse_index k with
       | Some i => nth (N.to_nat i) items VUndefined
       | None => VUndefined
       end.

(** [v[k]] (and [v.k]): reading a property of null or undefined throws. *)
Definition get (v : JsVal) (k : string) : Outcome JsVal :=
  match v with
  | VUndefined | VNull => Throw TypeError
  | VObj fields => Return (lookup fields k)
  | VArr items => Return (index items k)
  | VStr s => Return (index (chars s) k)
  | VBool _ | VNum _ => Return VUndefined
  end.

(** [v?.k] *)
Definition opt_get (v : JsVal) (k : string) : Outcome JsVal :=
  if nullish v then Return VUndefined else get v k.

(** [String(v)], which is also what a template literal and a property key
    make of [v]. *)
Fixpoint to_string (v : JsVal) : string :=
  match v with
  | VUndefined => "undefined"
  | VNull => "null"
  | VBool true => "true"
  | VBool false => "false"
  | VNum z => JsString.of_Z z
  | VStr s => s
  | VArr items =>
      JsString.join ","
        (List.map (fun x => if nullish x then EmptyString else to_string x) items)
  | VObj _ => "[object Object]"
  end.

(** The element strings of [Array.prototype.join]. *)
Definition join (sep : string) (items : list JsVal) : string :=
  JsString.join sep
    (List.map (fun x => if nullish x then EmptyString else to_string x) items).

(** [a === s] against a string *)
Definition strict_eq_str (a : JsVal) (s : string) : bool :=
  match a with
  | VStr t => String.eqb t s
  | _ => false
  end.

(** What [for (const x of v)] iterates over. *)
Definition iterate (v : JsVal) : Outcome (list JsVal) :=
  match v with
  | VArr items => Return items
  | VStr s => Return (chars s)
  | _ => Throw TypeError
  end.

(** The own enumerable properties a spread [{...v}] copies. *)
Fixpoint indexed (i : nat) (items : list JsVal) : list (string * JsVal) :=
  match items with
  | [] => []
  | x :: r => (JsString.of_N (N.of_nat i), x) :: indexed (S i) r
  end.

Definition spread (v : JsVal) : list (string * JsVal) :=
  match v with
  | VObj fields => fields
  | VArr items => indexed 0 items
  | VStr s => indexed 0 (chars s)
  | _ => []
  end.

End Js.

(** ** Settings, transport and the connection state *)

(** lib/settings.ts: the persisted pair, as the main process hands it out
    on [get-settings] and replaces it on [save-settings]. *)
Record Settings : Type := mkSettings {
  weaviateUrl : string;
  apiKey : string
}.

Inductive Method : Type := GET | POST | PATCH | DELETE.

(** One call of [fetch].  [body] is the value given to [JSON.stringify]. *)
Record Request : Type := mkRequest {
  method : Method;
  url : string;
  headers : list (string * string);
  body : option JsVal
}.

(** A response: [body_text] is what [response.text()] resolves to ([None]
    when the body cannot be read) and [body_json] is that text parsed
    ([None] when it is no JSON). *)
Record Response : Type := mkResponse {
  status : Z;
  statusText : string;
  body_text : option string;
  body_json : option JsVal
}.

Inductive FetchResult : Type :=
| Responds (r : Response)
| Rejects (e : JsError).

Definition Exchange : Type := (Request * FetchResult)%type.

(** The module-level variables of lib/weaviate.ts, the settings store
    behind lib/settings.ts, and the requests sent so far with what came
    back, oldest first. *)
Record State : Type := mkState {
  currentUrl : string;
  currentApiKey : string;
  store : Settings;
  trace : list Exchange
}.

Definition M (A : Type) : Type := State -> Outcome A * State.

Definition ret {A} (a : A) : M A := fun st => (Return a, st).
Definition throw {A} (e : JsError) : M A := fun st => (Throw e, st).

Definition bind {A B} (m : M A) (k : A -> M B) : M B :=
  fun st =>
    match m st with
    | (Return a, st') => k a st'
    | (Throw e, st') => (Throw e, st')
    end.

(** [try { m } catch (e) { h e }] *)
Definition try_catch {A} (m : M A) (h : JsError -> M A) : M A :=
  fun st =>
    match m st with
    | (Throw e, st') => h e st'
    | r => r
    end.

(** [try { m } catch (error) { console.error(...); throw error; }] *)
Definition logged {A} (m : M A) : M A := try_catch m (fun e => throw e).

(** A pure computation that may throw, run inside [M]. *)
Definition lift {A} (o : Outcome A) : M A := fun st => (o, st).

Definition obind {A B} (o : Outcome A) (k : A -> Outcome B) : Outcome B :=
  match o with
  | Return a => k a
  | Throw e => Throw e
  end.

Declare Scope js_scope.
Delimit Scope js_scope with js.
Notation "x <- m ;; k" := (bind m (fun x => k))
  (at level 61, m at next level, right associativity) : js_scope.
Notation "m ;;; k" := (bind m (fun _ => k))
  (at level 61, right associativity) : js_scope.
Notation "x <~ o ;; k" := (obind o (fun x => k))
  (at level 61, o at next level, right associativity) : js_scope.
Open Scope js_scope.

(** Monadic traversal of a list, left to right, stopping at the first throw. *)
Fixpoint for_each {A} (f : A -> M unit) (l : list A) : M unit :=
  match l with
  | [] => ret tt
  | x :: r => f x ;;; for_each f r
  end.

Fixpoint omap {A B} (f : A -> Outcome B) (l : list A) : Outcome (list B) :=
  match l with
  | [] => Return []
  | x :: r => y <~ f x ;; ys <~ omap f r ;; Return (y :: ys)
  end.

Definition ok (r : Response) : bool :=
  (200 <=? status r) && (status r <=? 299).

(** [response.json()] *)
Definition json (r : Response) : M JsVal :=
  match body_text r with
  | None => throw TypeError
  | Some _ =>
      match body_json r with
      | Some v => ret v
      | None => throw SyntaxError
      end
  end.

(** [response.text()] *)
Definition text (r : Response) : M string :=
  match body_text r with
  | None => throw TypeError
  | Some t => ret t
  end.

Definition nl : string := String (ascii_of_nat 10) EmptyString.
Definition dq : string := String (ascii_of_nat 34) EmptyString.

(** ** lib/settings.ts *)

Module settings.

Definition getSettings : M Settings := fun st => (Return (store st), st).

Definition saveSettings (s : Settings) : M unit :=
  fun st => (Return tt, mkState (currentUrl st) (currentApiKey st) s (trace st)).

End settings.

(** ** lib/weaviate.ts *)

Module weaviate.

Record PropertyInfo : Type := mkPropertyInfo {
  pi_name : JsVal;
  pi_dataType : JsVal;
  pi_description : JsVal
}.

Record CollectionInfo : Type := mkCollectionInfo {
  ci_name : JsVal;
  ci_description : JsVal;
  ci_count : JsVal;
  ci_properties : list PropertyInfo
}.

Record SortConfig : Type := mkSort {
  sort_property : string;
  sort_order : string
}.

(** An entry of the [properties] argument of [getCollectionData]. *)
Record PropertyRef : Type := mkPropertyRef {
  pr_name : string;
  pr_dataType : JsVal
}.

Record SchemaProperty : Type := mkSchemaProperty {
  sp_name : string;
  sp_dataType : list string;
  sp_description : option string
}.

Record CreateCollectionSchema : Type := mkSchema {
  cs_class : string;
  cs_description : option string;
  cs_properties : list SchemaProperty
}.

Inductive SearchType : Type := bm25 | vector | hybrid.

Record SearchOptions : Type := mkSearch {
  so_query : string;
  so_collectionName : string;
  so_searchType : option SearchType;
  so_limit : option Z;
  so_properties : option (list string)
}.

Definition notConfiguredMessage : string :=
  "Weaviate URL is not configured. Please set it in Settings.".

(** [!currentUrl || currentUrl.trim() === ''] *)
Definition notConfigured (u : string) : bool :=
  negb (JsString.truthy u) || String.eqb (JsString.trim u) EmptyString.

Definition opt_str (o : option string) : JsVal :=
  match o with
  | Some s => VStr s
  | None => VUndefined
  end.

(** A template literal's rendering of an optional number. *)
Definition show_num (o : option Z) : string :=
  match o with
  | Some z => JsString.of_Z z
  | None => "undefined"
  end.

Section AccessLayer.

(** The store and the network between: what [fetch] gets back for a
    request, given everything exchanged before. *)
Variable server : list Exchange -> Request -> FetchResult.

Definition fetch (rq : Request) : M Response :=
  fun st =>
    let r := server (trace st) rq in
    let st' := mkState (currentUrl st) (currentApiKey st) (store st)
                 (trace st ++ [(rq, r)]) in
    match r with
    | Responds resp => (Return resp, st')
    | Rejects e => (Throw e, st')
    end.

Definition get_url : M string := fun st => (Return (currentUrl st), st).
Definition get_key : M string := fun st => (Return (currentApiKey st), st).

Definition initializeWeaviate : M unit :=
  s <- settings.getSettings ;;
  fun st => (Return tt, mkState (weaviateUrl s) (apiKey s) (store st) (trace st)).

Definition getWeaviateUrl : M string :=
  u <- get_url ;;
  ret (if JsString.truthy u then u else "URL not configured").

Definition getHeaders : M (list (string * string)) :=
  k <- get_key ;;
  ret (("Content-Type", "application/json") ::
       (if JsString.truthy k then [("Authorization", "Bearer " ++ k)] else [])).

(** The check that follows every [await initializeWeaviate()]. *)
Definition requireUrl : M unit :=
  u <- get_url ;;
  if notConfigured u then throw (Error notConfiguredMessage) else ret tt.

Definition executeQuery (queryStr : string) : M JsVal :=
  logged (
    initializeWeaviate ;;;
    requireUrl ;;;
    hs <- getHeaders ;;
    u <- get_url ;;
    response <- fetch (mkRequest POST (u ++ "/v1/graphql") hs
                         (Some (VObj [("query", VStr queryStr)]))) ;;
    if negb (ok response)
    then throw (Error ("Query failed: " ++ statusText response))
    else json response).

(** Same as [executeQuery] but for what it logs. *)
Definition executeAggregateQuery (queryStr className : string) : M JsVal :=
  logged (
    initializeWeaviate ;;;
    requireUrl ;;;
    hs <- getHeaders ;;
    u <- get_url ;;
    response <- fetch (mkRequest POST (u ++ "/v1/graphql") hs
                         (Some (VObj [("query", VStr queryStr)]))) ;;
    if negb (ok response)
    then throw (Error ("Query failed: " ++ statusText response))
    else json response).

Definition aggregateQuery (className : string) : string :=
  nl ++ "    {" ++ nl ++
  "      Aggregate {" ++ nl ++
  "        " ++ className ++ " {" ++ nl ++
  "          meta {" ++ nl ++
  "            count" ++ nl ++
  "          }" ++ nl ++
  "        }" ++ nl ++
  "      }" ++ nl ++
  "    }" ++ nl ++
  "  ".

(** [aggregateResponse?.data.Aggregate[className] ?? []] followed by
    [aggregateData[0]?.meta?.count ?? 0] *)
Definition readCount (aggregateResponse : JsVal) (className : string)
  : Outcome JsVal :=
  x <~ (if Js.nullish aggregateResponse then Return VUndefined
        else d <~ Js.get aggregateResponse "data" ;;
             a <~ Js.get d "Aggregate" ;;
             Js.get a className) ;;
  let aggregateData := Js.coalesce x (VArr []) in
  e <~ Js.get aggregateData "0" ;;
  m <~ Js.opt_get e "meta" ;;
  c <~ Js.opt_get m "count" ;;
  Return (Js.coalesce c (VNum 0)).

Definition getObjectCount (className : string) : M JsVal :=
  r <- try_catch
         (v <- executeAggregateQuery (aggregateQuery className) className ;;
          ret (Some v))
         (fun _ => ret None) ;;
  match r with
  | None => ret (VNum 0)
  | Some aggregateResponse => lift (readCount aggregateResponse className)
  end.

Definition mapProperty (p : JsVal) : Outcome PropertyInfo :=
  n <~ Js.get p "name" ;;
  d <~ Js.get p "dataType" ;;
  e <~ Js.get p "description" ;;
  Return (mkPropertyInfo n d e).

(** [weavClass.properties?.map(...) ?? []] *)
Definition classProperties (weavClass : JsVal) : Outcome (list PropertyInfo) :=
  ps <~ Js.get weavClass "properties" ;;
  if Js.nullish ps then Return []
  else match ps with
       | VArr items => omap mapProperty items
       | _ => Throw TypeError
       end.

(** The body of the loop over the schema's classes. *)
Definition describeClass (weavClass : JsVal) : M CollectionInfo :=
  cls <- lift (Js.get weavClass "class") ;;
  count <- getObjectCount (Js.to_string cls) ;;
  description <- lift (Js.get weavClass "description") ;;
  props <- lift (classProperties weavClass) ;;
  ret (mkCollectionInfo cls description count props).

Fixpoint describeClasses (classes : list JsVal) : M (list CollectionInfo) :=
  match classes with
  | [] => ret []
  | weavClass :: rest =>
      info <- describeClass weavClass ;;
      infos <- describeClasses rest ;;
      ret (info :: infos)
  end.

Definition getCollections : M (list CollectionInfo) :=
  logged (
    initializeWeaviate ;;;
    requireUrl ;;;
    hs <- getHeaders ;;
    u <- get_url ;;
    response <- fetch (mkRequest GET (u ++ "/v1/schema") hs None) ;;
    if negb (ok response)
    then throw (Error ("Failed to fetch schema: " ++ statusText response))
    else
      schema <- json response ;;
      cs <- lift (Js.get schema "classes") ;;
      classes <- lift (Js.iterate (Js.coalesce cs (VArr []))) ;;
      describeClasses classes).

Definition sortDirective (sort : option SortConfig) : string :=
  match sort with
  | Some s =>
      "sort: {" ++ nl ++
      "          path: [" ++ dq ++ sort_property s ++ dq ++ "]," ++ nl ++
      "          order: " ++ JsString.toLowerCase (sort_order s) ++ nl ++
      "        }"
  | None => EmptyString
  end.

Definition paginationDirective (limit offset : option Z) : string :=
  "limit: " ++ show_num limit ++ ", offset: " ++ show_num offset.

Definition listingQuery (className : string) (properties : list PropertyRef)
    (sort : option SortConfig) (limit offset : option Z) : string :=
  let directives :=
    JsString.join ", "
      (List.filter JsString.truthy
         [sortDirective sort; paginationDirective limit offset]) in
  "{" ++ nl ++
  "      Get {" ++ nl ++
  "        " ++ className ++
  (if JsString.truthy directives then "(" ++ directives ++ ")" else EmptyString) ++
  " {" ++ nl ++
  "          _additional {" ++ nl ++
  "            id" ++ nl ++
  "          }" ++ nl ++
  "          " ++ JsString.join nl (List.map pr_name properties) ++ nl ++
  "        }" ++ nl ++
  "      }" ++ nl ++
  "    }".

Definition invalidStructureMessage : string :=
  "Invalid response structure from Weaviate".

(** [if (!response?.data?.Get) throw ...; return response.data.Get[name] || []] *)
Definition readRows (response : JsVal) (name : string) : Outcome JsVal :=
  d <~ Js.opt_get response "data" ;;
  g <~ Js.opt_get d "Get" ;;
  if negb (Js.truthy g) then Throw (Error invalidStructureMessage)
  else
    d' <~ Js.get response "data" ;;
    g' <~ Js.get d' "Get" ;;
    rows <~ Js.get g' name ;;
    Return (Js.or_else rows (VArr [])).

Definition getCollectionData (className : string) (properties : list PropertyRef)
    (sort : option SortConfig) (limit offset : option Z) : M JsVal :=
  logged (
    initializeWeaviate ;;;
    requireUrl ;;;
    response <- executeQuery (listingQuery className properties sort limit offset) ;;
    lift (readRows response className)).

Definition deleteObject (hs : list (string * string)) (id : string) : M unit :=
  logged (
    u <- get_url ;;
    response <- fetch (mkRequest DELETE (u ++ "/v1/objects/" ++ id) hs None) ;;
    if negb (ok response)
    then throw (Error ("Failed to delete object: " ++ statusText response))
    else ret tt).

Definition deleteObjects (className : string) (objectIds : list string) : M unit :=
  initializeWeaviate ;;;
  requireUrl ;;;
  hs <- getHeaders ;;
  for_each (deleteObject hs) objectIds.

Definition deleteCollection (className : string) : M unit :=
  logged (
    initializeWeaviate ;;;
    requireUrl ;;;
    hs <- getHeaders ;;
    u <- get_url ;;
    response <- fetch (mkRequest DELETE (u ++ "/v1/schema/" ++ className) hs None) ;;
    if negb (ok response)
    then throw (Error ("Failed to delete collection: " ++ statusText response))
    else ret tt).

(** The two switches of [createCollection], on the lower-cased token. *)
Definition arrayType (baseType : string) : string :=
  if String.eqb baseType "string" then "text[]"
  else if String.eqb baseType "text" then "text[]"
  else if String.eqb baseType "int" then "int[]"
  else if String.eqb baseType "number" then "number[]"
  else if String.eqb baseType "boolean" then "boolean[]"
  else if String.eqb baseType "date" then "date[]"
  else "text[]".

Definition singleType (lowerType : string) : string :=
  if String.eqb lowerType "string" then "text"
  else if String.eqb lowerType "text" then "text"
  else if String.eqb lowerType "int" then "int"
  else if String.eqb lowerType "number" then "number"
  else if String.eqb lowerType "boolean" then "boolean"
  else if String.eqb lowerType "date" then "date"
  else "text".

(** [prop.dataType[0] || 'string'] and the branch on [includes('[]')] *)
Definition weaviateDataType (dataTypes : list string) : string :=
  let dataType :=
    match dataTypes with
    | t :: _ => if JsString.truthy t then t else "string"
    | [] => "string"
    end in
  if JsString.includes dataType "[]"
  then arrayType (JsString.toLowerCase (JsString.replace dataType "[]" EmptyString))
  else singleType (JsString.toLowerCase dataType).

Definition mappedProperty (prop : SchemaProperty) : JsVal :=
  VObj [("name", VStr (sp_name prop));
        ("dataType", VArr [VStr (weaviateDataType (sp_dataType prop))]);
        ("description", opt_str (sp_description prop))].

(** [schema.class.charAt(0).toUpperCase() + schema.class.slice(1)] *)
Definition capitalize (s : string) : string :=
  JsString.toUpperCase (JsString.charAt0 s) ++ JsString.slice1 s.

Definition weaviateSchema (schema : CreateCollectionSchema) : JsVal :=
  VObj [("class", VStr (capitalize (cs_class schema)));
        ("description", opt_str (cs_description schema));
        ("properties", VArr (List.map mappedProperty (cs_properties schema)))].

(** The inside of the [try] that reads a message out of the error body. *)
Definition parsedMessage (errorJson errorMessage : JsVal) : Outcome JsVal :=
  e <~ Js.get errorJson "error" ;;
  if Js.truthy e then
    match e with
    | VArr (_ :: _) =>
        e0 <~ Js.get e "0" ;;
        m <~ Js.get e0 "message" ;;
        Return (Js.or_else m errorMessage)
    | VStr _ => Return e
    | _ =>
        m <~ Js.get e "message" ;;
        Return (if Js.truthy m then m else errorMessage)
    end
  else
    m <~ Js.get errorJson "message" ;;
    Return (if Js.truthy m then m else errorMessage).

Definition creationError (response : Response) : JsError :=
  let errorText :=
    match body_text response with
    | Some t => t
    | None => "Unknown error"
    end in
  let errorMessage := "Failed to create collection: " ++ statusText response in
  let fallback :=
    if JsString.truthy errorText && (String.length errorText <? 500)%nat
    then errorMessage ++ ". " ++ errorText
    else errorMessage in
  let parsed :=
    match body_text response with
    | Some _ => body_json response
    | None => None
    end in
  match parsed with
  | Some errorJson =>
      match parsedMessage errorJson (VStr errorMessage) with
      | Return m => Error (Js.to_string m)
      | Throw _ => Error fallback
      end
  | None => Error fallback
  end.

(** Everything thrown inside is an [Error], so the final [catch], which
    rethrows an [Error] as it is, is [logged]. *)
Definition createCollection (schema : CreateCollectionSchema) : M unit :=
  logged (
    initializeWeaviate ;;;
    requireUrl ;;;
    u <- get_url ;;
    let baseUrl := JsString.stripTrailingSlash u in
    hs <- getHeaders ;;
    response <- fetch (mkRequest POST (baseUrl ++ "/v1/schema") hs
                         (Some (weaviateSchema schema))) ;;
    if negb (ok response)
    then throw (creationError response)
    else
      _ <- try_catch (json response) (fun _ => ret (VObj [])) ;;
      ret tt).

Definition createObject (className : string) (object : JsVal) : M JsVal :=
  logged (
    initializeWeaviate ;;;
    requireUrl ;;;
    hs <- getHeaders ;;
    u <- get_url ;;
    response <- fetch (mkRequest POST (u ++ "/v1/objects") hs
                         (Some (VObj [("class", VStr className);
                                      ("properties", object)]))) ;;
    if negb (ok response)
    then
      errorText <- text response ;;
      throw (Error ("Failed to create object: " ++ statusText response ++
                    ". " ++ errorText))
    else
      result <- json response ;;
      lift (Js.get result "id")).

Definition getObjectById (className objectId : string) : M JsVal :=
  logged (
    initializeWeaviate ;;;
    requireUrl ;;;
    hs <- getHeaders ;;
    u <- get_url ;;
    response <- fetch (mkRequest GET (u ++ "/v1/objects/" ++ objectId) hs None) ;;
    if negb (ok response)
    then
      if status response =? 404 then ret VNull
      else throw (Error ("Failed to fetch object: " ++ statusText response))
    else
      result <- json response ;;
      p <- lift (Js.get result "properties") ;;
      ret (Js.or_else p (VObj []))).

Definition updateObject (className objectId : string) (object : JsVal) : M unit :=
  logged (
    initializeWeaviate ;;;
    requireUrl ;;;
    hs <- getHeaders ;;
    u <- get_url ;;
    response <- fetch (mkRequest PATCH (u ++ "/v1/objects/" ++ objectId) hs
                         (Some (VObj [("class", VStr className);
                                      ("properties", object)]))) ;;
    if negb (ok response)
    then
      errorText <- text response ;;
      throw (Error ("Failed to update object: " ++ statusText response ++
                    ". " ++ errorText))
    else ret tt).

Definition quoted (p : string) : string := dq ++ p ++ dq.

(** [properties && properties.length > 0 ? properties.map(...).join(', ') : ''] *)
Definition propertiesList (properties : option (list string)) : string :=
  match properties with
  | Some (p :: ps) => JsString.join ", " (List.map quoted (p :: ps))
  | _ => EmptyString
  end.

Definition restriction (properties : option (list string)) : string :=
  let l := propertiesList properties in
  if JsString.truthy l then ", properties: [" ++ l ++ "]" else EmptyString.

Definition searchDirective (searchType : SearchType) (query : string)
    (properties : option (list string)) : string :=
  match searchType with
  | bm25 => "bm25: { query: " ++ dq ++ query ++ dq ++ restriction properties ++ " }"
  | vector => "nearText: { concepts: [" ++ dq ++ query ++ dq ++ "] }"
  | hybrid => "hybrid: { query: " ++ dq ++ query ++ dq ++ restriction properties ++ " }"
  end.

(** [const { ..., searchType = 'bm25', limit = 10, ... } = options] *)
Definition searchTypeOf (options : SearchOptions) : SearchType :=
  match so_searchType options with
  | Some t => t
  | None => bm25
  end.

(** [limit = 10] in the destructuring, then [limit || 10] *)
Definition limitValue (options : SearchOptions) : Z :=
  let limit := match so_limit options with Some l => l | None => 10 end in
  if negb (limit =? 0) then limit else 10.

Definition propertiesToFetch (propertyNames : list JsVal) : string :=
  match propertyNames with
  | [] => "_additional { id }"
  | _ => Js.join nl propertyNames
  end.

(** [collections.find(c => c.name === collectionName)] and
    [collection?.properties.map(p => p.name) || []] *)
Definition propertyNamesOf (collections : list CollectionInfo)
    (collectionName : string) : list JsVal :=
  match List.find (fun c => Js.strict_eq_str (ci_name c) collectionName) collections with
  | Some collection => List.map pi_name (ci_properties collection)
  | None => []
  end.

Definition graphqlQuery (options : SearchOptions) (propertyNames : list JsVal)
  : string :=
  "{" ++ nl ++
  "      Get {" ++ nl ++
  "        " ++ so_collectionName options ++ "(" ++ nl ++
  "          " ++ searchDirective (searchTypeOf options) (so_query options)
                    (so_properties options) ++ nl ++
  "          limit: " ++ JsString.of_Z (limitValue options) ++ nl ++
  "        ) {" ++ nl ++
  "          _additional {" ++ nl ++
  "            id" ++ nl ++
  "            score" ++ nl ++
  "          }" ++ nl ++
  "          " ++ propertiesToFetch propertyNames ++ nl ++
  "        }" ++ nl ++
  "      }" ++ nl ++
  "    }".

Definition searchCollections (options : SearchOptions) : M JsVal :=
  logged (
    initializeWeaviate ;;;
    requireUrl ;;;
    collections <- getCollections ;;
    let propertyNames := propertyNamesOf collections (so_collectionName options) in
    response <- executeQuery (graphqlQuery options propertyNames) ;;
    lift (readRows response (so_collectionName options))).

End AccessLayer.

End weaviate.

(** A handler's [try { ... } catch (err) { setError(...) }]: the handler
    itself never throws; what it caught is what the form then shows. *)
Definition caught {A} (m : M A) : M (Outcome A) :=
  fun st => let (o, st') := m st in (Return o, st').

(** ** components/SettingsModal.tsx *)

Module SettingsModal.

Definition formatUrl (entered : string) : string :=
  if JsString.truthy entered
     && negb (JsString.startsWith entered "http://")
     && negb (JsString.startsWith entered "https://")
  then "http://" ++ entered
  else entered.

Definition handleSave (form : Settings) : M (Outcome unit) :=
  caught (
    settings.saveSettings (mkSettings (formatUrl (weaviateUrl form)) (apiKey form)) ;;;
    weaviate.initializeWeaviate).

(** [testConnection]: the url is given a scheme even when it is empty,
    and the request is made with what the form holds, not with what is
    saved. *)
Definition testUrl (entered : string) : string :=
  if negb (JsString.startsWith entered "http://")
     && negb (JsString.startsWith entered "https://")
  then "http://" ++ entered
  else entered.

Definition testRequest (form : Settings) : Request :=
  mkRequest GET (testUrl (weaviateUrl form) ++ "/v1/schema")
    (("Content-Type", "application/json") ::
     (if JsString.truthy (apiKey form)
      then [("Authorization", "Bearer " ++ apiKey form)] else []))
    None.

Definition testConnection (server : list Exchange -> Request -> FetchResult)
    (form : Settings) : M (Outcome unit) :=
  caught (
    response <- weaviate.fetch server (testRequest form) ;;
    if negb (ok response)
    then throw (Error ("Connection failed: " ++ statusText response ++
                       " (Status: " ++ JsString.of_Z (status response) ++ ")"))
    else ret tt).

End SettingsModal.

(** ** components/CreateCollectionModal.tsx *)

Module CreateCollectionModal.

Record FormProperty : Type := mkFormProperty {
  fp_name : string;
  fp_dataType : list string;
  fp_description : string
}.

(** [s.trim() || undefined] *)
Definition trimmed_or_undefined (s : string) : option string :=
  let t := JsString.trim s in
  if JsString.truthy t then Some t else None.

Definition validProperties (properties : list FormProperty)
  : list weaviate.SchemaProperty :=
  List.map
    (fun p => weaviate.mkSchemaProperty (JsString.trim (fp_name p)) (fp_dataType p)
                (trimmed_or_undefined (fp_description p)))
    (List.filter (fun p => JsString.truthy (JsString.trim (fp_name p))) properties).

Section Handlers.
Variable server : list Exchange -> Request -> FetchResult.

Definition handleSubmit (collectionName description : string)
    (properties : list FormProperty) : M (Outcome unit) :=
  caught (
    if negb (JsString.truthy (JsString.trim collectionName))
    then throw (Error "Collection name is required")
    else
      let valid := validProperties properties in
      match valid with
      | [] => throw (Error "At least one property is required")
      | _ =>
          let className := JsString.trim collectionName in
          let formattedClassName := weaviate.capitalize className in
          weaviate.createCollection server
            (weaviate.mkSchema formattedClassName
               (trimmed_or_undefined description) valid)
      end).

End Handlers.

End CreateCollectionModal.

(** ** components/CollectionsList.tsx (the search view) *)

Module SearchView.

Definition defaultAdditional : JsVal :=
  VObj [("id", VStr EmptyString); ("score", VNum 0)].

(** The callback of [searchResults.map] *)
Definition normalizeResult (result : JsVal) : JsVal :=
  if negb (Js.truthy result) || negb (Js.typeof_object result)
  then VObj [("_additional", defaultAdditional)]
  else
    let additional :=
      match Js.get result "_additional" with
      | Return a => a
      | Throw _ => VUndefined
      end in
    VObj (Js.set_field (Js.spread result) "_additional"
            (Js.or_else additional defaultAdditional)).

(** [searchResults.map(...)]: only an array has a [map] to call. *)
Definition normalizeResults (searchResults : JsVal) : Outcome (list JsVal) :=
  match searchResults with
  | VArr rows => Return (List.map normalizeResult rows)
  | _ => Throw TypeError
  end.

Inductive SearchState : Type :=
| Prompt (message : string)
| Shown (results : Outcome (list JsVal)).

Section Handlers.
Variable server : list Exchange -> Request -> FetchResult.

Definition handleSearch (searchQuery selectedCollection : string)
    (searchType : weaviate.SearchType) (limit : Z)
    (selectedProperties : list string) : M SearchState :=
  if negb (JsString.truthy (JsString.trim searchQuery))
     || negb (JsString.truthy selectedCollection)
  then ret (Prompt "Please enter a search query and select a collection")
  else
    r <- caught (
      weaviate.initializeWeaviate ;;;
      let properties :=
        match selectedProperties with
        | [] => None
        | _ => Some selectedProperties
        end in
      searchResults <- weaviate.searchCollections server
        (weaviate.mkSearch searchQuery selectedCollection (Some searchType)
           (Some limit) properties) ;;
      lift (normalizeResults searchResults)) ;;
    ret (Shown r).

End Handlers.

End SearchView.

(** ** The public operations, as one type *)

(** A call of an exported operation of lib/weaviate.ts with its arguments;
    used to state properties that all of them share. *)
Inductive Call : Type :=
| CallExecuteQuery (queryStr : string)
| CallGetCollections
| CallGetCollectionData (className : string)
    (properties : list weaviate.PropertyRef) (sort : option weaviate.SortConfig)
    (limit offset : option Z)
| CallDeleteObjects (className : string) (objectIds : list string)
| CallDeleteCollection (className : string)
| CallCreateCollection (schema : weaviate.CreateCollectionSchema)
| CallCreateObject (className : string) (object : JsVal)
| CallGetObjectById (className objectId : string)
| CallUpdateObject (className objectId : string) (object : JsVal)
| CallSearchCollections (options : weaviate.SearchOptions).

Definition thrown {A} (r : Outcome A * State) : option JsError * State :=
  match r with
  | (Return _, st) => (None, st)
  | (Throw e, st) => (Some e, st)
  end.

(** Runs the call and keeps what it throws, if anything, and the state. *)
Definition perform (server : list Exchange -> Request -> FetchResult)
    (c : Call) (st : State) : option JsError * State :=
  match c with
  | CallExecuteQuery q => thrown (weaviate.executeQuery server q st)
  | CallGetCollections => thrown (weaviate.getCollections server st)
  | CallGetCollectionData c p s l o =>
      thrown (weaviate.getCollectionData server c p s l o st)
  | CallDeleteObjects c ids => thrown (weaviate.deleteObjects server c ids st)
  | CallDeleteCollection c => thrown (weaviate.deleteCollection server c st)
  | CallCreateCollection s => thrown (weaviate.createCollection server s st)
  | CallCreateObject c o => thrown (weaviate.createObject server c o st)
  | CallGetObjectById c i => thrown (weaviate.getObjectById server c i st)
  | CallUpdateObject c i o => thrown (weaviate.updateObject server c i o st)
  | CallSearchCollections o => thrown (weaviate.searchCollections server o st)
  end.

(** The state right after [initializeWeaviate]: the pair from the settings
    store replaces the connection, nothing has been sent. *)
Definition loaded (st : State) : State :=
  mkState (weaviateUrl (store st)) (apiKey (store st)) (store st) (trace st).

(** The connection a request is built from once settings are loaded. *)
Definition headersOf (st : State) : list (string * string) :=
  ("Content-Type", "application/json") ::
  (if JsString.truthy (apiKey (store st))
   then [("Authorization", "Bearer " ++ apiKey (store st))] else []).

Definition configured (st : State) : Prop :=
  weaviate.notConfigured (weaviateUrl (store st)) = false.


(** ** What the specification says of the connection url *)

(** A url is blank when it is empty or made of whitespace only. *)
Fixpoint blank (u : string) : bool :=
  match u with
  | EmptyString => true
  | String c r => JsString.is_ws c && blank r
  end.

Definition hasScheme (u : string) : bool :=
  JsString.startsWith u "http://" || JsString.startsWith u "https://".

(** The stored url is the normal form of the loaded one: [http://] in
    front when the loaded url has no scheme, the same bytes when it has
    one, and no slash at the end. *)
Definition normalizedFrom (loadedUrl storedUrl : string) : Prop :=
  (hasScheme loadedUrl = false -> storedUrl = "http://" ++ loadedUrl)
  /\ (hasScheme loadedUrl = true -> storedUrl = loadedUrl)
  /\ JsString.endsWithSlash storedUrl = false.

(** ** Reading a trace *)

(** The request [deleteObjects] sends for one id. *)
Definition deleteRequest (st : State) (id : string) : Request :=
  mkRequest DELETE (weaviateUrl (store st) ++ "/v1/objects/" ++ id)
    (headersOf st) None.

(** An exchange whose response arrived with a 2xx status. *)
Definition succeeded (x : Exchange) : bool :=
  match snd x with
  | Responds r => ok r
  | Rejects _ => false
  end.

(** What [deleteObjects] throws on an exchange that did not succeed. *)
Definition deletionError (r : FetchResult) : JsError :=
  match r with
  | Responds resp => Error ("Failed to delete object: " ++ statusText resp)
  | Rejects e => e
  end.

(** Each of the exchanges [new], in order, got the answer the store gives
    once all the exchanges before it are over. *)
Fixpoint answered (server : list Exchange -> Request -> FetchResult)
    (before new : list Exchange) : Prop :=
  match new with
  | [] => True
  | (rq, r) :: rest =>
      r = server before rq /\ answered server (before ++ [(rq, r)])%list rest
  end.

(** How a run of [deleteObjects] over [ids] ends, given its exchanges. *)
Definition deletion (st : State) (ids : list string) (o : Outcome unit)
    (new : list Exchange) : Prop :=
  match o with
  | Return _ =>
      List.map fst new = List.map (deleteRequest st) ids
      /\ forallb succeeded new = true
  | Throw e =>
      exists pre b post done r,
        ids = (pre ++ b :: post)%list
        /\ new = (done ++ [(deleteRequest st b, r)])%list
        /\ List.map fst done = List.map (deleteRequest st) pre
        /\ forallb succeeded done = true
        /\ succeeded (deleteRequest st b, r) = false
        /\ e = deletionError r
  end.

(** ** What the specification says of the schema-creation payload *)

(** The class name with its first character upper-cased. *)
Definition firstUpper (s : string) : string :=
  match s with
  | EmptyString => EmptyString
  | String c r => String (JsString.upper_char c) r
  end.

(** The canonical table: the recognized tokens and what they are stored as. *)
Definition canonicalTable : list (string * string) :=
  [("string", "text"); ("text", "text"); ("int", "int");
   ("number", "number"); ("boolean", "boolean"); ("date", "date")].

Fixpoint assoc (table : list (string * string)) (k : string) : option string :=
  match table with
  | [] => None
  | (k', v) :: r => if String.eqb k' k then Some v else assoc r k
  end.

(** A scalar token goes through the table by its lower-case form; one the
    table does not know is stored as [text]. *)
Definition canonical (token : string) : string :=
  match assoc canonicalTable (JsString.toLowerCase token) with
  | Some c => c
  | None => "text"
  end.

(** An array form, in the words of the specification: a token that ends
    with [[]]. *)
Fixpoint arrayForm (token : string) : bool :=
  match token with
  | EmptyString => false
  | String _ r => String.eqb token "[]" || arrayForm r
  end.

(** The request [createCollection] sends, with the payload spelled out. *)
Definition storedProperty (p : weaviate.SchemaProperty) : JsVal :=
  VObj [("name", VStr (weaviate.sp_name p));
        ("dataType", VArr [VStr (weaviate.weaviateDataType (weaviate.sp_dataType p))]);
        ("description", weaviate.opt_str (weaviate.sp_description p))].

Definition creationRequest (st : State) (schema : weaviate.CreateCollectionSchema)
  : Request :=
  mkRequest POST
    (JsString.stripTrailingSlash (weaviateUrl (store st)) ++ "/v1/schema")
    (headersOf st)
    (Some (VObj [("class", VStr (firstUpper (weaviate.cs_class schema)));
                 ("description", weaviate.opt_str (weaviate.cs_description schema));
                 ("properties",
                  VArr (List.map storedProperty (weaviate.cs_properties schema)))])).

(** The state once [rq] has been sent from the loaded connection and
    answered with [r]. *)
Definition sent (st : State) (rq : Request) (r : FetchResult) : State :=
  mkState (weaviateUrl (store st)) (apiKey (store st)) (store st)
    (trace st ++ [(rq, r)])%list.

(** The request that asks for the count of a class. *)
Definition countRequest (st : State) (className : string) : Request :=
  mkRequest POST (weaviateUrl (store st) ++ "/v1/graphql") (headersOf st)
    (Some (VObj [("query", VStr (weaviate.aggregateQuery className))])).

(** The request [getObjectById] sends. *)
Definition objectRequest (st : State) (objectId : string) : Request :=
  mkRequest GET (weaviateUrl (store st) ++ "/v1/objects/" ++ objectId)
    (headersOf st) None.

(** The request that carries a query-language document. *)
Definition queryRequest (st : State) (document : string) : Request :=
  mkRequest POST (weaviateUrl (store st) ++ "/v1/graphql") (headersOf st)
    (Some (VObj [("query", VStr document)])).

(** A form has a property worth submitting: one whose name is not blank. *)
Definition hasNamedProperty (properties : list CreateCollectionModal.FormProperty)
  : bool :=
  existsb (fun p => JsString.truthy (JsString.trim (CreateCollectionModal.fp_name p)))
    properties.

(** The value of [response?.data?.Get]. *)
Definition dataGet (response : JsVal) : JsVal :=
  match (d <~ Js.opt_get response "data" ;; Js.opt_get d "Get") with
  | Return g => g
  | Throw _ => VUndefined
  end.

(** A computation that leaves the settings store alone. *)
Definition keeps_store {A} (m : M A) : Prop :=
  forall st, store (snd (m st)) = store st.

(** The options the search view passes on. *)
Definition viewOptions (searchQuery selectedCollection : string)
    (searchType : weaviate.SearchType) (limit : Z)
    (selectedProperties : list string) : weaviate.SearchOptions :=
  weaviate.mkSearch searchQuery selectedCollection (Some searchType) (Some limit)
    (match selectedProperties with [] => None | _ => Some selectedProperties end).

(** [fragment] occurs in [document]. *)
Definition contains (document fragment : string) : Prop :=
  exists before after, document = before ++ fragment ++ after.

(** The text of a search document before its arguments and after them. *)
Definition searchHead (collectionName : string) : string :=
  "{" ++ nl ++ "      Get {" ++ nl ++ "        " ++ collectionName.

Definition searchTail (propertyNames : list JsVal) : string :=
  nl ++ "          _additional {" ++ nl ++ "            id" ++ nl ++
  "            score" ++ nl ++ "          }" ++ nl ++ "          " ++
  weaviate.propertiesToFetch propertyNames ++ nl ++ "        }" ++ nl ++
  "      }" ++ nl ++ "    }".

(** The line that closes the arguments of a search. *)
Definition limitLine (limitText : string) : string :=
  nl ++ "          limit: " ++ limitText ++ nl ++ "        ) {".

(** ** What an operation may send *)

(** The connection variables of [st] hold what the settings of [st0] give,
    and the settings are those of [st0]. *)
Definition connected (st0 st : State) : Prop :=
  store st = store st0
  /\ currentUrl st = weaviateUrl (store st0)
  /\ currentApiKey st = apiKey (store st0).

(** Run from a connected state, [m] stays connected, sends only requests
    that satisfy [P], and returns only values that satisfy [Q]. *)
Definition sends (st0 : State) (P : Request -> Prop) {A} (m : M A)
    (Q : A -> Prop) : Prop :=
  forall st,
    connected st0 st ->
    connected st0 (snd (m st))
    /\ (exists new,
           trace (snd (m st)) = (trace st ++ new)%list
           /\ Forall (fun x => P (fst x)) new)
    /\ (forall a, fst (m st) = Return a -> Q a).

(** A request that goes to the configured endpoint with the configured
    credential: the headers are the JSON content type followed by the
    bearer token when there is a key, and the url continues the configured
    url (less one slash at its end). *)
Definition addressed (st0 : State) (rq : Request) : Prop :=
  headers rq = headersOf st0
  /\ JsString.prefixb (JsString.stripTrailingSlash (weaviateUrl (store st0)))
       (url rq) = true.

(** A request that cannot change the store: a GET, or a POST to the query
    endpoint. *)
Definition readOnly (st0 : State) (rq : Request) : Prop :=
  method rq = GET
  \/ (method rq = POST /\ url rq = weaviateUrl (store st0) ++ "/v1/graphql").

(** The calls that are meant to read only. *)
Definition reading (c : Call) : bool :=
  match c with
  | CallExecuteQuery _ | CallGetCollections | CallGetCollectionData _ _ _ _ _
  | CallGetObjectById _ _ | CallSearchCollections _ => true
  | _ => false
  end.

(** The request [getCollections] starts with. *)
Definition schemaRequest (st : State) : Request :=
  mkRequest GET (weaviateUrl (store st) ++ "/v1/schema") (headersOf st) None.

(** A descriptor built from a schema entry: name, description and
    properties are read off the entry. *)
Definition describes (weavClass : JsVal) (info : weaviate.CollectionInfo) : Prop :=
  Js.get weavClass "class" = Return (weaviate.ci_name info)
  /\ Js.get weavClass "description" = Return (weaviate.ci_description info)
  /\ weaviate.classProperties weavClass = Return (weaviate.ci_properties info).

(** The count request made for a descriptor. *)
Definition countRequestFor (st : State) (info : weaviate.CollectionInfo) : Request :=
  countRequest st (Js.to_string (weaviate.ci_name info)).

(** The requests of the object and schema mutations. *)
Definition objectPayload (className : string) (object : JsVal) : JsVal :=
  VObj [("class", VStr className); ("properties", object)].

Definition createObjectRequest (st : State) (className : string) (object : JsVal)
  : Request :=
  mkRequest POST (weaviateUrl (store st) ++ "/v1/objects") (headersOf st)
    (Some (objectPayload className object)).

Definition updateObjectRequest (st : State) (className objectId : string)
    (object : JsVal) : Request :=
  mkRequest PATCH (weaviateUrl (store st) ++ "/v1/objects/" ++ objectId)
    (headersOf st) (Some (objectPayload className object)).

Definition deleteCollectionRequest (st : State) (className : string) : Request :=
  mkRequest DELETE (weaviateUrl (store st) ++ "/v1/schema/" ++ className)
    (headersOf st) None.

(** The text of a listing document before its arguments and after them. *)
Definition listHead (className : string) : string :=
  "{" ++ nl ++ "      Get {" ++ nl ++ "        " ++ className.

Definition listTail (properties : list weaviate.PropertyRef) : string :=
  " {" ++ nl ++
  "          _additional {" ++ nl ++
  "            id" ++ nl ++
  "          }" ++ nl ++
  "          " ++ JsString.join nl (List.map weaviate.pr_name properties) ++ nl ++
  "        }" ++ nl ++
  "      }" ++ nl ++
  "    }".

(** The sort directive with the comma that separates it from what follows. *)
Definition sortPrefix (sort : option weaviate.SortConfig) : string :=
  match sort with
  | Some s => weaviate.sortDirective (Some s) ++ ", "
  | None => EmptyString
  end.

(** ** App.tsx *)

Module App.

(** The part of the component state that [checkConnection] and
    [loadCollections] write. [error] is the error whose message is shown. *)
Record AppState : Type := mkApp {
  hasConnection : bool;
  loading : bool;
  error : option JsError;
  collections : list weaviate.CollectionInfo
}.

Section Handlers.
Variable server : list Exchange -> Request -> FetchResult.

Definition loadCollections (app : AppState) : M AppState :=
  r <- caught (weaviate.initializeWeaviate ;;; weaviate.getCollections server) ;;
  ret (match r with
       | Return data => mkApp (hasConnection app) false None data
       | Throw e => mkApp (hasConnection app) false (Some e) (collections app)
       end).

(** Nothing in the [try] can throw before [loadCollections], which catches
    what it meets, so the outer [catch] has nothing to do. *)
Definition checkConnection (app : AppState) : M AppState :=
  s <- settings.getSettings ;;
  if JsString.truthy (weaviateUrl s)
  then
    weaviate.initializeWeaviate ;;;
    loadCollections (mkApp true (loading app) (error app) (collections app))
  else ret (mkApp false false (error app) (collections app)).

End Handlers.

End App.

(** ** components/CollectionView.tsx *)

Module CollectionView.

Record ViewProperty : Type := mkViewProperty {
  vp_name : string;
  vp_dataType : list string
}.

(** [column?.dataType?.includes('date')] for the column of that key *)
Definition isDateColumn (properties : list ViewProperty) (columnKey : string)
  : bool :=
  match List.find (fun p => String.eqb (vp_name p) columnKey) properties with
  | Some column => existsb (fun t => String.eqb t "date") (vp_dataType column)
  | None => false
  end.

(** The updater given to [setSortConfig] *)
Definition nextSort (current : option weaviate.SortConfig) (columnKey : string)
  : option weaviate.SortConfig :=
  match current with
  | Some c =>
      if String.eqb (weaviate.sort_property c) columnKey then
        if String.eqb (weaviate.sort_order c) "desc"
        then Some (weaviate.mkSort columnKey "asc")
        else None
      else Some (weaviate.mkSort columnKey "desc")
  | None => Some (weaviate.mkSort columnKey "desc")
  end.

Definition handleSort (properties : list ViewProperty)
    (current : option weaviate.SortConfig) (columnKey : string)
  : option weaviate.SortConfig :=
  if negb (isDateColumn properties columnKey) then current
  else nextSort current columnKey.

(** [selectedIds] is a [Set]: its elements in insertion order, each once. *)
Definition handleSelect (selectedIds : list string) (id : string) : list string :=
  if existsb (String.eqb id) selectedIds
  then List.filter (fun x => negb (String.eqb x id)) selectedIds
  else (selectedIds ++ [id])%list.

End CollectionView.

(** ** components/EditObjectModal.tsx *)

Module EditObjectModal.

Record EditState : Type := mkEdit {
  formData : JsVal;
  error : option JsError
}.

(** [array.filter((_, i) => i !== index)] *)
Fixpoint remove_at (items : list JsVal) (index : nat) : list JsVal :=
  match items, index with
  | [], _ => []
  | _ :: r, O => r
  | x :: r, S k => x :: remove_at r k
  end.

(** [{ ...formData, [propertyName]: value }] *)
Definition withField (formData : JsVal) (propertyName : string) (value : JsVal)
  : JsVal :=
  VObj (Js.set_field (Js.spread formData) propertyName value).

Definition handleFieldChange (formData : JsVal) (propertyName : string)
    (value : JsVal) : JsVal :=
  withField formData propertyName value.

(** [formData[propertyName] || []] *)
Definition arrayOf (formData : JsVal) (propertyName : string) : Outcome JsVal :=
  a <~ Js.get formData propertyName ;;
  Return (Js.or_else a (VArr [])).

Definition addArrayItem (formData : JsVal) (propertyName : string)
  : Outcome JsVal :=
  array <~ arrayOf formData propertyName ;;
  items <~ Js.iterate array ;;
  Return (withField formData propertyName (VArr (items ++ [VStr EmptyString]))).

(** Only an array has a [filter] to call. *)
Definition removeArrayItem (formData : JsVal) (propertyName : string)
    (index : nat) : Outcome JsVal :=
  array <~ arrayOf formData propertyName ;;
  match array with
  | VArr items =>
      Return (withField formData propertyName (VArr (remove_at items index)))
  | _ => Throw TypeError
  end.

Section Handlers.
Variable server : list Exchange -> Request -> FetchResult.

Definition loadObjectData (collectionName objectId : string) (s : EditState)
  : M EditState :=
  r <- caught (weaviate.initializeWeaviate ;;;
               weaviate.getObjectById server collectionName objectId) ;;
  ret (match r with
       | Return data =>
           if Js.truthy data then mkEdit data None
           else mkEdit (formData s) (Some (Error "Object not found"))
       | Throw e => mkEdit (formData s) (Some e)
       end).

Definition handleSubmit (collectionName objectId : string) (s : EditState)
  : M EditState :=
  r <- caught (weaviate.initializeWeaviate ;;;
               weaviate.updateObject server collectionName objectId (formData s)) ;;
  ret (match r with
       | Return _ => mkEdit (formData s) None
       | Throw e => mkEdit (formData s) (Some e)
       end).

End Handlers.

End EditObjectModal.

(** A sort the collection view may hold: none, or a date column in one of
    the two orders the query language knows. *)
Definition sortable (properties : list CollectionView.ViewProperty)
    (sort : option weaviate.SortConfig) : Prop :=
  match sort with
  | None => True
  | Some c =>
      CollectionView.isDateColumn properties (weaviate.sort_property c) = true
      /\ (weaviate.sort_order c = "desc" \/ weaviate.sort_order c = "asc")
  end.
(** ** Concrete stores and states used by the examples below *)

(** Blank settings: the url is made of spaces only. *)
Definition blankState : State :=
  mkState "http://old:8080" "k" (mkSettings "   " "secret") [].


(** Settings as a user may have typed them: no scheme, a slash at the end. *)
Definition bareState : State :=
  mkState EmptyString EmptyString (mkSettings "localhost:8080/" EmptyString) [].

(** A store at [http://db:8080] with key [k]. *)
Definition readyState : State :=
  mkState EmptyString EmptyString (mkSettings "http://db:8080" "k") [].

Definition plain (code : Z) (reason : string) : FetchResult :=
  Responds (mkResponse code reason (Some EmptyString) None).

Definition jsonBody (code : Z) (reason : string) (v : JsVal) : FetchResult :=
  Responds (mkResponse code reason (Some "(json)") (Some v)).

(** A store that refuses, with 500, to delete the objects [id-2] and
    [id-9] and accepts every other request. *)
Definition stubbornServer (_ : list Exchange) (rq : Request) : FetchResult :=
  if String.eqb (url rq) "http://db:8080/v1/objects/id-2"
     || String.eqb (url rq) "http://db:8080/v1/objects/id-9"
  then plain 500 "Internal Server Error"
  else plain 204 "No Content".

(** A schema listing of three classes, and a store that serves it together
    with the counts of [Article] and [Tag]; what it answers to the count
    query for [Author], and to any other request, is left open. *)
Definition classEntry (name : string) : JsVal :=
  VObj [("class", VStr name);
        ("properties",
         VArr [VObj [("name", VStr "title"); ("dataType", VArr [VStr "text"])]])].

Definition schemaListing : JsVal :=
  VObj [("classes",
         VArr [classEntry "Article"; classEntry "Author"; classEntry "Tag"])].

Definition countBody (name : string) (n : Z) : JsVal :=
  VObj [("data",
         VObj [("Aggregate",
                VObj [(name, VArr [VObj [("meta", VObj [("count", VNum n)])]])])])].

(** The query-language document a request carries. *)
Definition queryOf (rq : Request) : string :=
  match body rq with
  | Some (VObj [(_, VStr q)]) => q
  | _ => EmptyString
  end.

Definition libraryServer (authorCount other : FetchResult)
    (_ : list Exchange) (rq : Request) : FetchResult :=
  if String.eqb (url rq) "http://db:8080/v1/schema"
  then jsonBody 200 "OK" schemaListing
  else if String.eqb (queryOf rq) (weaviate.aggregateQuery "Author")
  then authorCount
  else if String.eqb (queryOf rq) (weaviate.aggregateQuery "Article")
  then jsonBody 200 "OK" (countBody "Article" 7)
  else if String.eqb (queryOf rq) (weaviate.aggregateQuery "Tag")
  then jsonBody 200 "OK" (countBody "Tag" 3)
  else other.

(** The query endpoint's way of reporting a failed query: status 200 and
    an [errors] list, no [data]. *)
Definition graphqlErrors : JsVal :=
  VObj [("errors", VArr [VObj [("message", VStr "no such class")]])].

Definition titleProperty : weaviate.PropertyInfo :=
  weaviate.mkPropertyInfo (VStr "title") (VArr [VStr "text"]) VUndefined.

Definition descriptor (name : string) (count : Z) : weaviate.CollectionInfo :=
  weaviate.mkCollectionInfo (VStr name) VUndefined (VNum count) [titleProperty].

(** A store that accepts everything with an empty JSON object. *)
Definition agreeableServer (_ : list Exchange) (_ : Request) : FetchResult :=
  jsonBody 200 "OK" (VObj []).

Definition articleSchema : weaviate.CreateCollectionSchema :=
  weaviate.mkSchema "article" (Some "News articles")
    [weaviate.mkSchemaProperty "title" ["string"] None;
     weaviate.mkSchemaProperty "wordCount" ["int"] None;
     weaviate.mkSchemaProperty "tags" ["String[]"] (Some "labels");
     weaviate.mkSchemaProperty "location" ["geoCoordinates"] None;
     weaviate.mkSchemaProperty "scores" ["float[]"] None].

(** A schema whose tokens hold [[]] without ending in it. *)
Definition oddSchema : weaviate.CreateCollectionSchema :=
  weaviate.mkSchema "odd" None
    [weaviate.mkSchemaProperty "count" ["in[]t"] None;
     weaviate.mkSchemaProperty "when" ["[]Date"] None;
     weaviate.mkSchemaProperty "other" ["a[]b"] None].

(** A schema with neither a name nor a property. *)
Definition emptySchema : weaviate.CreateCollectionSchema :=
  weaviate.mkSchema EmptyString None [].

(** A store where no object has the id asked for. *)
Definition vacantServer (_ : list Exchange) (_ : Request) : FetchResult :=
  plain 404 "Not Found".

Definition notFound : FetchResult := plain 404 "Not Found".

(** A query answer in the expected envelope, but without the key of the
    collection asked for. *)
Definition noSuchKey : JsVal := VObj [("data", VObj [("Get", VObj [])])].

(** A query answer with one row that has no [_additional] and one that has. *)
Definition bareRow : JsVal := VObj [("title", VStr "On proofs")].

Definition fullRow : JsVal :=
  VObj [("_additional", VObj [("id", VStr "id-7"); ("score", VStr "0.5")]);
        ("title", VStr "On programs")].

Definition articleRows : JsVal :=
  VObj [("data", VObj [("Get", VObj [("Article", VArr [bareRow; fullRow])])])].

Definition titleRef : weaviate.PropertyRef :=
  weaviate.mkPropertyRef "title" (VArr [VStr "text"]).

Definition proofsSearch : weaviate.SearchOptions :=
  weaviate.mkSearch "proofs" "Article" None None None.

(** The store of [libraryServer] with every count in place. *)
Definition fullLibrary : list Exchange -> Request -> FetchResult :=
  libraryServer (jsonBody 200 "OK" (countBody "Author" 2)) notFound.

(** A store that refuses a schema with the error body Weaviate uses. *)
Definition refusal : JsVal :=
  VObj [("error", VArr [VObj [("message", VStr "class name Article already exists")]])].

Definition refusingServer (_ : list Exchange) (_ : Request) : FetchResult :=
  jsonBody 422 "Unprocessable Entity" refusal.

(** A store that is down behind its proxy. *)
Definition downServer (_ : list Exchange) (_ : Request) : FetchResult :=
  Responds (mkResponse 502 "Bad Gateway" (Some "upstream unavailable") None).

(** A store that creates every object under the id [id-42]. *)
Definition creatingServer (_ : list Exchange) (_ : Request) : FetchResult :=
  jsonBody 200 "OK" (VObj [("id", VStr "id-42"); ("class", VStr "Article")]).

(** Settings whose url ends with a slash. *)
Definition slashState : State :=
  mkState EmptyString EmptyString (mkSettings "http://db:8080/" "k") [].

(** What a user types into the settings form. *)
Definition typedSettings : Settings := mkSettings "localhost:8080" "secret".

(** A collection view over a text column and a date column. *)
Definition articleColumns : list CollectionView.ViewProperty :=
  [CollectionView.mkViewProperty "title" ["text"];
   CollectionView.mkViewProperty "createdAt" ["date"]].

(** A store that serves one object and accepts its update. *)
Definition storedObject : JsVal :=
  VObj [("class", VStr "Article"); ("id", VStr "id-7");
        ("properties", VObj [("title", VStr "On proofs");
                             ("tags", VArr [VStr "logic"])])].

Definition objectServer (_ : list Exchange) (rq : Request) : FetchResult :=
  match method rq with
  | GET => jsonBody 200 "OK" storedObject
  | _ => plain 204 "No Content"
  end.

Definition articleForm : list CreateCollectionModal.FormProperty :=
  [CreateCollectionModal.mkFormProperty " title " ["string"] EmptyString;
   CreateCollectionModal.mkFormProperty "  " ["int"] "ignored";
   CreateCollectionModal.mkFormProperty "tags" ["string[]"] " labels "].
(** * Properties *)

Section Facts.

Variable server : list Exchange -> Request -> FetchResult.

Lemma initialize_loaded st :
  weaviate.initializeWeaviate st = (Return tt, loaded st).
Proof. reflexivity. Qed.

Lemma loaded_idem st : loaded (loaded st) = loaded st.
Proof. reflexivity. Qed.

Lemma logged_id {A} (m : M A) st : logged m st = m st.
Proof.
  unfold logged, try_catch, throw.
  destruct (m st) as [[a | e] st']; reflexivity.
Qed.

(** The prologue shared by the operations: with a blank url it throws the
    configuration error from the loaded state. *)
Lemma prologue_blank {A} (k : M A) st :
  weaviate.notConfigured (weaviateUrl (store st)) = true ->
  (weaviate.initializeWeaviate ;;; weaviate.requireUrl ;;; k) st
  = (Throw (Error weaviate.notConfiguredMessage), loaded st).
Proof.
  intros H. unfold bind at 1. rewrite initialize_loaded.
  unfold bind, weaviate.requireUrl, weaviate.get_url, loaded. cbn.
  rewrite H. reflexivity.
Qed.

(** With a url in place the prologue falls through to what follows. *)
Lemma prologue_configured {A} (k : M A) st :
  configured st ->
  (weaviate.initializeWeaviate ;;; weaviate.requireUrl ;;; k) st = k (loaded st).
Proof.
  intros H. unfold bind at 1. rewrite initialize_loaded.
  unfold bind, weaviate.requireUrl, weaviate.get_url, loaded. cbn.
  rewrite H. reflexivity.
Qed.

End Facts.

(** The test the operations make on the url is the test for a blank url. *)
Lemma trimStart_blank u : blank u = true -> JsString.trimStart u = EmptyString.
Proof.
  induction u as [| c r IH]; [reflexivity |]. cbn. intros H.
  apply andb_true_iff in H. destruct H as [Hc Hr]. rewrite Hc. exact (IH Hr).
Qed.

Lemma trimStart_not_blank u :
  blank u = false ->
  exists c r, JsString.trimStart u = String c r /\ JsString.is_ws c = false.
Proof.
  induction u as [| c r IH]; [discriminate |]. cbn. intros H.
  destruct (JsString.is_ws c) eqn:Hc.
  - apply IH. exact H.
  - exists c, r. split; [reflexivity | exact Hc].
Qed.

Lemma trimEnd_keeps_head c r :
  JsString.is_ws c = false -> JsString.trimEnd (String c r) <> EmptyString.
Proof.
  intros Hc. cbn [JsString.trimEnd]. rewrite Hc.
  destruct (JsString.trimEnd r); discriminate.
Qed.

Lemma notConfigured_blank u : weaviate.notConfigured u = blank u.
Proof.
  unfold weaviate.notConfigured, JsString.trim.
  destruct u as [| c r]; [reflexivity |]. cbn [JsString.truthy negb orb].
  destruct (blank (String c r)) eqn:Hb.
  - rewrite (trimStart_blank _ Hb). reflexivity.
  - destruct (trimStart_not_blank _ Hb) as [c' [r' [-> Hc']]].
    destruct (String.eqb_spec (JsString.trimEnd (String c' r')) EmptyString)
      as [E | _]; [| reflexivity].
    exfalso. exact (trimEnd_keeps_head c' r' Hc' E).
Qed.

(** C3. Every exported operation of the access layer first reloads the
    settings and, when the url it finds is empty or blank, throws the
    "not configured" error with nothing sent: the connection holds the
    reloaded pair and the trace of requests is what it was. *)
Theorem unconfigured_call_fails_offline :
  forall server (c : Call) (st : State),
    blank (weaviateUrl (store st)) = true ->
    perform server c st
    = (Some (Error weaviate.notConfiguredMessage), loaded st)
    /\ trace (snd (perform server c st)) = trace st.
Proof.
  intros server c st Hb.
  assert (H : weaviate.notConfigured (weaviateUrl (store st)) = true)
    by (rewrite notConfigured_blank; exact Hb).
  assert (E : perform server c st
              = (Some (Error weaviate.notConfiguredMessage), loaded st)).
  { destruct c; cbn [perform];
      unfold weaviate.executeQuery, weaviate.getCollections,
        weaviate.getCollectionData, weaviate.deleteObjects,
        weaviate.deleteCollection, weaviate.createCollection,
        weaviate.createObject, weaviate.getObjectById,
        weaviate.updateObject, weaviate.searchCollections;
      rewrite ?logged_id, prologue_blank by exact H; reflexivity. }
  split; [exact E | rewrite E; reflexivity].
Qed.

Lemma unconfigured_call_fails_offline_witness :
  perform (fun _ _ => Rejects TypeError)
    (CallCreateObject "Article" (VObj [])) blankState
  = (Some (Error weaviate.notConfiguredMessage), loaded blankState)
  /\ trace (snd (perform (fun _ _ => Rejects TypeError)
                   (CallCreateObject "Article" (VObj [])) blankState))
     = trace blankState.
Proof.
  apply (unconfigured_call_fails_offline (fun _ _ => Rejects TypeError)
           (CallCreateObject "Article" (VObj [])) blankState).
  reflexivity.
Defined.

(** ** The connection url *)

(** C4, as stated, fails: a url loaded without scheme and with a trailing
    slash is stored as it is by [initializeWeaviate]. *)
Lemma initialize_does_not_normalize :
  currentUrl (snd (weaviate.initializeWeaviate bareState)) = "localhost:8080/"
  /\ ~ normalizedFrom (weaviateUrl (store bareState))
        (currentUrl (snd (weaviate.initializeWeaviate bareState))).
Proof.
  split; [reflexivity |].
  intros [H _]. specialize (H eq_refl). discriminate H.
Qed.

Lemma formatUrl_schemed u : hasScheme u = true -> SettingsModal.formatUrl u = u.
Proof.
  unfold hasScheme, SettingsModal.formatUrl. intros H.
  destruct (JsString.startsWith u "http://"); cbn in *.
  - rewrite andb_false_r. reflexivity.
  - rewrite H, andb_false_r. reflexivity.
Qed.

Lemma formatUrl_bare u :
  u <> EmptyString -> hasScheme u = false ->
  SettingsModal.formatUrl u = "http://" ++ u.
Proof.
  unfold hasScheme, SettingsModal.formatUrl. intros Hne H.
  apply orb_false_iff in H. destruct H as [H1 H2]. rewrite H1, H2.
  destruct u; [congruence | reflexivity].
Qed.

(** C4 (amended). [initializeWeaviate] stores the loaded url and credential
    byte for byte, whatever the scheme or the last character.  The scheme is
    added one step earlier, by the settings dialog: [handleSave] persists
    and loads the entered url with [http://] in front when it is non-empty
    and starts with neither [http://] nor [https://], and unchanged when it
    is empty or already has a scheme. *)
Theorem initialize_stores_loaded_url :
  forall (st : State) (form : Settings),
    (currentUrl (snd (weaviate.initializeWeaviate st)) = weaviateUrl (store st)
     /\ currentApiKey (snd (weaviate.initializeWeaviate st)) = apiKey (store st))
    /\ (let st' := snd (SettingsModal.handleSave form st) in
        currentUrl st' = SettingsModal.formatUrl (weaviateUrl form)
        /\ weaviateUrl (store st') = SettingsModal.formatUrl (weaviateUrl form))
    /\ (weaviateUrl form <> EmptyString -> hasScheme (weaviateUrl form) = false ->
        SettingsModal.formatUrl (weaviateUrl form) = "http://" ++ weaviateUrl form)
    /\ (hasScheme (weaviateUrl form) = true ->
        SettingsModal.formatUrl (weaviateUrl form) = weaviateUrl form)
    /\ SettingsModal.formatUrl EmptyString = EmptyString.
Proof.
  intros st form. repeat split.
  - apply formatUrl_bare.
  - apply formatUrl_schemed.
Qed.

Lemma initialize_stores_loaded_url_witness :
  currentUrl (snd (SettingsModal.handleSave
                     (mkSettings "localhost:8080/" EmptyString) bareState))
  = "http://localhost:8080/"
  /\ SettingsModal.formatUrl "https://db.example/" = "https://db.example/".
Proof.
  pose proof (initialize_stores_loaded_url bareState
                (mkSettings "localhost:8080/" EmptyString)) as [_ [[H _] [Hb _]]].
  pose proof (initialize_stores_loaded_url bareState
                (mkSettings "https://db.example/" EmptyString)) as [_ [_ [_ [Hs _]]]].
  split.
  - rewrite H. apply Hb; [discriminate | reflexivity].
  - apply Hs. reflexivity.
Defined.

(** ** Bulk deletion *)

Section Deletion.

Variable server : list Exchange -> Request -> FetchResult.

Lemma deleteObject_step hs id st :
  weaviate.deleteObject server hs id st
  = let rq := mkRequest DELETE (currentUrl st ++ "/v1/objects/" ++ id) hs None in
    let r := server (trace st) rq in
    (match r with
     | Responds resp =>
         if ok resp then Return tt
         else Throw (Error ("Failed to delete object: " ++ statusText resp))
     | Rejects e => Throw e
     end,
     mkState (currentUrl st) (currentApiKey st) (store st)
       (trace st ++ [(rq, r)])%list).
Proof.
  unfold weaviate.deleteObject. rewrite logged_id.
  unfold bind, weaviate.get_url, weaviate.fetch. cbn.
  destruct (server (trace st) _) as [resp | e]; [| reflexivity].
  destruct (ok resp); reflexivity.
Qed.

Lemma answered_app before xs ys :
  answered server before xs ->
  answered server (before ++ xs)%list ys ->
  answered server before (xs ++ ys)%list.
Proof.
  revert before. induction xs as [| [rq r] xs IH]; intros before Hx Hy.
  - rewrite app_nil_r in Hy. exact Hy.
  - cbn in *. destruct Hx as [Hr Hx]. split; [exact Hr |].
    apply IH; [exact Hx |]. rewrite <- app_assoc. exact Hy.
Qed.

Lemma for_each_cons {A} (f : A -> M unit) x l st :
  for_each f (x :: l) st
  = match f x st with
    | (Return _, st') => for_each f l st'
    | (Throw e, st') => (Throw e, st')
    end.
Proof. reflexivity. Qed.

(** The loop, from any state whose connection is the one [st0] loads. *)
Lemma delete_loop st0 ids :
  forall st,
    currentUrl st = weaviateUrl (store st0) ->
    let r := for_each (weaviate.deleteObject server (headersOf st0)) ids st in
    exists new,
      trace (snd r) = (trace st ++ new)%list
      /\ answered server (trace st) new
      /\ deletion st0 ids (fst r) new.
Proof.
  induction ids as [| id ids IH]; intros st Hu.
  - exists []. cbn. rewrite app_nil_r. repeat split.
  - cbn zeta. rewrite for_each_cons, deleteObject_step. cbn zeta.
    rewrite Hu. fold (deleteRequest st0 id).
    set (rq := deleteRequest st0 id).
    destruct (server (trace st) rq) as [resp | e] eqn:Hs.
    + destruct (ok resp) eqn:Hok.
      * set (st1 := mkState _ _ _ _).
        destruct (IH st1 eq_refl) as [new [Ht [Ha Hd]]].
        exists ((rq, Responds resp) :: new). cbn zeta in *.
        destruct (for_each _ ids st1) as [o st2]. cbn [fst snd] in *.
        split; [rewrite Ht; cbn; rewrite <- app_assoc; reflexivity |].
        split; [cbn; split; [symmetry; exact Hs | exact Ha] |].
        destruct o as [u | err].
        -- destruct Hd as [Hm Hf]. cbn [deletion map forallb fst].
           rewrite Hm, Hf. unfold succeeded. cbn [snd]. rewrite Hok.
           split; reflexivity.
        -- destruct Hd as (pre & b & post & done & r & Hi & Hn & Hm & Hf & Hb & He).
           exists (id :: pre), b, post, ((rq, Responds resp) :: done), r.
           cbn [map forallb fst app]. rewrite Hi, Hn, Hm, Hf.
           unfold succeeded at 1. cbn [snd]. rewrite Hok.
           repeat split; assumption.
      * exists [(rq, Responds resp)]. cbn.
        split; [reflexivity |]. split; [split; [symmetry; exact Hs | exact I] |].
        exists [], id, ids, [], (Responds resp). cbn. unfold succeeded. cbn.
        rewrite Hok. repeat split.
    + exists [(rq, Rejects e)]. cbn.
      split; [reflexivity |]. split; [split; [symmetry; exact Hs | exact I] |].
      exists [], id, ids, [], (Rejects e). cbn. repeat split.
Qed.

End Deletion.

(** C1, as stated, fails in its last part: the error that reaches the
    caller is built from the status text alone.  Failing on [id-2] and
    failing on [id-9] surface the same error, which names neither. *)
Lemma deleteObjects_error_names_no_id :
  fst (weaviate.deleteObjects stubbornServer "Article"
         ["id-1"; "id-2"; "id-3"] readyState)
  = Throw (Error "Failed to delete object: Internal Server Error")
  /\ fst (weaviate.deleteObjects stubbornServer "Article"
            ["id-1"; "id-9"; "id-3"] readyState)
     = Throw (Error "Failed to delete object: Internal Server Error")
  /\ JsString.includes "Failed to delete object: Internal Server Error" "id-2"
     = false.
Proof. repeat split. Qed.

(** C1 (amended). With a url configured, [deleteObjects] sends one DELETE
    per id, in the order given, each one answered before the next is sent.
    When every answer is a 2xx, all ids have been requested.  Otherwise the
    run stops at the first id whose request fails: the ids before it, and
    only they, were deleted, nothing is sent for the ids after it, and the
    error thrown is [Failed to delete object: <status text>] of that answer
    (or the network failure itself); it carries no id. *)
Theorem deleteObjects_sequential_prefix :
  forall server (className : string) (ids : list string) (st : State),
    configured st ->
    let r := weaviate.deleteObjects server className ids st in
    exists new,
      trace (snd r) = (trace st ++ new)%list
      /\ answered server (trace st) new
      /\ deletion st ids (fst r) new.
Proof.
  intros server className ids st H.
  unfold weaviate.deleteObjects. rewrite prologue_configured by exact H.
  unfold bind at 1. unfold weaviate.getHeaders at 1.
  unfold bind at 1, weaviate.get_key, ret. cbn [loaded currentApiKey].
  fold (headersOf st).
  apply (delete_loop server st ids (loaded st)). reflexivity.
Qed.

Lemma deleteObjects_sequential_prefix_witness :
  exists new,
    trace (snd (weaviate.deleteObjects stubbornServer "Article"
                  ["id-1"; "id-2"; "id-3"] readyState))
    = (trace readyState ++ new)%list
    /\ answered stubbornServer (trace readyState) new
    /\ deletion readyState ["id-1"; "id-2"; "id-3"]
         (fst (weaviate.deleteObjects stubbornServer "Article"
                 ["id-1"; "id-2"; "id-3"] readyState)) new.
Proof.
  apply (deleteObjects_sequential_prefix stubbornServer "Article"
           ["id-1"; "id-2"; "id-3"] readyState).
  reflexivity.
Defined.

(** ** Listing collections and their counts *)

Section Counting.

Variable server : list Exchange -> Request -> FetchResult.

Lemma executeAggregateQuery_run q className st :
  configured st ->
  weaviate.executeAggregateQuery server q className st
  = let rq := mkRequest POST (weaviateUrl (store st) ++ "/v1/graphql")
                (headersOf st) (Some (VObj [("query", VStr q)])) in
    let r := server (trace st) rq in
    (match r with
     | Responds resp =>
         if ok resp then
           match body_text resp, body_json resp with
           | Some _, Some v => Return v
           | Some _, None => Throw SyntaxError
           | None, _ => Throw TypeError
           end
         else Throw (Error ("Query failed: " ++ statusText resp))
     | Rejects e => Throw e
     end, sent st rq r).
Proof.
  intros H. unfold weaviate.executeAggregateQuery.
  rewrite logged_id, prologue_configured by exact H.
  unfold bind, weaviate.getHeaders, weaviate.get_key, weaviate.get_url,
    weaviate.fetch, ret, json, throw, sent, loaded. cbn.
  fold (headersOf st).
  destruct (server (trace st) _) as [resp | e]; [| reflexivity].
  destruct (ok resp); cbn; [| reflexivity].
  destruct (body_text resp); [| reflexivity].
  destruct (body_json resp); reflexivity.
Qed.

(** A count fetch that fails in transport (no response, a non-2xx status,
    a body that is no JSON) is swallowed: the count is 0. *)
Lemma getObjectCount_transport_failure className st :
  configured st ->
  (match server (trace st) (countRequest st className) with
   | Responds resp =>
       negb (ok resp)
       || match body_text resp, body_json resp with
          | Some _, Some _ => false
          | _, _ => true
          end
   | Rejects _ => true
   end) = true ->
  weaviate.getObjectCount server className st
  = (Return (VNum 0),
     sent st (countRequest st className)
       (server (trace st) (countRequest st className))).
Proof.
  intros H Hf. unfold weaviate.getObjectCount, try_catch.
  unfold bind at 1. unfold bind at 1.
  rewrite executeAggregateQuery_run by exact H. cbn zeta.
  fold (countRequest st className).
  destruct (server (trace st) (countRequest st className)) as [resp | e];
    [| reflexivity].
  destruct (ok resp); cbn in Hf |- *; [| reflexivity].
  destruct (body_text resp); [| reflexivity].
  destruct (body_json resp); [discriminate Hf | reflexivity].
Qed.

(** A 2xx answer whose JSON has no [data] is read outside the [try]:
    the [TypeError] of [undefined.Aggregate] leaves [getObjectCount]. *)
Lemma getObjectCount_missing_data className st resp fields t :
  configured st ->
  server (trace st) (countRequest st className) = Responds resp ->
  ok resp = true ->
  body_text resp = Some t ->
  body_json resp = Some (VObj fields) ->
  Js.nullish (Js.lookup fields "data") = true ->
  fst (weaviate.getObjectCount server className st) = Throw TypeError.
Proof.
  intros H Hs Hok Ht Hj Hn. unfold weaviate.getObjectCount, try_catch.
  unfold bind at 1. unfold bind at 1.
  rewrite executeAggregateQuery_run by exact H. cbn zeta.
  fold (countRequest st className). rewrite Hs, Hok, Ht, Hj. cbn.
  unfold weaviate.readCount. cbn.
  destruct (Js.lookup fields "data"); try discriminate Hn; reflexivity.
Qed.

End Counting.

(** C2 at its failing input.  The schema lists [Article], [Author] and
    [Tag]; the count query for [Author] is answered with status 200 and
    a body that has [errors] and no [data].  [getCollections] then throws
    a [TypeError] instead of returning three descriptors. *)
Theorem getCollections_count_shape_escapes :
  fst (weaviate.getCollections
         (libraryServer (jsonBody 200 "OK" graphqlErrors) notFound) readyState)
  = Throw TypeError.
Proof. reflexivity. Qed.

(** The failures the [try] does cover are isolated as C2 says: a 500, a
    lost connection or an unparseable body for [Author] give count 0 and
    leave the other two descriptors alone. *)
Example getCollections_count_failure_isolated :
  forall r,
    In r [plain 500 "Internal Server Error";
          Rejects (FetchFailed "Failed to fetch");
          plain 200 "OK"] ->
    fst (weaviate.getCollections (libraryServer r notFound) readyState)
    = Return [descriptor "Article" 7; descriptor "Author" 0; descriptor "Tag" 3].
Proof.
  intros r [<- | [<- | [<- | []]]]; reflexivity.
Qed.

(** ** Creating a collection *)

Section Creation.

Variable server : list Exchange -> Request -> FetchResult.

Lemma capitalize_firstUpper s : weaviate.capitalize s = firstUpper s.
Proof. destruct s; reflexivity. Qed.

Lemma weaviateSchema_stored st schema :
  mkRequest POST
    (JsString.stripTrailingSlash (weaviateUrl (store st)) ++ "/v1/schema")
    (headersOf st) (Some (weaviate.weaviateSchema schema))
  = creationRequest st schema.
Proof.
  unfold creationRequest, weaviate.weaviateSchema.
  rewrite capitalize_firstUpper. reflexivity.
Qed.

(** [createCollection] in a configured state: one POST, whatever the schema. *)
Lemma createCollection_run schema st :
  configured st ->
  weaviate.createCollection server schema st
  = let r := server (trace st) (creationRequest st schema) in
    (match r with
     | Responds resp =>
         if ok resp then Return tt else Throw (weaviate.creationError resp)
     | Rejects e => Throw e
     end, sent st (creationRequest st schema) r).
Proof.
  intros H. unfold weaviate.createCollection.
  rewrite logged_id, prologue_configured by exact H.
  unfold bind, weaviate.getHeaders, weaviate.get_key, weaviate.get_url,
    weaviate.fetch, ret, throw, sent, loaded, try_catch. cbn.
  fold (headersOf st). rewrite weaviateSchema_stored.
  destruct (server (trace st) _) as [resp | e]; [| reflexivity].
  destruct (ok resp); cbn; [| reflexivity].
  unfold json. destruct (body_text resp); [| reflexivity].
  destruct (body_json resp); reflexivity.
Qed.

End Creation.

(** *** The type table *)

Lemma prefixb_cons a p b s :
  JsString.prefixb (String a p) (String b s)
  = Ascii.eqb a b && JsString.prefixb p s.
Proof. reflexivity. Qed.

Lemma prefixb_brackets_app t :
  JsString.prefixb "[]" t = false ->
  JsString.prefixb "[]" (t ++ "[]")
  = match t with EmptyString => true | _ => false end.
Proof.
  intros H. destruct t as [| c r]; [reflexivity |].
  change (String c r ++ "[]") with (String c (r ++ "[]")).
  rewrite prefixb_cons in H |- *.
  destruct (Ascii.eqb "[" c); [| reflexivity].
  rewrite andb_true_l in H |- *.
  destruct r as [| d r']; [reflexivity |].
  change (String d r' ++ "[]") with (String d (r' ++ "[]")).
  rewrite prefixb_cons in H |- *.
  destruct (Ascii.eqb "]" d); [| reflexivity].
  cbv in H. discriminate H.
Qed.

Lemma includes_false_inv c r p :
  JsString.includes (String c r) p = false ->
  JsString.prefixb p (String c r) = false /\ JsString.includes r p = false.
Proof. cbn [JsString.includes]. intros H. apply orb_false_iff in H. exact H. Qed.

Lemma includes_brackets_app t : JsString.includes (t ++ "[]") "[]" = true.
Proof.
  induction t as [| c r IH]; [reflexivity |].
  cbn [append JsString.includes]. rewrite IH. apply orb_true_r.
Qed.

(** Removing the first [[]] of a scalar token followed by [[]] gives the
    token back. *)
Lemma replace_brackets_app t :
  JsString.includes t "[]" = false ->
  JsString.replace (t ++ "[]") "[]" EmptyString = t.
Proof.
  induction t as [| c r IH]; intros H; [reflexivity |].
  apply includes_false_inv in H. destruct H as [Hp Hi].
  cbn [append JsString.replace].
  change (String c (r ++ "[]")) with (String c r ++ "[]").
  rewrite (prefixb_brackets_app (String c r) Hp).
  cbn [append]. rewrite (IH Hi). reflexivity.
Qed.

Ltac by_cases_on_table x :=
  repeat match goal with
         | |- context [String.eqb x ?k] => destruct (String.eqb x k)
         end; reflexivity.

Lemma singleType_canonical t :
  weaviate.singleType (JsString.toLowerCase t) = canonical t.
Proof.
  unfold weaviate.singleType, canonical, canonicalTable, assoc.
  set (x := JsString.toLowerCase t).
  rewrite !(String.eqb_sym _ x). by_cases_on_table x.
Qed.

Lemma arrayType_canonical t :
  weaviate.arrayType (JsString.toLowerCase t) = canonical t ++ "[]".
Proof.
  unfold weaviate.arrayType, canonical, canonicalTable, assoc.
  set (x := JsString.toLowerCase t).
  rewrite !(String.eqb_sym _ x). by_cases_on_table x.
Qed.

Lemma weaviateDataType_scalar t rest :
  JsString.includes t "[]" = false ->
  weaviate.weaviateDataType (t :: rest) = canonical t.
Proof.
  intros H. unfold weaviate.weaviateDataType.
  destruct t as [| c r]; [reflexivity |].
  cbn [JsString.truthy]. rewrite H. apply singleType_canonical.
Qed.

(** A token that holds [[]] is no key of the table, in any case of letters. *)
Lemma prefixb_brackets_inv t :
  JsString.prefixb "[]" t = true -> exists t', t = "[]" ++ t'.
Proof.
  destruct t as [| a [| b t']]; try discriminate.
  - rewrite prefixb_cons. intros H. apply andb_true_iff in H.
    destruct H as [_ H]. discriminate H.
  - rewrite !prefixb_cons. intros H. apply andb_true_iff in H.
    destruct H as [Ha H]. apply andb_true_iff in H. destruct H as [Hb _].
    apply Ascii.eqb_eq in Ha. apply Ascii.eqb_eq in Hb. subst a b.
    exists t'. reflexivity.
Qed.

Lemma includes_toLowerCase t :
  JsString.includes t "[]" = true ->
  JsString.includes (JsString.toLowerCase t) "[]" = true.
Proof.
  induction t as [| c r IH]; [discriminate |].
  cbn [JsString.includes]. intros H. apply orb_true_iff in H.
  destruct H as [H | H].
  - destruct (prefixb_brackets_inv _ H) as [t' ->]. reflexivity.
  - cbn [JsString.toLowerCase JsString.includes]. rewrite (IH H).
    apply orb_true_r.
Qed.

Lemma eqb_bracketed k s :
  JsString.includes k "[]" = false ->
  JsString.includes s "[]" = true ->
  String.eqb k s = false.
Proof.
  intros Hk Hs. destruct (String.eqb_spec k s) as [-> | _]; [| reflexivity].
  rewrite Hs in Hk. discriminate Hk.
Qed.

Lemma singleType_bracketed s :
  JsString.includes s "[]" = true -> weaviate.singleType s = "text".
Proof.
  intros H. unfold weaviate.singleType.
  rewrite !(String.eqb_sym s), !eqb_bracketed by (exact H || reflexivity).
  reflexivity.
Qed.

Lemma arrayType_bracketed s :
  JsString.includes s "[]" = true -> weaviate.arrayType s = "text[]".
Proof.
  intros H. unfold weaviate.arrayType.
  rewrite !(String.eqb_sym s), !eqb_bracketed by (exact H || reflexivity).
  reflexivity.
Qed.

Lemma canonical_bracketed t :
  JsString.includes t "[]" = true -> canonical t = "text".
Proof.
  intros H. rewrite <- singleType_canonical.
  apply singleType_bracketed, includes_toLowerCase, H.
Qed.

Lemma toLowerCase_app a b :
  JsString.toLowerCase (a ++ b) = JsString.toLowerCase a ++ JsString.toLowerCase b.
Proof. induction a as [| c r IH]; cbn; [reflexivity | rewrite IH; reflexivity]. Qed.

(** Removing the first [[]] of a token that holds one, with [[]] added at
    its end, leaves the added [[]] in place. *)
Lemma replace_brackets_inside t :
  JsString.includes t "[]" = true ->
  exists t', JsString.replace (t ++ "[]") "[]" EmptyString = t' ++ "[]".
Proof.
  induction t as [| c r IH]; [discriminate |].
  intros H. destruct (JsString.prefixb "[]" (String c r)) eqn:Hp.
  - destruct (prefixb_brackets_inv _ Hp) as [t' ->]. exists t'. reflexivity.
  - cbn [JsString.includes] in H. rewrite Hp in H. cbn [orb] in H.
    destruct (IH H) as [t' Ht'].
    cbn [append JsString.replace].
    change (String c (r ++ "[]")) with (String c r ++ "[]").
    rewrite (prefixb_brackets_app (String c r) Hp). cbn [append].
    rewrite Ht'. exists (String c t'). reflexivity.
Qed.

Lemma weaviateDataType_array t rest :
  weaviate.weaviateDataType ((t ++ "[]") :: rest) = canonical t ++ "[]".
Proof.
  unfold weaviate.weaviateDataType.
  assert (Ht : JsString.truthy (t ++ "[]") = true) by (destruct t; reflexivity).
  rewrite Ht, includes_brackets_app.
  destruct (JsString.includes t "[]") eqn:H.
  - destruct (replace_brackets_inside t H) as [t' ->].
    rewrite (canonical_bracketed t H), toLowerCase_app.
    apply arrayType_bracketed.
    change (JsString.toLowerCase "[]") with "[]". apply includes_brackets_app.
  - rewrite (replace_brackets_app t H). apply arrayType_canonical.
Qed.

(** A token that holds [[]] anywhere is stored as an array form: its first
    [[]] is removed, the rest goes through the table, and [[]] is added. *)
Lemma weaviateDataType_bracketed t rest :
  JsString.includes t "[]" = true ->
  weaviate.weaviateDataType (t :: rest)
  = canonical (JsString.replace t "[]" EmptyString) ++ "[]".
Proof.
  intros H. unfold weaviate.weaviateDataType.
  destruct t as [| c r]; [discriminate H |].
  cbn [JsString.truthy]. rewrite H. apply arrayType_canonical.
Qed.

(** A token that ends with [[]] holds [[]]. *)
Lemma arrayForm_includes t :
  arrayForm t = true -> JsString.includes t "[]" = true.
Proof.
  induction t as [| c r IH]; [discriminate |].
  cbn [arrayForm JsString.includes]. intros H.
  apply orb_true_iff in H. apply orb_true_iff. destruct H as [H | H].
  - apply String.eqb_eq in H. rewrite H. left. reflexivity.
  - right. apply IH, H.
Qed.

(** C5, as stated, fails: the code takes a token for an array form when it
    holds [[]] anywhere, not only at its end.  The token [in[]t] does not
    end with [[]] and is no key of the table, so the claim has it stored as
    [text]; [createCollection] posts it as [int[]], and likewise [[]Date]
    as [date[]] and [a[]b] as [text[]]. *)
Lemma scalar_token_holding_brackets_is_stored_as_array :
  arrayForm "in[]t" = false
  /\ canonical "in[]t" = "text"
  /\ weaviate.weaviateDataType ["in[]t"] = "int[]"
  /\ weaviate.weaviateDataType ["in[]t"] <> "text"
  /\ List.map (fun x : Exchange => body (fst x))
       (trace (snd (weaviate.createCollection agreeableServer oddSchema
                      readyState)))
     = [Some (VObj
         [("class", VStr "Odd");
          ("description", VUndefined);
          ("properties",
           VArr [VObj [("name", VStr "count"); ("dataType", VArr [VStr "int[]"]);
                       ("description", VUndefined)];
                 VObj [("name", VStr "when"); ("dataType", VArr [VStr "date[]"]);
                       ("description", VUndefined)];
                 VObj [("name", VStr "other"); ("dataType", VArr [VStr "text[]"]);
                       ("description", VUndefined)]])])].
Proof.
  split; [reflexivity |]. split; [reflexivity |]. split; [reflexivity |].
  split; [discriminate | reflexivity].
Qed.

(** C5 (amended). With a url configured, [createCollection] sends exactly
    one request, whatever the schema: a POST to the schema endpoint whose
    payload has the input class with its first character upper-cased and,
    for each property in order, its name, its description and the stored
    form of its first dataType token.  The stored form is decided by
    whether the token holds [[]] anywhere.  A token that holds none is
    looked up in the canonical table by its lower-case form, [string] and
    [text] giving [text], [int], [number], [boolean] and [date] themselves
    and anything else [text].  A token that holds [[]], at its end or
    elsewhere, has its first [[]] removed, the rest looked up in the same
    way, and [[]] added to the result; so every token that ends with [[]]
    is among these, and a token followed by [[]] gives the result for the
    token followed by [[]]. *)
Theorem createCollection_posts_canonical_schema :
  forall server (schema : weaviate.CreateCollectionSchema) (st : State),
    configured st ->
    snd (weaviate.createCollection server schema st)
    = sent st (creationRequest st schema)
        (server (trace st) (creationRequest st schema))
    /\ (forall t rest,
          JsString.includes t "[]" = false ->
          weaviate.weaviateDataType (t :: rest) = canonical t)
    /\ (forall t rest,
          JsString.includes t "[]" = true ->
          weaviate.weaviateDataType (t :: rest)
          = canonical (JsString.replace t "[]" EmptyString) ++ "[]")
    /\ (forall t, arrayForm t = true -> JsString.includes t "[]" = true)
    /\ (forall t rest,
          weaviate.weaviateDataType ((t ++ "[]") :: rest) = canonical t ++ "[]").
Proof.
  intros server schema st H. repeat split.
  - rewrite (createCollection_run server schema st H). reflexivity.
  - intros t rest Ht. apply weaviateDataType_scalar, Ht.
  - intros t rest Ht. apply weaviateDataType_bracketed, Ht.
  - apply arrayForm_includes.
  - intros t rest. apply weaviateDataType_array.
Qed.

Lemma createCollection_posts_canonical_schema_witness :
  snd (weaviate.createCollection agreeableServer articleSchema readyState)
  = sent readyState (creationRequest readyState articleSchema)
      (agreeableServer (trace readyState)
         (creationRequest readyState articleSchema))
  /\ (forall t rest,
        JsString.includes t "[]" = false ->
        weaviate.weaviateDataType (t :: rest) = canonical t)
  /\ (forall t rest,
        JsString.includes t "[]" = true ->
        weaviate.weaviateDataType (t :: rest)
        = canonical (JsString.replace t "[]" EmptyString) ++ "[]")
  /\ (forall t, arrayForm t = true -> JsString.includes t "[]" = true)
  /\ (forall t rest,
        weaviate.weaviateDataType ((t ++ "[]") :: rest) = canonical t ++ "[]").
Proof.
  apply (createCollection_posts_canonical_schema agreeableServer articleSchema
           readyState).
  reflexivity.
Defined.

(** The payload for a schema that exercises the table. *)
Example articleSchema_payload :
  body (creationRequest readyState articleSchema)
  = Some (VObj
      [("class", VStr "Article");
       ("description", VStr "News articles");
       ("properties",
        VArr [VObj [("name", VStr "title"); ("dataType", VArr [VStr "text"]);
                    ("description", VUndefined)];
              VObj [("name", VStr "wordCount"); ("dataType", VArr [VStr "int"]);
                    ("description", VUndefined)];
              VObj [("name", VStr "tags"); ("dataType", VArr [VStr "text[]"]);
                    ("description", VStr "labels")];
              VObj [("name", VStr "location"); ("dataType", VArr [VStr "text"]);
                    ("description", VUndefined)];
              VObj [("name", VStr "scores"); ("dataType", VArr [VStr "text[]"]);
                    ("description", VUndefined)]])]).
Proof. reflexivity. Qed.

Example canonical_values :
  List.map canonical
    ["string"; "text"; "int"; "number"; "boolean"; "date"; "Date"; "uuid";
     EmptyString]
  = ["text"; "text"; "int"; "number"; "boolean"; "date"; "date"; "text"; "text"].
Proof. reflexivity. Qed.

(** C8, as stated, fails: [createCollection] accepts a schema with an
    empty name and no property, posts it and returns normally. *)
Lemma createCollection_does_not_validate :
  weaviate.createCollection agreeableServer emptySchema readyState
  = (Return tt,
     sent readyState (creationRequest readyState emptySchema)
       (jsonBody 200 "OK" (VObj [])))
  /\ List.length
       (trace (snd (weaviate.createCollection agreeableServer emptySchema
                      readyState))) = 1%nat.
Proof. split; reflexivity. Qed.

Lemma validProperties_none properties :
  hasNamedProperty properties = false ->
  CreateCollectionModal.validProperties properties = [].
Proof.
  unfold hasNamedProperty, CreateCollectionModal.validProperties.
  induction properties as [| p ps IH]; [reflexivity |].
  cbn [existsb filter]. intros H. apply orb_false_iff in H.
  destruct H as [Hp Hps]. rewrite Hp. apply IH, Hps.
Qed.

(** C8 (amended). The validation sits in the creation form, not in
    [createCollection]: [handleSubmit] answers a blank collection name with
    [Collection name is required] and a property list without a non-blank
    name with [At least one property is required], and in both cases
    nothing is sent and the connection is not even reloaded.
    [createCollection] itself checks nothing: with a url configured it
    posts the schema it is given. *)
Theorem handleSubmit_validates_before_sending :
  forall server (collectionName description : string)
         (properties : list CreateCollectionModal.FormProperty)
         (schema : weaviate.CreateCollectionSchema) (st : State),
    (JsString.truthy (JsString.trim collectionName) = false ->
     CreateCollectionModal.handleSubmit server collectionName description
       properties st
     = (Return (Throw (Error "Collection name is required")), st))
    /\ (JsString.truthy (JsString.trim collectionName) = true ->
        hasNamedProperty properties = false ->
        CreateCollectionModal.handleSubmit server collectionName description
          properties st
        = (Return (Throw (Error "At least one property is required")), st))
    /\ (configured st ->
        snd (weaviate.createCollection server schema st)
        = sent st (creationRequest st schema)
            (server (trace st) (creationRequest st schema))).
Proof.
  intros server collectionName description properties schema st.
  split; [| split].
  - intros H. unfold CreateCollectionModal.handleSubmit, caught.
    rewrite H. reflexivity.
  - intros H Hp. unfold CreateCollectionModal.handleSubmit, caught.
    rewrite H, (validProperties_none properties Hp). reflexivity.
  - intros H. rewrite (createCollection_run server schema st H). reflexivity.
Qed.

Lemma handleSubmit_validates_before_sending_witness :
  CreateCollectionModal.handleSubmit agreeableServer "   " "about"
    [CreateCollectionModal.mkFormProperty "title" ["string"] EmptyString]
    readyState
  = (Return (Throw (Error "Collection name is required")), readyState)
  /\ CreateCollectionModal.handleSubmit agreeableServer "article" "about"
       [CreateCollectionModal.mkFormProperty " " ["string"] EmptyString]
       readyState
     = (Return (Throw (Error "At least one property is required")), readyState)
  /\ snd (weaviate.createCollection agreeableServer emptySchema readyState)
     = sent readyState (creationRequest readyState emptySchema)
         (agreeableServer (trace readyState)
            (creationRequest readyState emptySchema)).
Proof.
  pose proof (handleSubmit_validates_before_sending agreeableServer "   " "about"
                [CreateCollectionModal.mkFormProperty "title" ["string"] EmptyString]
                emptySchema readyState) as [H1 _].
  pose proof (handleSubmit_validates_before_sending agreeableServer "article"
                "about"
                [CreateCollectionModal.mkFormProperty " " ["string"] EmptyString]
                emptySchema readyState) as [_ [H2 H3]].
  split; [apply H1; reflexivity |].
  split; [apply H2; reflexivity | apply H3; reflexivity].
Defined.

(** ** Fetching one object *)

Section Fetching.

Variable server : list Exchange -> Request -> FetchResult.

Lemma getObjectById_run className objectId st :
  configured st ->
  weaviate.getObjectById server className objectId st
  = let r := server (trace st) (objectRequest st objectId) in
    (match r with
     | Responds resp =>
         if ok resp then
           match body_text resp, body_json resp with
           | Some _, Some result =>
               p <~ Js.get result "properties" ;;
               Return (Js.or_else p (VObj []))
           | Some _, None => Throw SyntaxError
           | None, _ => Throw TypeError
           end
         else if status resp =? 404 then Return VNull
         else Throw (Error ("Failed to fetch object: " ++ statusText resp))
     | Rejects e => Throw e
     end, sent st (objectRequest st objectId) r).
Proof.
  intros H. unfold weaviate.getObjectById.
  rewrite logged_id, prologue_configured by exact H.
  unfold bind, weaviate.getHeaders, weaviate.get_key, weaviate.get_url,
    weaviate.fetch, ret, throw, sent, loaded, lift. cbn.
  fold (headersOf st). fold (objectRequest st objectId).
  destruct (server (trace st) _) as [resp | e]; [| reflexivity].
  destruct (ok resp); cbn.
  - unfold json. destruct (body_text resp); [| reflexivity].
    destruct (body_json resp) as [result |]; [| reflexivity].
    cbn. destruct (Js.get result "properties"); reflexivity.
  - destruct (status resp =? 404); reflexivity.
Qed.

End Fetching.

(** C6. With a url configured, [getObjectById] sends one GET for the id
    and reads the answer as follows: status 404 gives [null], no error;
    any other status outside 200..299 throws
    [Failed to fetch object: <status text>]; a 2xx answer whose body is a
    JSON object gives that object's [properties] and nothing else of the
    envelope (the empty object when [properties] is missing or falsy). *)
Theorem getObjectById_absent_error_or_properties :
  forall server (className objectId : string) (st : State) (resp : Response),
    configured st ->
    server (trace st) (objectRequest st objectId) = Responds resp ->
    let run := weaviate.getObjectById server className objectId st in
    snd run = sent st (objectRequest st objectId) (Responds resp)
    /\ (status resp = 404 -> fst run = Return VNull)
    /\ (ok resp = false -> status resp <> 404 ->
        fst run = Throw (Error ("Failed to fetch object: " ++ statusText resp)))
    /\ (forall t fields,
          ok resp = true ->
          body_text resp = Some t ->
          body_json resp = Some (VObj fields) ->
          fst run = Return (Js.or_else (Js.lookup fields "properties") (VObj []))).
Proof.
  intros server className objectId st resp H Hs run. subst run.
  rewrite (getObjectById_run server className objectId st H). cbn zeta.
  rewrite Hs. cbn [fst snd]. repeat split.
  - intros E. unfold ok. rewrite E. reflexivity.
  - intros Hok Hne. rewrite Hok.
    destruct (Z.eqb_spec (status resp) 404); [contradiction | reflexivity].
  - intros t fields Hok Ht Hj. rewrite Hok, Ht, Hj. reflexivity.
Qed.

Lemma getObjectById_absent_error_or_properties_witness :
  fst (weaviate.getObjectById vacantServer "Article" "missing-id" readyState)
  = Return VNull.
Proof.
  pose proof (getObjectById_absent_error_or_properties vacantServer "Article"
                "missing-id" readyState
                (mkResponse 404 "Not Found" (Some EmptyString) None)
                eq_refl eq_refl) as [_ [H _]].
  apply H. reflexivity.
Defined.

(** ** The settings store is only read *)

Section Keeping.

Variable server : list Exchange -> Request -> FetchResult.

Lemma keeps_ret {A} (a : A) : keeps_store (ret a).
Proof. intros st. reflexivity. Qed.

Lemma keeps_throw {A} e : keeps_store (@throw A e).
Proof. intros st. reflexivity. Qed.

Lemma keeps_lift {A} (o : Outcome A) : keeps_store (lift o).
Proof. intros st. reflexivity. Qed.

Lemma keeps_bind {A B} (m : M A) (k : A -> M B) :
  keeps_store m -> (forall a, keeps_store (k a)) -> keeps_store (bind m k).
Proof.
  intros Hm Hk st. unfold bind. specialize (Hm st).
  destruct (m st) as [[a | e] st']; cbn in *.
  - rewrite Hk. exact Hm.
  - exact Hm.
Qed.

Lemma keeps_try {A} (m : M A) h :
  keeps_store m -> (forall e, keeps_store (h e)) -> keeps_store (try_catch m h).
Proof.
  intros Hm Hh st. unfold try_catch. specialize (Hm st).
  destruct (m st) as [[a | e] st']; cbn in *.
  - exact Hm.
  - rewrite Hh. exact Hm.
Qed.

Lemma keeps_logged {A} (m : M A) : keeps_store m -> keeps_store (logged m).
Proof. intros Hm. apply keeps_try; [exact Hm | intros e; apply keeps_throw]. Qed.

Lemma keeps_if {A} (b : bool) (m1 m2 : M A) :
  keeps_store m1 -> keeps_store m2 -> keeps_store (if b then m1 else m2).
Proof. destruct b; auto. Qed.

Lemma keeps_fetch rq : keeps_store (weaviate.fetch server rq).
Proof.
  intros st. unfold weaviate.fetch.
  destruct (server (trace st) rq); reflexivity.
Qed.

Lemma keeps_json r : keeps_store (json r).
Proof.
  unfold json. destruct (body_text r); [| apply keeps_throw].
  destruct (body_json r); [apply keeps_ret | apply keeps_throw].
Qed.

Lemma keeps_initialize : keeps_store weaviate.initializeWeaviate.
Proof. intros st. reflexivity. Qed.

Lemma keeps_get_url : keeps_store weaviate.get_url.
Proof. intros st. reflexivity. Qed.

Lemma keeps_getHeaders : keeps_store weaviate.getHeaders.
Proof. intros st. reflexivity. Qed.

Lemma keeps_requireUrl : keeps_store weaviate.requireUrl.
Proof.
  intros st. unfold weaviate.requireUrl, bind, weaviate.get_url.
  destruct (weaviate.notConfigured (currentUrl st)); reflexivity.
Qed.

Create HintDb keeps.
#[local] Hint Resolve keeps_ret keeps_throw keeps_lift keeps_fetch keeps_json
  keeps_initialize keeps_get_url keeps_getHeaders keeps_requireUrl : keeps.
#[local] Hint Extern 2 (keeps_store (bind _ _)) =>
  apply keeps_bind; [| intros ?] : keeps.
#[local] Hint Extern 2 (keeps_store (logged _)) => apply keeps_logged : keeps.
#[local] Hint Extern 2 (keeps_store (try_catch _ _)) =>
  apply keeps_try; [| intros ?] : keeps.
#[local] Hint Extern 2 (keeps_store (if _ then _ else _)) =>
  apply keeps_if : keeps.

Lemma keeps_executeAggregateQuery q c :
  keeps_store (weaviate.executeAggregateQuery server q c).
Proof. unfold weaviate.executeAggregateQuery. auto 20 with keeps. Qed.

Lemma keeps_executeQuery q : keeps_store (weaviate.executeQuery server q).
Proof. unfold weaviate.executeQuery. auto 20 with keeps. Qed.

Lemma keeps_getObjectCount c : keeps_store (weaviate.getObjectCount server c).
Proof.
  unfold weaviate.getObjectCount.
  apply keeps_bind.
  - apply keeps_try; [| intros e; apply keeps_ret].
    apply keeps_bind; [apply keeps_executeAggregateQuery | intros v; apply keeps_ret].
  - intros [v |]; [apply keeps_lift | apply keeps_ret].
Qed.

Lemma keeps_describeClass w : keeps_store (weaviate.describeClass server w).
Proof.
  unfold weaviate.describeClass.
  pose proof keeps_getObjectCount. auto 20 with keeps.
Qed.

Lemma keeps_describeClasses ws : keeps_store (weaviate.describeClasses server ws).
Proof.
  induction ws as [| w ws IH]; cbn [weaviate.describeClasses].
  - apply keeps_ret.
  - pose proof keeps_describeClass. auto 20 with keeps.
Qed.

Lemma keeps_getCollections : keeps_store (weaviate.getCollections server).
Proof.
  unfold weaviate.getCollections.
  pose proof keeps_describeClasses. auto 20 with keeps.
Qed.

End Keeping.

(** ** Page fetch and search: reading the rows *)

Section Reading.

Variable server : list Exchange -> Request -> FetchResult.

Lemma executeQuery_run q st :
  configured st ->
  weaviate.executeQuery server q st
  = let r := server (trace st) (queryRequest st q) in
    (match r with
     | Responds resp =>
         if ok resp then
           match body_text resp, body_json resp with
           | Some _, Some v => Return v
           | Some _, None => Throw SyntaxError
           | None, _ => Throw TypeError
           end
         else Throw (Error ("Query failed: " ++ statusText resp))
     | Rejects e => Throw e
     end, sent st (queryRequest st q) r).
Proof.
  intros H. unfold weaviate.executeQuery.
  rewrite logged_id, prologue_configured by exact H.
  unfold bind, weaviate.getHeaders, weaviate.get_key, weaviate.get_url,
    weaviate.fetch, ret, json, throw, sent, loaded. cbn.
  fold (headersOf st). fold (queryRequest st q).
  destruct (server (trace st) _) as [resp | e]; [| reflexivity].
  destruct (ok resp); cbn; [| reflexivity].
  destruct (body_text resp); [| reflexivity].
  destruct (body_json resp); reflexivity.
Qed.

(** A 2xx answer with a JSON body [v] is what [executeQuery] returns. *)
Lemma executeQuery_answer q st resp t v :
  configured st ->
  server (trace st) (queryRequest st q) = Responds resp ->
  ok resp = true -> body_text resp = Some t -> body_json resp = Some v ->
  weaviate.executeQuery server q st
  = (Return v, sent st (queryRequest st q) (Responds resp)).
Proof.
  intros H Hs Hok Ht Hj. rewrite (executeQuery_run q st H). cbn zeta.
  rewrite Hs, Hok, Ht, Hj. reflexivity.
Qed.

Lemma getCollectionData_reads c p s l o st :
  configured st ->
  weaviate.getCollectionData server c p s l o st
  = match weaviate.executeQuery server (weaviate.listingQuery c p s l o) (loaded st) with
    | (Return v, st') => (weaviate.readRows v c, st')
    | (Throw e, st') => (Throw e, st')
    end.
Proof.
  intros H. unfold weaviate.getCollectionData.
  rewrite logged_id, prologue_configured by exact H.
  unfold bind, lift.
  destruct (weaviate.executeQuery server _ (loaded st)) as [[v | e] st'];
    reflexivity.
Qed.

Lemma searchCollections_reads options st :
  configured st ->
  weaviate.searchCollections server options st
  = match weaviate.getCollections server (loaded st) with
    | (Return collections, st1) =>
        match weaviate.executeQuery server
                (weaviate.graphqlQuery options
                   (weaviate.propertyNamesOf collections
                      (weaviate.so_collectionName options))) st1 with
        | (Return v, st2) =>
            (weaviate.readRows v (weaviate.so_collectionName options), st2)
        | (Throw e, st2) => (Throw e, st2)
        end
    | (Throw e, st1) => (Throw e, st1)
    end.
Proof.
  intros H. unfold weaviate.searchCollections.
  rewrite logged_id, prologue_configured by exact H.
  unfold bind, lift.
  destruct (weaviate.getCollections server (loaded st)) as [[cols | e] st1];
    [| reflexivity].
  destruct (weaviate.executeQuery server _ st1) as [[v | e] st2]; reflexivity.
Qed.

End Reading.

(** [readRows] decides on [data.Get] alone. *)
Lemma readRows_without_get v name :
  Js.truthy (dataGet v) = false ->
  weaviate.readRows v name = Throw (Error weaviate.invalidStructureMessage).
Proof.
  unfold dataGet, weaviate.readRows, Js.opt_get. intros H.
  destruct v as [| | b | z | s | items | fields]; try reflexivity; cbn in *;
    match goal with
    | |- context [Js.nullish ?d] => destruct d; cbn in *; try reflexivity
    end;
    match goal with
    | H : Js.truthy ?g = false |- _ => rewrite H; reflexivity
    end.
Qed.

Lemma readRows_with_get v name :
  Js.truthy (dataGet v) = true ->
  exists rows,
    Js.get (dataGet v) name = Return rows
    /\ weaviate.readRows v name = Return (Js.or_else rows (VArr [])).
Proof.
  unfold dataGet, weaviate.readRows, Js.opt_get. intros H.
  destruct v as [| | b | z | s | items | fields]; try discriminate H; cbn in *;
    match goal with
    | |- context [Js.nullish ?d] =>
        destruct d eqn:Ed; cbn in *; try discriminate H
    end;
    match goal with
    | H : Js.truthy ?g = true |- _ =>
        rewrite H; cbn;
        destruct g eqn:Eg; try discriminate H; cbn;
        eexists; split; reflexivity
    end.
Qed.

(** C7, as stated, fails at the last level of the shape: an answer that
    has [data.Get] but no key for the collection is no error; both the
    page fetch and the search return the empty list. *)
Lemma missing_collection_key_is_no_error :
  Js.get (dataGet noSuchKey) "Article" = Return VUndefined
  /\ fst (weaviate.getCollectionData
            (libraryServer notFound (jsonBody 200 "OK" noSuchKey))
            "Article" [titleRef] None (Some 250) (Some 0) readyState)
     = Return (VArr [])
  /\ fst (weaviate.searchCollections
            (libraryServer notFound (jsonBody 200 "OK" noSuchKey))
            proofsSearch readyState)
     = Return (VArr []).
Proof. repeat split. Qed.

Lemma queryRequest_same_store st st1 q :
  store st1 = store st -> queryRequest st1 q = queryRequest st q.
Proof. intros E. unfold queryRequest, headersOf. rewrite E. reflexivity. Qed.

(** What a search returns once the collections are listed and the query
    is answered by a 2xx with JSON body [v]. *)
Lemma searchCollections_answer server options st cols st1 resp t v :
  configured st ->
  weaviate.getCollections server (loaded st) = (Return cols, st1) ->
  server (trace st1)
    (queryRequest st
       (weaviate.graphqlQuery options
          (weaviate.propertyNamesOf cols (weaviate.so_collectionName options))))
  = Responds resp ->
  ok resp = true -> body_text resp = Some t -> body_json resp = Some v ->
  fst (weaviate.searchCollections server options st)
  = weaviate.readRows v (weaviate.so_collectionName options).
Proof.
  intros H Hc Hs Hok Ht Hj.
  rewrite (searchCollections_reads server options st H), Hc.
  assert (E : store st1 = store st).
  { pose proof (keeps_getCollections server (loaded st)) as K.
    rewrite Hc in K. exact K. }
  assert (H1 : configured st1) by (unfold configured; rewrite E; exact H).
  rewrite <- (queryRequest_same_store st st1 _ E) in Hs.
  rewrite (executeQuery_answer server _ st1 resp t v H1 Hs Hok Ht Hj).
  reflexivity.
Qed.

Lemma getCollectionData_answer server c p s l o st resp t v :
  configured st ->
  server (trace st) (queryRequest st (weaviate.listingQuery c p s l o))
  = Responds resp ->
  ok resp = true -> body_text resp = Some t -> body_json resp = Some v ->
  fst (weaviate.getCollectionData server c p s l o st) = weaviate.readRows v c.
Proof.
  intros H Hs Hok Ht Hj.
  rewrite (getCollectionData_reads server c p s l o st H).
  rewrite (executeQuery_answer server _ (loaded st) resp t v H Hs Hok Ht Hj).
  reflexivity.
Qed.

(** C7 (amended). When the query of a page fetch or of a search is
    answered by a 2xx with JSON body [v], the operation ends as [readRows]
    does on [v]: with the error [Invalid response structure from Weaviate]
    when [v?.data?.Get] is missing or falsy, and otherwise with the value
    under the collection's key in [data.Get], or the empty list when that
    key is missing or its value falsy.  A missing collection key is no
    error. *)
Theorem rows_require_data_get :
  forall server (st : State) (resp : Response) (t : string) (v : JsVal),
    configured st ->
    ok resp = true -> body_text resp = Some t -> body_json resp = Some v ->
    (forall c p s l o,
        server (trace st) (queryRequest st (weaviate.listingQuery c p s l o))
        = Responds resp ->
        fst (weaviate.getCollectionData server c p s l o st)
        = weaviate.readRows v c)
    /\ (forall options cols st1,
          weaviate.getCollections server (loaded st) = (Return cols, st1) ->
          server (trace st1)
            (queryRequest st
               (weaviate.graphqlQuery options
                  (weaviate.propertyNamesOf cols
                     (weaviate.so_collectionName options))))
          = Responds resp ->
          fst (weaviate.searchCollections server options st)
          = weaviate.readRows v (weaviate.so_collectionName options))
    /\ (forall name,
          Js.truthy (dataGet v) = false ->
          weaviate.readRows v name
          = Throw (Error weaviate.invalidStructureMessage))
    /\ (forall name,
          Js.truthy (dataGet v) = true ->
          exists rows,
            Js.get (dataGet v) name = Return rows
            /\ weaviate.readRows v name = Return (Js.or_else rows (VArr []))).
Proof.
  intros server st resp t v H Hok Ht Hj. repeat split.
  - intros c p s l o Hs.
    exact (getCollectionData_answer server c p s l o st resp t v H Hs Hok Ht Hj).
  - intros options cols st1 Hc Hs.
    exact (searchCollections_answer server options st cols st1 resp t v
             H Hc Hs Hok Ht Hj).
  - intros name. apply readRows_without_get.
  - intros name. apply readRows_with_get.
Qed.

Lemma rows_require_data_get_witness :
  fst (weaviate.getCollectionData
         (libraryServer notFound (jsonBody 200 "OK" graphqlErrors))
         "Article" [titleRef] None (Some 250) (Some 0) readyState)
  = Throw (Error weaviate.invalidStructureMessage).
Proof.
  pose proof (rows_require_data_get
                (libraryServer notFound (jsonBody 200 "OK" graphqlErrors))
                readyState (mkResponse 200 "OK" (Some "(json)") (Some graphqlErrors))
                "(json)" graphqlErrors eq_refl eq_refl eq_refl eq_refl)
    as [Hpage [_ [Hnone _]]].
  rewrite (Hpage "Article" [titleRef] None (Some 250) (Some 0) eq_refl).
  apply Hnone. reflexivity.
Defined.

(** ** The identity-and-score sidecar *)

Lemma lookup_set_field_same fields k v :
  Js.lookup (Js.set_field fields k v) k = v.
Proof.
  induction fields as [| [k' v'] r IH]; cbn.
  - rewrite String.eqb_refl. reflexivity.
  - destruct (String.eqb k' k) eqn:E; cbn.
    + rewrite String.eqb_refl. reflexivity.
    + rewrite E. exact IH.
Qed.

Lemma lookup_set_field_other fields k v k2 :
  k2 <> k -> Js.lookup (Js.set_field fields k v) k2 = Js.lookup fields k2.
Proof.
  intros Hne. induction fields as [| [k' v'] r IH]; cbn.
  - destruct (String.eqb_spec k k2); [congruence | reflexivity].
  - destruct (String.eqb_spec k' k) as [-> | Hk]; cbn.
    + destruct (String.eqb_spec k k2); [congruence | reflexivity].
    + destruct (String.eqb k' k2); [reflexivity | exact IH].
Qed.

(** Writing back the value a key already has changes nothing. *)
Lemma set_field_same fields k :
  Js.truthy (Js.lookup fields k) = true ->
  Js.set_field fields k (Js.lookup fields k) = fields.
Proof.
  induction fields as [| [k' v'] r IH]; cbn; [discriminate |].
  destruct (String.eqb_spec k' k) as [-> | Hk]; [reflexivity |].
  intros H. rewrite (IH H). reflexivity.
Qed.

Lemma normalizeResult_object fields :
  SearchView.normalizeResult (VObj fields)
  = VObj (Js.set_field fields "_additional"
            (Js.or_else (Js.lookup fields "_additional")
               SearchView.defaultAdditional)).
Proof. reflexivity. Qed.

Lemma normalizeResult_has_sidecar row :
  exists fields,
    SearchView.normalizeResult row = VObj fields
    /\ Js.truthy (Js.lookup fields "_additional") = true.
Proof.
  destruct row as [| | b | z | s | items | fields];
    try (eexists; split; reflexivity).
  - destruct b; eexists; split; reflexivity.
  - unfold SearchView.normalizeResult. cbn [Js.truthy Js.typeof_object].
    destruct (negb (negb (z =? 0)) || negb false);
      eexists; split; reflexivity.
  - unfold SearchView.normalizeResult. cbn [Js.typeof_object negb].
    rewrite orb_true_r. eexists; split; reflexivity.
  - eexists. split; [reflexivity |]. rewrite lookup_set_field_same.
    reflexivity.
  - eexists. split; [apply normalizeResult_object |].
    rewrite lookup_set_field_same. unfold Js.or_else.
    destruct (Js.truthy (Js.lookup fields "_additional")) eqn:E;
      [exact E | reflexivity].
Qed.

Section Searching.

Variable server : list Exchange -> Request -> FetchResult.

Lemma handleSearch_run q c ty l props st :
  JsString.truthy (JsString.trim q) = true ->
  JsString.truthy c = true ->
  SearchView.handleSearch server q c ty l props st
  = let run := weaviate.searchCollections server (viewOptions q c ty l props)
                 (loaded st) in
    (Return (SearchView.Shown
               (found <~ fst run ;; SearchView.normalizeResults found)),
     snd run).
Proof.
  intros Hq Hc. unfold SearchView.handleSearch. rewrite Hq, Hc. cbn [negb orb].
  unfold bind at 1. unfold caught. unfold bind at 1.
  rewrite initialize_loaded. fold (viewOptions q c ty l props).
  unfold bind, lift, ret. cbn zeta.
  destruct (weaviate.searchCollections server _ (loaded st)) as [[found | e] st'];
    cbn; [| reflexivity].
  destruct (SearchView.normalizeResults found); reflexivity.
Qed.

End Searching.

(** C9, as stated, fails for the page fetch (and for the search as the
    access layer returns it): a row that comes without [_additional] is
    delivered without it. *)
Lemma page_row_keeps_missing_sidecar :
  fst (weaviate.getCollectionData
         (libraryServer notFound (jsonBody 200 "OK" articleRows))
         "Article" [titleRef] None (Some 250) (Some 0) readyState)
  = Return (VArr [bareRow; fullRow])
  /\ fst (weaviate.searchCollections
            (libraryServer notFound (jsonBody 200 "OK" articleRows))
            proofsSearch readyState)
     = Return (VArr [bareRow; fullRow])
  /\ Js.get bareRow "_additional" = Return VUndefined.
Proof. repeat split. Qed.

Lemma readRows_delivers v name rows :
  Js.truthy (dataGet v) = true ->
  Js.get (dataGet v) name = Return rows ->
  Js.truthy rows = true ->
  weaviate.readRows v name = Return rows.
Proof.
  intros Hg Hr Ht. destruct (readRows_with_get v name Hg) as [rows' [Hr' ->]].
  rewrite Hr in Hr'. injection Hr' as <-. unfold Js.or_else. rewrite Ht.
  reflexivity.
Qed.

(** C9 (amended). The access layer hands the rows over as the store sent
    them: when the query of a page fetch or of a search is answered by a
    2xx whose [data.Get] holds a truthy value under the collection's key,
    that value is the result, row for row, sidecar or not.  The default is
    applied one layer up and for the search only: [handleSearch] shows each
    row of the search result through [normalizeResult], which leaves an
    object row with a truthy [_additional] as it is, sets [_additional] to
    the default (empty id, score 0) on an object row where it is missing or falsy
    (the other keys keep their values), and replaces a row that is no
    object by a row holding the default sidecar only; so a row shown by
    the search view always has a sidecar. *)
Theorem sidecar_defaulted_in_search_view_only :
  forall server (st : State) (resp : Response) (t : string) (v rows : JsVal),
    configured st ->
    ok resp = true -> body_text resp = Some t -> body_json resp = Some v ->
    (forall c p s l o,
        server (trace st) (queryRequest st (weaviate.listingQuery c p s l o))
        = Responds resp ->
        Js.truthy (dataGet v) = true ->
        Js.get (dataGet v) c = Return rows ->
        Js.truthy rows = true ->
        fst (weaviate.getCollectionData server c p s l o st) = Return rows)
    /\ (forall options cols st1,
          weaviate.getCollections server (loaded st) = (Return cols, st1) ->
          server (trace st1)
            (queryRequest st
               (weaviate.graphqlQuery options
                  (weaviate.propertyNamesOf cols
                     (weaviate.so_collectionName options))))
          = Responds resp ->
          Js.truthy (dataGet v) = true ->
          Js.get (dataGet v) (weaviate.so_collectionName options) = Return rows ->
          Js.truthy rows = true ->
          fst (weaviate.searchCollections server options st) = Return rows)
    /\ (forall q c ty l props items,
          JsString.truthy (JsString.trim q) = true ->
          JsString.truthy c = true ->
          fst (weaviate.searchCollections server (viewOptions q c ty l props)
                 (loaded st)) = Return (VArr items) ->
          fst (SearchView.handleSearch server q c ty l props st)
          = Return (SearchView.Shown
                      (Return (List.map SearchView.normalizeResult items))))
    /\ (forall row,
          (exists fields,
              SearchView.normalizeResult row = VObj fields
              /\ Js.truthy (Js.lookup fields "_additional") = true)
          /\ (forall fields,
                row = VObj fields ->
                Js.truthy (Js.lookup fields "_additional") = true ->
                SearchView.normalizeResult row = row)
          /\ (forall fields,
                row = VObj fields ->
                Js.truthy (Js.lookup fields "_additional") = false ->
                SearchView.normalizeResult row
                = VObj (Js.set_field fields "_additional"
                          SearchView.defaultAdditional)
                /\ forall k,
                    k <> "_additional" ->
                    Js.lookup (Js.set_field fields "_additional"
                                 SearchView.defaultAdditional) k
                    = Js.lookup fields k)
          /\ (negb (Js.truthy row) || negb (Js.typeof_object row) = true ->
              SearchView.normalizeResult row
              = VObj [("_additional", SearchView.defaultAdditional)])).
Proof.
  intros server st resp t v rows H Hok Ht Hj. split; [| split; [| split]].
  - intros c p s l o Hs Hg Hr Hrows.
    rewrite (getCollectionData_answer server c p s l o st resp t v H Hs Hok Ht Hj).
    exact (readRows_delivers v c rows Hg Hr Hrows).
  - intros options cols st1 Hc Hs Hg Hr Hrows.
    rewrite (searchCollections_answer server options st cols st1 resp t v
               H Hc Hs Hok Ht Hj).
    exact (readRows_delivers v _ rows Hg Hr Hrows).
  - intros q c ty l props items Hq Hc Hrun.
    rewrite (handleSearch_run server q c ty l props st Hq Hc). cbn zeta.
    cbn [fst]. rewrite Hrun. reflexivity.
  - intros row. split; [apply normalizeResult_has_sidecar |].
    split; [| split].
    + intros fields -> Hs. rewrite normalizeResult_object.
      unfold Js.or_else. rewrite Hs, (set_field_same fields _ Hs). reflexivity.
    + intros fields -> Hs. rewrite normalizeResult_object.
      unfold Js.or_else. rewrite Hs. split; [reflexivity |].
      intros k Hk. apply lookup_set_field_other, Hk.
    + intros Hn. unfold SearchView.normalizeResult. rewrite Hn. reflexivity.
Qed.

Lemma sidecar_defaulted_in_search_view_only_witness :
  fst (weaviate.getCollectionData
         (libraryServer notFound (jsonBody 200 "OK" articleRows))
         "Article" [titleRef] None (Some 250) (Some 0) readyState)
  = Return (VArr [bareRow; fullRow])
  /\ fst (SearchView.handleSearch
            (libraryServer notFound (jsonBody 200 "OK" articleRows))
            "proofs" "Article" weaviate.bm25 10 [] readyState)
     = Return (SearchView.Shown
                 (Return [SearchView.normalizeResult bareRow;
                          SearchView.normalizeResult fullRow]))
  /\ SearchView.normalizeResult fullRow = fullRow
  /\ SearchView.normalizeResult bareRow
     = VObj [("title", VStr "On proofs");
             ("_additional", SearchView.defaultAdditional)].
Proof.
  pose proof (sidecar_defaulted_in_search_view_only
                (libraryServer notFound (jsonBody 200 "OK" articleRows))
                readyState
                (mkResponse 200 "OK" (Some "(json)") (Some articleRows))
                "(json)" articleRows (VArr [bareRow; fullRow])
                eq_refl eq_refl eq_refl eq_refl)
    as [Hpage [_ [Hview Hrow]]].
  split; [| split; [| split]].
  - apply Hpage; reflexivity.
  - apply (Hview "proofs" "Article" weaviate.bm25 10 []
             [bareRow; fullRow]); reflexivity.
  - destruct (Hrow fullRow) as [_ [Hkeep _]].
    apply (Hkeep _ eq_refl). reflexivity.
  - destruct (Hrow bareRow) as [_ [_ [Hset _]]].
    destruct (Hset _ eq_refl eq_refl) as [E _]. exact E.
Defined.

(** ** The search document *)

Lemma append_assoc (a b c : string) : (a ++ b) ++ c = a ++ (b ++ c).
Proof. induction a as [| x a IH]; cbn; [reflexivity | rewrite IH; reflexivity]. Qed.

(** Flattens both sides of an equation between concatenations. *)
Ltac flatten_appends :=
  unfold nl, dq; repeat rewrite append_assoc; cbn [append]; reflexivity.

Lemma graphqlQuery_shape options propertyNames :
  weaviate.graphqlQuery options propertyNames
  = searchHead (weaviate.so_collectionName options)
    ++ ("(" ++ nl ++ "          " ++
        weaviate.searchDirective (weaviate.searchTypeOf options)
          (weaviate.so_query options) (weaviate.so_properties options))
    ++ limitLine (JsString.of_Z (weaviate.limitValue options))
    ++ searchTail propertyNames.
Proof.
  unfold weaviate.graphqlQuery, searchHead, limitLine, searchTail.
  flatten_appends.
Qed.

Lemma limitValue_default options :
  weaviate.so_limit options = None \/ weaviate.so_limit options = Some 0 ->
  weaviate.limitValue options = 10.
Proof. unfold weaviate.limitValue. intros [-> | ->]; reflexivity. Qed.

Lemma limitValue_given options l :
  weaviate.so_limit options = Some l -> l <> 0 ->
  weaviate.limitValue options = l.
Proof.
  unfold weaviate.limitValue. intros -> Hl.
  destruct (Z.eqb_spec l 0); [contradiction | reflexivity].
Qed.

Section SearchDocument.

Variable server : list Exchange -> Request -> FetchResult.

(** Once the collections are listed, the next and last request of a
    search carries the document built from the options. *)
Lemma searchCollections_sends options st cols st1 :
  configured st ->
  weaviate.getCollections server (loaded st) = (Return cols, st1) ->
  let rq := queryRequest st
              (weaviate.graphqlQuery options
                 (weaviate.propertyNamesOf cols
                    (weaviate.so_collectionName options))) in
  trace (snd (weaviate.searchCollections server options st))
  = (trace st1 ++ [(rq, server (trace st1) rq)])%list.
Proof.
  intros H Hc rq. subst rq.
  rewrite (searchCollections_reads server options st H), Hc.
  assert (E : store st1 = store st).
  { pose proof (keeps_getCollections server (loaded st)) as K.
    rewrite Hc in K. exact K. }
  assert (H1 : configured st1) by (unfold configured; rewrite E; exact H).
  rewrite (executeQuery_run server _ st1 H1). cbn zeta.
  rewrite (queryRequest_same_store st st1 _ E).
  destruct (server (trace st1) _) as [resp | e]; [| reflexivity].
  destruct (ok resp); [| reflexivity].
  destruct (body_text resp); [| reflexivity].
  destruct (body_json resp); reflexivity.
Qed.

End SearchDocument.

(** C10. The document [searchCollections] builds and, once the
    collections are listed, posts to the query endpoint has, right after
    the collection name, a [bm25] directive on the query text when no
    search type is given, and closes its arguments with [limit: 10] when
    the limit is absent or 0 and with the given limit, printed as it is,
    otherwise. *)
Theorem search_defaults_bm25_and_limit_10 :
  forall server (options : weaviate.SearchOptions) (st : State)
         (cols : list weaviate.CollectionInfo) (st1 : State),
    configured st ->
    weaviate.getCollections server (loaded st) = (Return cols, st1) ->
    let document :=
      weaviate.graphqlQuery options
        (weaviate.propertyNamesOf cols (weaviate.so_collectionName options)) in
    trace (snd (weaviate.searchCollections server options st))
    = (trace st1 ++ [(queryRequest st document,
                      server (trace st1) (queryRequest st document))])%list
    /\ (weaviate.so_searchType options = None ->
        contains document
          ("(" ++ nl ++ "          bm25: { query: " ++ dq ++
           weaviate.so_query options ++ dq))
    /\ (weaviate.so_limit options = None \/ weaviate.so_limit options = Some 0 ->
        contains document (limitLine "10"))
    /\ (forall l,
          weaviate.so_limit options = Some l -> l <> 0 ->
          contains document (limitLine (JsString.of_Z l))).
Proof.
  intros server options st cols st1 H Hc document.
  split; [exact (searchCollections_sends server options st cols st1 H Hc) |].
  subst document. rewrite graphqlQuery_shape.
  set (names := weaviate.propertyNamesOf _ _).
  set (directive := weaviate.searchDirective _ _ _).
  split; [| split].
  - intros Hn. subst directive. unfold weaviate.searchTypeOf. rewrite Hn.
    cbn [weaviate.searchDirective].
    exists (searchHead (weaviate.so_collectionName options)),
      (weaviate.restriction (weaviate.so_properties options) ++ " }" ++
       limitLine (JsString.of_Z (weaviate.limitValue options)) ++
       searchTail names).
    flatten_appends.
  - intros Hl. rewrite (limitValue_default options Hl).
    exists (searchHead (weaviate.so_collectionName options) ++
            "(" ++ nl ++ "          " ++ directive), (searchTail names).
    flatten_appends.
  - intros l Hl Hne. rewrite (limitValue_given options l Hl Hne).
    exists (searchHead (weaviate.so_collectionName options) ++
            "(" ++ nl ++ "          " ++ directive), (searchTail names).
    flatten_appends.
Qed.

Lemma search_defaults_bm25_and_limit_10_witness :
  contains
    (weaviate.graphqlQuery proofsSearch [VStr "title"])
    ("(" ++ nl ++ "          bm25: { query: " ++ dq ++ "proofs" ++ dq)
  /\ contains
       (weaviate.graphqlQuery proofsSearch [VStr "title"])
       (limitLine "10").
Proof.
  pose proof (search_defaults_bm25_and_limit_10
                (libraryServer notFound (jsonBody 200 "OK" articleRows))
                proofsSearch readyState
                [descriptor "Article" 7; descriptor "Author" 0; descriptor "Tag" 3]
                (snd (weaviate.getCollections
                        (libraryServer notFound (jsonBody 200 "OK" articleRows))
                        (loaded readyState)))
                eq_refl eq_refl) as [_ [Hb [Hl _]]].
  split; [apply Hb; reflexivity | apply Hl; left; reflexivity].
Defined.

(** The whole document of a search on [Article] with nothing but a query. *)
Example proofsSearch_document :
  weaviate.graphqlQuery proofsSearch [VStr "title"]
  = "{" ++ nl ++
    "      Get {" ++ nl ++
    "        Article(" ++ nl ++
    "          bm25: { query: " ++ dq ++ "proofs" ++ dq ++ " }" ++ nl ++
    "          limit: 10" ++ nl ++
    "        ) {" ++ nl ++
    "          _additional {" ++ nl ++
    "            id" ++ nl ++
    "            score" ++ nl ++
    "          }" ++ nl ++
    "          title" ++ nl ++
    "        }" ++ nl ++
    "      }" ++ nl ++
    "    }".
Proof. reflexivity. Qed.

(** The document of a page fetch sorted by [createdAt], newest first. *)
Example listingQuery_sorted :
  weaviate.listingQuery "Article" [titleRef]
    (Some (weaviate.mkSort "createdAt" "desc")) (Some 50) (Some 0)
  = "{" ++ nl ++
    "      Get {" ++ nl ++
    "        Article(sort: {" ++ nl ++
    "          path: [" ++ dq ++ "createdAt" ++ dq ++ "]," ++ nl ++
    "          order: desc" ++ nl ++
    "        }, limit: 50, offset: 0) {" ++ nl ++
    "          _additional {" ++ nl ++
    "            id" ++ nl ++
    "          }" ++ nl ++
    "          title" ++ nl ++
    "        }" ++ nl ++
    "      }" ++ nl ++
    "    }".
Proof. reflexivity. Qed.

(** * Further properties of the access layer *)

(** ** A small logic of what is sent *)

Section Sending.

Variable server : list Exchange -> Request -> FetchResult.
Variable st0 : State.
Variable P : Request -> Prop.

Lemma sends_ret {A} (a : A) (Q : A -> Prop) : Q a -> sends st0 P (ret a) Q.
Proof.
  intros Hq st Hc. cbn. split; [exact Hc |]. split.
  - exists []. rewrite app_nil_r. split; [reflexivity | constructor].
  - intros a' E. injection E as <-. exact Hq.
Qed.

Lemma sends_throw {A} e (Q : A -> Prop) : sends st0 P (throw e) Q.
Proof.
  intros st Hc. cbn. split; [exact Hc |]. split.
  - exists []. rewrite app_nil_r. split; [reflexivity | constructor].
  - intros a E. discriminate E.
Qed.

Lemma sends_lift {A} (o : Outcome A) (Q : A -> Prop) :
  (forall a, o = Return a -> Q a) -> sends st0 P (lift o) Q.
Proof.
  intros Hq st Hc. cbn. split; [exact Hc |]. split.
  - exists []. rewrite app_nil_r. split; [reflexivity | constructor].
  - exact Hq.
Qed.

Lemma sends_weaken {A} (m : M A) (Q Q' : A -> Prop) :
  sends st0 P m Q -> (forall a, Q a -> Q' a) -> sends st0 P m Q'.
Proof.
  intros Hm Hq st Hc. destruct (Hm st Hc) as [H1 [H2 H3]].
  split; [exact H1 |]. split; [exact H2 |]. intros a E. apply Hq, H3, E.
Qed.

Lemma sends_bind {A B} (m : M A) (k : A -> M B) (Q : A -> Prop) (R : B -> Prop) :
  sends st0 P m Q -> (forall a, Q a -> sends st0 P (k a) R) ->
  sends st0 P (bind m k) R.
Proof.
  intros Hm Hk st Hc. destruct (Hm st Hc) as [H1 [[new [Ht Hf]] H3]].
  unfold bind. destruct (m st) as [[a | e] st1]; cbn [fst snd] in *.
  - destruct (Hk a (H3 a eq_refl) st1 H1) as [K1 [[new' [Kt Kf]] K3]].
    split; [exact K1 |]. split; [| exact K3].
    exists (new ++ new')%list. split.
    + rewrite Kt, Ht, app_assoc. reflexivity.
    + apply Forall_app. split; assumption.
  - split; [exact H1 |]. split.
    + exists new. split; assumption.
    + intros b E. discriminate E.
Qed.

Lemma sends_try {A} (m : M A) h (Q : A -> Prop) :
  sends st0 P m Q -> (forall e, sends st0 P (h e) Q) ->
  sends st0 P (try_catch m h) Q.
Proof.
  intros Hm Hh st Hc. destruct (Hm st Hc) as [H1 [[new [Ht Hf]] H3]].
  unfold try_catch. destruct (m st) as [[a | e] st1]; cbn [fst snd] in *.
  - split; [exact H1 |]. split; [| exact H3].
    exists new. split; assumption.
  - destruct (Hh e st1 H1) as [K1 [[new' [Kt Kf]] K3]].
    split; [exact K1 |]. split; [| exact K3].
    exists (new ++ new')%list. split.
    + rewrite Kt, Ht, app_assoc. reflexivity.
    + apply Forall_app. split; assumption.
Qed.

Lemma sends_logged {A} (m : M A) (Q : A -> Prop) :
  sends st0 P m Q -> sends st0 P (logged m) Q.
Proof. intros Hm. apply sends_try; [exact Hm | intros e; apply sends_throw]. Qed.

Lemma sends_if {A} (b : bool) (m1 m2 : M A) (Q : A -> Prop) :
  sends st0 P m1 Q -> sends st0 P m2 Q -> sends st0 P (if b then m1 else m2) Q.
Proof. destruct b; auto. Qed.

Lemma sends_fetch rq : P rq -> sends st0 P (weaviate.fetch server rq) (fun _ => True).
Proof.
  intros Hp st Hc. unfold weaviate.fetch.
  assert (Hn : Forall (fun x : Exchange => P (fst x)) [(rq, server (trace st) rq)])
    by (constructor; [exact Hp | constructor]).
  destruct (server (trace st) rq) as [resp | e] eqn:E; cbn [fst snd];
    (split; [exact Hc |]); (split; [eexists; split; [reflexivity | exact Hn] |]);
    intros; exact I.
Qed.

Lemma sends_json r : sends st0 P (json r) (fun _ => True).
Proof.
  unfold json. destruct (body_text r); [| apply sends_throw].
  destruct (body_json r); [apply sends_ret; exact I | apply sends_throw].
Qed.

Lemma sends_text r : sends st0 P (text r) (fun _ => True).
Proof.
  unfold text. destruct (body_text r);
    [apply sends_ret; exact I | apply sends_throw].
Qed.

Lemma sends_get_url :
  sends st0 P weaviate.get_url (fun u => u = weaviateUrl (store st0)).
Proof.
  intros st Hc. cbn. split; [exact Hc |]. split.
  - exists []. rewrite app_nil_r. split; [reflexivity | constructor].
  - intros u E. injection E as <-. apply Hc.
Qed.

Lemma sends_getHeaders :
  sends st0 P weaviate.getHeaders (fun hs => hs = headersOf st0).
Proof.
  intros st Hc. cbn. split; [exact Hc |]. split.
  - exists []. rewrite app_nil_r. split; [reflexivity | constructor].
  - intros hs E. injection E as <-. unfold headersOf.
    destruct Hc as [_ [_ ->]]. reflexivity.
Qed.

Lemma sends_initialize :
  sends st0 P weaviate.initializeWeaviate (fun _ => True).
Proof.
  intros st Hc. rewrite initialize_loaded. cbn [fst snd].
  destruct Hc as [Hs [Hu Hk]]. split.
  - unfold connected, loaded. cbn. rewrite Hs. repeat split.
  - split; [| intros; exact I].
    exists []. cbn. rewrite app_nil_r. split; [reflexivity | constructor].
Qed.

Lemma sends_requireUrl : sends st0 P weaviate.requireUrl (fun _ => True).
Proof.
  unfold weaviate.requireUrl.
  apply (sends_bind _ _ _ _ sends_get_url). intros u _.
  apply sends_if; [apply sends_throw | apply sends_ret; exact I].
Qed.

Lemma sends_for_each {A} (f : A -> M unit) (l : list A) :
  (forall x, In x l -> sends st0 P (f x) (fun _ => True)) ->
  sends st0 P (for_each f l) (fun _ => True).
Proof.
  induction l as [| x r IH]; intros Hf; cbn [for_each].
  - apply sends_ret. exact I.
  - apply (sends_bind _ _ (fun _ => True)).
    + apply Hf. left. reflexivity.
    + intros _ _. apply IH. intros y Hy. apply Hf. right. exact Hy.
Qed.

End Sending.

(** One rule at a time, as far as the shape of the computation decides. *)
Ltac sending :=
  repeat first
    [ apply sends_logged
    | apply sends_ret; exact I
    | apply sends_throw
    | apply sends_json
    | apply sends_if
    | apply sends_lift; intros; exact I
    | eapply sends_bind; [apply sends_initialize | intros _ _]
    | eapply sends_bind; [apply sends_requireUrl | intros _ _]
    | eapply sends_bind; [apply sends_getHeaders | intros ? ->]
    | eapply sends_bind; [apply sends_get_url | intros ? ->]
    | eapply sends_bind; [apply sends_json | intros ? _]
    | eapply sends_bind; [apply sends_text | intros ? _]
    | eapply sends_bind; [apply sends_lift; intros; exact I | intros ? _]
    | eapply sends_bind; [apply sends_fetch | intros ? _] ].

Section SendingOperations.

Variable server : list Exchange -> Request -> FetchResult.
Variable st0 : State.
Variable P : Request -> Prop.

Lemma sends_executeQuery q :
  P (queryRequest st0 q) ->
  sends st0 P (weaviate.executeQuery server q) (fun _ => True).
Proof. intros Hp. unfold weaviate.executeQuery. sending. exact Hp. Qed.

Lemma sends_executeAggregateQuery q c :
  P (queryRequest st0 q) ->
  sends st0 P (weaviate.executeAggregateQuery server q c) (fun _ => True).
Proof. intros Hp. unfold weaviate.executeAggregateQuery. sending. exact Hp. Qed.

Lemma sends_getObjectCount c :
  P (countRequest st0 c) ->
  sends st0 P (weaviate.getObjectCount server c) (fun _ => True).
Proof.
  intros Hp. unfold weaviate.getObjectCount.
  eapply sends_bind with (Q := fun _ => True).
  - apply sends_try; [| intros e; apply sends_ret; exact I].
    eapply sends_bind; [apply sends_executeAggregateQuery; exact Hp |].
    intros v _. apply sends_ret. exact I.
  - intros [v |] _; [apply sends_lift; intros; exact I | apply sends_ret; exact I].
Qed.

Lemma sends_describeClasses ws :
  (forall c, P (countRequest st0 c)) ->
  sends st0 P (weaviate.describeClasses server ws) (fun _ => True).
Proof.
  intros Hp. induction ws as [| w ws IH]; cbn [weaviate.describeClasses].
  - apply sends_ret. exact I.
  - eapply sends_bind with (Q := fun _ => True).
    + unfold weaviate.describeClass.
      eapply sends_bind; [apply sends_lift; intros; exact I | intros cls _].
      eapply sends_bind; [apply sends_getObjectCount, Hp | intros n _].
      sending.
    + intros info _.
      eapply sends_bind; [exact IH | intros infos _]. apply sends_ret. exact I.
Qed.

Lemma sends_getCollections :
  P (schemaRequest st0) -> (forall c, P (countRequest st0 c)) ->
  sends st0 P (weaviate.getCollections server) (fun _ => True).
Proof.
  intros Hs Hp. unfold weaviate.getCollections. sending.
  - exact Hs.
  - apply sends_describeClasses, Hp.
Qed.

Lemma sends_getCollectionData c p s l o :
  (forall q, P (queryRequest st0 q)) ->
  sends st0 P (weaviate.getCollectionData server c p s l o) (fun _ => True).
Proof.
  intros Hq. unfold weaviate.getCollectionData. sending.
  eapply sends_bind; [apply sends_executeQuery, Hq | intros v _]. sending.
Qed.

Lemma sends_searchCollections options :
  P (schemaRequest st0) -> (forall q, P (queryRequest st0 q)) ->
  sends st0 P (weaviate.searchCollections server options) (fun _ => True).
Proof.
  intros Hs Hq. unfold weaviate.searchCollections. sending.
  eapply sends_bind;
    [apply sends_getCollections; [exact Hs | intros c; apply Hq] | intros cols _].
  eapply sends_bind; [apply sends_executeQuery, Hq | intros v _]. sending.
Qed.

Lemma sends_getObjectById c id :
  P (objectRequest st0 id) ->
  sends st0 P (weaviate.getObjectById server c id) (fun _ => True).
Proof. intros Hp. unfold weaviate.getObjectById. sending. exact Hp. Qed.

Lemma sends_deleteObjects c ids :
  (forall id, P (deleteRequest st0 id)) ->
  sends st0 P (weaviate.deleteObjects server c ids) (fun _ => True).
Proof.
  intros Hp. unfold weaviate.deleteObjects. sending.
  apply sends_for_each. intros id _. unfold weaviate.deleteObject. sending.
  apply Hp.
Qed.

Lemma sends_deleteCollection c :
  P (mkRequest DELETE (weaviateUrl (store st0) ++ "/v1/schema/" ++ c)
       (headersOf st0) None) ->
  sends st0 P (weaviate.deleteCollection server c) (fun _ => True).
Proof. intros Hp. unfold weaviate.deleteCollection. sending. exact Hp. Qed.

Lemma sends_createCollection schema :
  P (creationRequest st0 schema) ->
  sends st0 P (weaviate.createCollection server schema) (fun _ => True).
Proof.
  intros Hp. unfold weaviate.createCollection. sending.
  - rewrite weaviateSchema_stored. exact Hp.
  - eapply sends_bind with (Q := fun _ => True); [| intros; sending].
    apply sends_try; [apply sends_json | intros e; apply sends_ret; exact I].
Qed.

Lemma sends_createObject c o :
  P (mkRequest POST (weaviateUrl (store st0) ++ "/v1/objects") (headersOf st0)
       (Some (VObj [("class", VStr c); ("properties", o)]))) ->
  sends st0 P (weaviate.createObject server c o) (fun _ => True).
Proof. intros Hp. unfold weaviate.createObject. sending. exact Hp. Qed.

Lemma sends_updateObject c id o :
  P (mkRequest PATCH (weaviateUrl (store st0) ++ "/v1/objects/" ++ id)
       (headersOf st0) (Some (VObj [("class", VStr c); ("properties", o)]))) ->
  sends st0 P (weaviate.updateObject server c id o) (fun _ => True).
Proof. intros Hp. unfold weaviate.updateObject. sending. exact Hp. Qed.

End SendingOperations.

(** ** Every request goes to the configured endpoint *)

Lemma perform_reloads server c st :
  perform server c st = perform server c (loaded st).
Proof. destruct c; reflexivity. Qed.

Lemma snd_thrown {A} (r : Outcome A * State) : snd (thrown r) = snd r.
Proof. destruct r as [[a | e] st]; reflexivity. Qed.

Lemma connected_loaded st : connected st (loaded st).
Proof. repeat split. Qed.

Lemma prefixb_app a b : JsString.prefixb a (a ++ b) = true.
Proof.
  induction a as [| c r IH]; [reflexivity |].
  cbn [append]. rewrite prefixb_cons, Ascii.eqb_refl. exact IH.
Qed.

Lemma prefixb_strip_app u x :
  JsString.prefixb (JsString.stripTrailingSlash u) (u ++ x) = true.
Proof.
  induction u as [| c r IH]; [reflexivity |].
  cbn [JsString.stripTrailingSlash append]. destruct r as [| d r'].
  - destruct (Ascii.eqb c "/"); [reflexivity |].
    rewrite prefixb_cons, Ascii.eqb_refl. reflexivity.
  - rewrite prefixb_cons, Ascii.eqb_refl. exact IH.
Qed.

Lemma addressed_under st m path b :
  addressed st (mkRequest m (weaviateUrl (store st) ++ path) (headersOf st) b).
Proof. split; [reflexivity | apply prefixb_strip_app]. Qed.

Lemma addressed_creation st schema : addressed st (creationRequest st schema).
Proof. split; [reflexivity | apply prefixb_app]. Qed.

(** What [sends] gives for a call made from any state. *)
Lemma perform_sends server c st (P : Request -> Prop) :
  (forall st1, connected st st1 ->
     exists new,
       trace (snd (perform server c st1)) = (trace st1 ++ new)%list
       /\ Forall (fun x => P (fst x)) new) ->
  exists new,
    trace (snd (perform server c st)) = (trace st ++ new)%list
    /\ Forall (fun x => P (fst x)) new.
Proof.
  intros H. rewrite perform_reloads.
  exact (H (loaded st) (connected_loaded st)).
Qed.

(** X1. Whatever the connection variables held before, every request an
    exported operation sends is built from the settings as they are when
    the operation is called: it carries the JSON content type, the bearer
    token exactly when a key is set, and its url continues the configured
    url (less one slash at its end).  The trace only grows. *)
Theorem every_request_is_addressed :
  forall server (c : Call) (st : State),
    exists new,
      trace (snd (perform server c st)) = (trace st ++ new)%list
      /\ Forall (fun x => addressed st (fst x)) new.
Proof.
  intros server c st. apply perform_sends. intros st1 Hc.
  destruct c; cbn [perform]; rewrite snd_thrown;
    match goal with
    | |- context [weaviate.executeQuery _ ?q] =>
        apply (sends_executeQuery server st (addressed st) q)
    | |- context [weaviate.getCollections _] =>
        apply (sends_getCollections server st (addressed st))
    | |- context [weaviate.getCollectionData _ ?c ?p ?s ?l ?o] =>
        apply (sends_getCollectionData server st (addressed st) c p s l o)
    | |- context [weaviate.deleteObjects _ ?c ?ids] =>
        apply (sends_deleteObjects server st (addressed st) c ids)
    | |- context [weaviate.deleteCollection _ ?c] =>
        apply (sends_deleteCollection server st (addressed st) c)
    | |- context [weaviate.createCollection _ ?s] =>
        apply (sends_createCollection server st (addressed st) s)
    | |- context [weaviate.createObject _ ?c ?o] =>
        apply (sends_createObject server st (addressed st) c o)
    | |- context [weaviate.getObjectById _ ?c ?i] =>
        apply (sends_getObjectById server st (addressed st) c i)
    | |- context [weaviate.updateObject _ ?c ?i ?o] =>
        apply (sends_updateObject server st (addressed st) c i o)
    | |- context [weaviate.searchCollections _ ?o] =>
        apply (sends_searchCollections server st (addressed st) o)
    end;
    try exact Hc; intros; try apply addressed_under; apply addressed_creation.
Qed.

(** X2. The reading operations ([executeQuery], [getCollections],
    [getCollectionData], [getObjectById], [searchCollections]) send
    nothing but GETs and POSTs to the query endpoint: no DELETE, no PATCH,
    no POST to the schema or object endpoints, however the store answers. *)
Theorem reading_calls_send_read_only_requests :
  forall server (c : Call) (st : State),
    reading c = true ->
    exists new,
      trace (snd (perform server c st)) = (trace st ++ new)%list
      /\ Forall (fun x => readOnly st (fst x)) new.
Proof.
  intros server c st Hr. apply perform_sends. intros st1 Hc.
  assert (Hq : forall q, readOnly st (queryRequest st q))
    by (intros q; right; split; reflexivity).
  assert (Hs : readOnly st (schemaRequest st)) by (left; reflexivity).
  destruct c; try discriminate Hr; cbn [perform]; rewrite snd_thrown.
  - apply (sends_executeQuery server st (readOnly st) queryStr (Hq _) st1 Hc).
  - apply (sends_getCollections server st (readOnly st) Hs
             (fun c => Hq _) st1 Hc).
  - apply (sends_getCollectionData server st (readOnly st) className properties
             sort limit offset Hq st1 Hc).
  - apply (sends_getObjectById server st (readOnly st) className objectId);
      [left; reflexivity | exact Hc].
  - apply (sends_searchCollections server st (readOnly st) options Hs Hq st1 Hc).
Qed.

Lemma reading_calls_send_read_only_requests_witness :
  exists new,
    trace (snd (perform (libraryServer notFound (jsonBody 200 "OK" articleRows))
                  (CallSearchCollections proofsSearch) readyState))
    = (trace readyState ++ new)%list
    /\ Forall (fun x => readOnly readyState (fst x)) new.
Proof.
  apply (reading_calls_send_read_only_requests
           (libraryServer notFound (jsonBody 200 "OK" articleRows))
           (CallSearchCollections proofsSearch) readyState).
  reflexivity.
Defined.

(** ** Listing: one count round trip per class, in schema order *)

Section Listing.

Variable server : list Exchange -> Request -> FetchResult.

Lemma configured_sent st rq r : configured st -> configured (sent st rq r).
Proof. intros H. exact H. Qed.

Lemma countRequest_sent st rq r c :
  countRequest (sent st rq r) c = countRequest st c.
Proof. reflexivity. Qed.

(** A count fetch is one request, whatever comes back. *)
Lemma getObjectCount_state c st :
  configured st ->
  snd (weaviate.getObjectCount server c st)
  = sent st (countRequest st c) (server (trace st) (countRequest st c)).
Proof.
  intros H. unfold weaviate.getObjectCount, try_catch.
  unfold bind at 1. unfold bind at 1.
  rewrite executeAggregateQuery_run by exact H. cbn zeta.
  fold (countRequest st c).
  destruct (server (trace st) (countRequest st c)) as [resp | e];
    [| reflexivity].
  destruct (ok resp); cbn; [| reflexivity].
  destruct (body_text resp); [| reflexivity].
  destruct (body_json resp) as [v |]; [| reflexivity].
  cbn. unfold lift. reflexivity.
Qed.

Lemma describeClass_success w st info st' :
  configured st ->
  weaviate.describeClass server w st = (Return info, st') ->
  describes w info
  /\ st' = sent st (countRequestFor st info)
             (server (trace st) (countRequestFor st info)).
Proof.
  intros H. unfold weaviate.describeClass, describes, countRequestFor.
  unfold bind at 1. unfold lift at 1.
  destruct (Js.get w "class") as [cls | e]; [| discriminate].
  unfold bind at 1.
  pose proof (getObjectCount_state (Js.to_string cls) st H) as Hst.
  destruct (weaviate.getObjectCount server (Js.to_string cls) st)
    as [[n | e] st1]; [| discriminate].
  cbn [snd] in Hst. subst st1.
  unfold bind, lift.
  destruct (Js.get w "description") as [d | e]; [| discriminate].
  destruct (weaviate.classProperties w) as [ps | e]; [| discriminate].
  unfold ret. intros E. injection E as <- <-. cbn. repeat split.
Qed.

Lemma describeClasses_success ws :
  forall st infos st',
    configured st ->
    weaviate.describeClasses server ws st = (Return infos, st') ->
    Forall2 describes ws infos
    /\ exists new,
         st' = mkState (currentUrl st') (currentApiKey st') (store st)
                 (trace st ++ new)%list
         /\ answered server (trace st) new
         /\ List.map fst new = List.map (countRequestFor st) infos.
Proof.
  induction ws as [| w ws IH]; intros st infos st' H; cbn [weaviate.describeClasses].
  - unfold ret. intros E. injection E as <- <-. split; [constructor |].
    exists []. rewrite app_nil_r. destruct st; repeat split.
  - unfold bind at 1.
    destruct (weaviate.describeClass server w st) as [[info | e] st1] eqn:E1;
      [| discriminate].
    destruct (describeClass_success w st info st1 H E1) as [Hd ->].
    unfold bind at 1.
    destruct (weaviate.describeClasses server ws _)
      as [[rest | e] st2] eqn:E2; [| discriminate].
    destruct (IH _ rest st2 (configured_sent st _ _ H) E2)
      as [Hf [new [Hst [Ha Hm]]]].
    unfold ret. intros E. injection E as <- <-.
    split; [constructor; assumption |].
    exists ((countRequestFor st info,
             server (trace st) (countRequestFor st info)) :: new).
    split; [| split].
    + rewrite Hst at 1. cbn. rewrite <- app_assoc. reflexivity.
    + cbn. split; [reflexivity | exact Ha].
    + cbn. rewrite Hm. reflexivity.
Qed.

(** The listing up to the loop over the classes. *)
Lemma getCollections_listing st resp t schema cs classes :
  configured st ->
  server (trace st) (schemaRequest st) = Responds resp ->
  ok resp = true -> body_text resp = Some t -> body_json resp = Some schema ->
  Js.get schema "classes" = Return cs ->
  Js.iterate (Js.coalesce cs (VArr [])) = Return classes ->
  weaviate.getCollections server st
  = weaviate.describeClasses server classes
      (sent st (schemaRequest st) (Responds resp)).
Proof.
  intros H Hs Hok Ht Hj Hc Hi. unfold weaviate.getCollections.
  rewrite logged_id, prologue_configured by exact H.
  unfold weaviate.getHeaders, weaviate.get_key, weaviate.get_url,
    weaviate.fetch, json, lift, loaded, bind, ret.
  cbn [currentUrl currentApiKey store trace].
  fold (headersOf st). fold (schemaRequest st).
  rewrite Hs, Hok. cbn [negb]. rewrite Ht, Hj, Hc, Hi. reflexivity.
Qed.

Lemma getCollections_schema_failure st resp :
  configured st ->
  server (trace st) (schemaRequest st) = Responds resp ->
  ok resp = false ->
  weaviate.getCollections server st
  = (Throw (Error ("Failed to fetch schema: " ++ statusText resp)),
     sent st (schemaRequest st) (Responds resp)).
Proof.
  intros H Hs Hok. unfold weaviate.getCollections.
  rewrite logged_id, prologue_configured by exact H.
  unfold weaviate.getHeaders, weaviate.get_key, weaviate.get_url,
    weaviate.fetch, json, lift, loaded, bind, ret.
  cbn [currentUrl currentApiKey store trace].
  fold (headersOf st). fold (schemaRequest st).
  rewrite Hs, Hok. reflexivity.
Qed.

End Listing.

(** X3. When the schema endpoint answers with a 2xx whose [classes] (an
    empty list when the key is missing or null) can be iterated, and the
    listing succeeds, [getCollections] has sent the schema GET followed by
    exactly one count query per class, each after the previous one was
    answered, and returns one descriptor per class in schema order, its
    name, description and properties read off the schema entry. *)
Theorem getCollections_one_count_per_class_in_order :
  forall server (st : State) (resp : Response) (t : string)
         (schema cs : JsVal) (classes : list JsVal)
         (infos : list weaviate.CollectionInfo),
    configured st ->
    server (trace st) (schemaRequest st) = Responds resp ->
    ok resp = true -> body_text resp = Some t -> body_json resp = Some schema ->
    Js.get schema "classes" = Return cs ->
    Js.iterate (Js.coalesce cs (VArr [])) = Return classes ->
    fst (weaviate.getCollections server st) = Return infos ->
    Forall2 describes classes infos
    /\ exists new,
         trace (snd (weaviate.getCollections server st))
         = (trace st ++ (schemaRequest st, Responds resp) :: new)%list
         /\ answered server (trace st ++ [(schemaRequest st, Responds resp)]) new
         /\ List.map fst new = List.map (countRequestFor st) infos.
Proof.
  intros server st resp t schema cs classes infos H Hs Hok Ht Hj Hc Hi.
  rewrite (getCollections_listing server st resp t schema cs classes
             H Hs Hok Ht Hj Hc Hi).
  destruct (weaviate.describeClasses server classes _) as [o st'] eqn:E.
  cbn [fst snd]. intros ->.
  destruct (describeClasses_success server classes _ infos st'
              (configured_sent st _ _ H) E) as [Hf [new [Hst [Ha Hm]]]].
  split; [exact Hf |]. exists new. split; [| split].
  - rewrite Hst. cbn. rewrite <- app_assoc. reflexivity.
  - exact Ha.
  - exact Hm.
Qed.

Lemma getCollections_one_count_per_class_in_order_witness :
  Forall2 describes
    [classEntry "Article"; classEntry "Author"; classEntry "Tag"]
    [descriptor "Article" 7; descriptor "Author" 2; descriptor "Tag" 3]
  /\ exists new,
       trace (snd (weaviate.getCollections fullLibrary readyState))
       = (trace readyState
          ++ (schemaRequest readyState, jsonBody 200 "OK" schemaListing) :: new)%list
       /\ answered fullLibrary
            (trace readyState
             ++ [(schemaRequest readyState, jsonBody 200 "OK" schemaListing)]) new
       /\ List.map fst new
          = List.map (countRequestFor readyState)
              [descriptor "Article" 7; descriptor "Author" 2; descriptor "Tag" 3].
Proof.
  apply (getCollections_one_count_per_class_in_order fullLibrary readyState
           (mkResponse 200 "OK" (Some "(json)") (Some schemaListing)) "(json)"
           schemaListing
           (VArr [classEntry "Article"; classEntry "Author"; classEntry "Tag"])
           [classEntry "Article"; classEntry "Author"; classEntry "Tag"]
           [descriptor "Article" 7; descriptor "Author" 2; descriptor "Tag" 3]);
    reflexivity.
Defined.

(** X4. A count query answered by a 2xx with the aggregate shape
    [data.Aggregate.<class>[0].meta.count] gives that count, for one
    request sent. *)
Theorem getObjectCount_reads_count :
  forall server (className : string) (n : Z) (st : State) (resp : Response)
         (t : string),
    configured st ->
    server (trace st) (countRequest st className) = Responds resp ->
    ok resp = true -> body_text resp = Some t ->
    body_json resp = Some (countBody className n) ->
    weaviate.getObjectCount server className st
    = (Return (VNum n), sent st (countRequest st className) (Responds resp)).
Proof.
  intros server className n st resp t H Hs Hok Ht Hj.
  unfold weaviate.getObjectCount, try_catch.
  unfold bind at 1. unfold bind at 1.
  rewrite executeAggregateQuery_run by exact H. cbn zeta.
  fold (countRequest st className). rewrite Hs, Hok, Ht, Hj.
  unfold ret, lift, weaviate.readCount, countBody. cbn.
  rewrite String.eqb_refl. reflexivity.
Qed.

Lemma getObjectCount_reads_count_witness :
  weaviate.getObjectCount fullLibrary "Tag" readyState
  = (Return (VNum 3),
     sent readyState (countRequest readyState "Tag")
       (jsonBody 200 "OK" (countBody "Tag" 3))).
Proof.
  apply (getObjectCount_reads_count fullLibrary "Tag" 3 readyState
           (mkResponse 200 "OK" (Some "(json)") (Some (countBody "Tag" 3)))
           "(json)"); reflexivity.
Defined.

(** ** What a refused creation reports *)

Lemma get_first x rest : Js.get (VArr (x :: rest)) "0" = Return x.
Proof. reflexivity. Qed.

(** X5. When the schema endpoint refuses a creation (a status outside
    200..299), [createCollection] throws an [Error] whose message is read
    off the body: the first entry's message of an [error] list, the
    [error] string itself, or, when the body is no JSON, the status text
    followed by the body if that is not empty and shorter than 500
    characters, and the status text alone if it is longer. *)
Theorem createCollection_reports_store_message :
  forall server (schema : weaviate.CreateCollectionSchema) (st : State)
         (resp : Response) (t : string),
    configured st ->
    server (trace st) (creationRequest st schema) = Responds resp ->
    ok resp = false ->
    body_text resp = Some t ->
    let thrown := fst (weaviate.createCollection server schema st) in
    (forall fields entry rest m,
        body_json resp = Some (VObj fields) ->
        Js.lookup fields "error" = VArr (VObj entry :: rest) ->
        Js.lookup entry "message" = VStr m -> m <> EmptyString ->
        thrown = Throw (Error m))
    /\ (forall fields m,
          body_json resp = Some (VObj fields) ->
          Js.lookup fields "error" = VStr m -> m <> EmptyString ->
          thrown = Throw (Error m))
    /\ (body_json resp = None ->
        t <> EmptyString -> (String.length t < 500)%nat ->
        thrown = Throw (Error ("Failed to create collection: "
                               ++ statusText resp ++ ". " ++ t)))
    /\ (body_json resp = None ->
        (500 <= String.length t)%nat ->
        thrown = Throw (Error ("Failed to create collection: "
                               ++ statusText resp))).
Proof.
  intros server schema st resp t H Hs Hok Ht thrown. subst thrown.
  rewrite (createCollection_run server schema st H). cbn zeta.
  rewrite Hs, Hok. cbn [fst]. unfold weaviate.creationError. rewrite Ht.
  split; [| split; [| split]].
  - intros fields entry rest m Hj He Hm Hne. rewrite Hj.
    unfold weaviate.parsedMessage. cbn [Js.get obind]. rewrite He.
    cbn [Js.truthy]. rewrite get_first. cbn [Js.get obind]. rewrite Hm.
    destruct m; [contradiction | reflexivity].
  - intros fields m Hj He Hne. rewrite Hj.
    unfold weaviate.parsedMessage. cbn [Js.get obind]. rewrite He.
    destruct m; [contradiction | reflexivity].
  - intros Hj Hne Hlen. rewrite Hj.
    apply Nat.ltb_lt in Hlen. rewrite Hlen.
    destruct t; [contradiction | reflexivity].
  - intros Hj Hlen. rewrite Hj.
    apply Nat.ltb_ge in Hlen. rewrite Hlen, andb_false_r. reflexivity.
Qed.

Lemma createCollection_reports_store_message_witness :
  fst (weaviate.createCollection refusingServer articleSchema readyState)
  = Throw (Error "class name Article already exists")
  /\ fst (weaviate.createCollection downServer articleSchema readyState)
     = Throw (Error "Failed to create collection: Bad Gateway. upstream unavailable").
Proof.
  pose proof (createCollection_reports_store_message refusingServer articleSchema
                readyState
                (mkResponse 422 "Unprocessable Entity" (Some "(json)") (Some refusal))
                "(json)" eq_refl eq_refl eq_refl eq_refl) as [Ha _].
  pose proof (createCollection_reports_store_message downServer articleSchema
                readyState
                (mkResponse 502 "Bad Gateway" (Some "upstream unavailable") None)
                "upstream unavailable" eq_refl eq_refl eq_refl eq_refl)
    as [_ [_ [Hc _]]].
  split.
  - apply (Ha [("error",
                VArr [VObj [("message", VStr "class name Article already exists")]])]
             [("message", VStr "class name Article already exists")] []);
      [reflexivity | reflexivity | reflexivity | discriminate].
  - apply Hc; [reflexivity | discriminate |].
    apply Nat.ltb_lt. reflexivity.
Defined.

(** ** The object and schema mutations *)

Section Mutations.

Variable server : list Exchange -> Request -> FetchResult.

Lemma createObject_run className object st :
  configured st ->
  weaviate.createObject server className object st
  = let r := server (trace st) (createObjectRequest st className object) in
    (match r with
     | Responds resp =>
         if ok resp then
           match body_text resp, body_json resp with
           | Some _, Some result => Js.get result "id"
           | Some _, None => Throw SyntaxError
           | None, _ => Throw TypeError
           end
         else
           match body_text resp with
           | Some errorText =>
               Throw (Error ("Failed to create object: " ++ statusText resp ++
                             ". " ++ errorText))
           | None => Throw TypeError
           end
     | Rejects e => Throw e
     end, sent st (createObjectRequest st className object) r).
Proof.
  intros H. unfold weaviate.createObject.
  rewrite logged_id, prologue_configured by exact H.
  unfold weaviate.getHeaders, weaviate.get_key, weaviate.get_url,
    weaviate.fetch, json, text, lift, loaded, sent, bind, ret, throw.
  cbn [currentUrl currentApiKey store trace].
  fold (headersOf st). fold (objectPayload className object).
  fold (createObjectRequest st className object).
  destruct (server (trace st) _) as [resp | e]; [| reflexivity].
  destruct (ok resp); cbn [negb].
  - destruct (body_text resp); [| reflexivity].
    destruct (body_json resp) as [result |]; [| reflexivity].
    destruct (Js.get result "id"); reflexivity.
  - destruct (body_text resp); reflexivity.
Qed.

Lemma updateObject_run className objectId object st :
  configured st ->
  weaviate.updateObject server className objectId object st
  = let r := server (trace st)
               (updateObjectRequest st className objectId object) in
    (match r with
     | Responds resp =>
         if ok resp then Return tt
         else
           match body_text resp with
           | Some errorText =>
               Throw (Error ("Failed to update object: " ++ statusText resp ++
                             ". " ++ errorText))
           | None => Throw TypeError
           end
     | Rejects e => Throw e
     end, sent st (updateObjectRequest st className objectId object) r).
Proof.
  intros H. unfold weaviate.updateObject.
  rewrite logged_id, prologue_configured by exact H.
  unfold weaviate.getHeaders, weaviate.get_key, weaviate.get_url,
    weaviate.fetch, text, loaded, sent, bind, ret, throw.
  cbn [currentUrl currentApiKey store trace].
  fold (headersOf st). fold (objectPayload className object).
  fold (updateObjectRequest st className objectId object).
  destruct (server (trace st) _) as [resp | e]; [| reflexivity].
  destruct (ok resp); cbn [negb]; [reflexivity |].
  destruct (body_text resp); reflexivity.
Qed.

Lemma deleteCollection_run className st :
  configured st ->
  weaviate.deleteCollection server className st
  = let r := server (trace st) (deleteCollectionRequest st className) in
    (match r with
     | Responds resp =>
         if ok resp then Return tt
         else Throw (Error ("Failed to delete collection: " ++ statusText resp))
     | Rejects e => Throw e
     end, sent st (deleteCollectionRequest st className) r).
Proof.
  intros H. unfold weaviate.deleteCollection.
  rewrite logged_id, prologue_configured by exact H.
  unfold weaviate.getHeaders, weaviate.get_key, weaviate.get_url,
    weaviate.fetch, loaded, sent, bind, ret, throw.
  cbn [currentUrl currentApiKey store trace].
  fold (headersOf st). fold (deleteCollectionRequest st className).
  destruct (server (trace st) _) as [resp | e]; [| reflexivity].
  destruct (ok resp); reflexivity.
Qed.

End Mutations.

(** X6. With a url configured, [createObject] sends one POST to the
    object endpoint carrying the class name and the property map, and
    nothing else.  A 2xx answer with a JSON object gives the value of its
    [id] key ([undefined], and no error, when the answer has none); a
    status outside 200..299 throws
    [Failed to create object: <status text>. <body>]; a request that gets
    no answer throws what [fetch] threw. *)
Theorem createObject_posts_and_returns_id :
  forall server (className : string) (object : JsVal) (st : State),
    configured st ->
    let rq := createObjectRequest st className object in
    let run := weaviate.createObject server className object st in
    snd run = sent st rq (server (trace st) rq)
    /\ (forall resp t fields,
          server (trace st) rq = Responds resp ->
          ok resp = true -> body_text resp = Some t ->
          body_json resp = Some (VObj fields) ->
          fst run = Return (Js.lookup fields "id"))
    /\ (forall resp t,
          server (trace st) rq = Responds resp ->
          ok resp = false -> body_text resp = Some t ->
          fst run = Throw (Error ("Failed to create object: "
                                  ++ statusText resp ++ ". " ++ t)))
    /\ (forall e, server (trace st) rq = Rejects e -> fst run = Throw e).
Proof.
  intros server className object st H rq run. subst rq run.
  rewrite (createObject_run server className object st H). cbn zeta.
  split; [reflexivity |]. split; [| split].
  - intros resp t fields -> Hok Ht Hj. cbn [fst]. rewrite Hok, Ht, Hj.
    reflexivity.
  - intros resp t -> Hok Ht. cbn [fst]. rewrite Hok, Ht. reflexivity.
  - intros e ->. reflexivity.
Qed.

Lemma createObject_posts_and_returns_id_witness :
  weaviate.createObject creatingServer "Article" bareRow readyState
  = (Return (VStr "id-42"),
     sent readyState (createObjectRequest readyState "Article" bareRow)
       (creatingServer [] (createObjectRequest readyState "Article" bareRow))).
Proof.
  pose proof (createObject_posts_and_returns_id creatingServer "Article" bareRow
                readyState eq_refl) as [Hs [Hid _]].
  rewrite (surjective_pairing (weaviate.createObject _ _ _ _)).
  rewrite Hs.
  rewrite (Hid (mkResponse 200 "OK" (Some "(json)")
                  (Some (VObj [("id", VStr "id-42"); ("class", VStr "Article")])))
             "(json)" [("id", VStr "id-42"); ("class", VStr "Article")]
             eq_refl eq_refl eq_refl eq_refl).
  reflexivity.
Defined.

(** X7. With a url configured, [updateObject] sends one PATCH to the
    object's url carrying the class name and the property map, and
    [deleteCollection] one DELETE to the class's schema url; each returns
    normally on a 2xx without reading the body, and otherwise throws an
    error made of the status text ([updateObject] adds the body). *)
Theorem updateObject_and_deleteCollection_send_once :
  forall server (className objectId : string) (object : JsVal) (st : State),
    configured st ->
    let patch := updateObjectRequest st className objectId object in
    let drop := deleteCollectionRequest st className in
    let updated := weaviate.updateObject server className objectId object st in
    let dropped := weaviate.deleteCollection server className st in
    snd updated = sent st patch (server (trace st) patch)
    /\ snd dropped = sent st drop (server (trace st) drop)
    /\ (forall resp,
          server (trace st) patch = Responds resp -> ok resp = true ->
          fst updated = Return tt)
    /\ (forall resp t,
          server (trace st) patch = Responds resp -> ok resp = false ->
          body_text resp = Some t ->
          fst updated = Throw (Error ("Failed to update object: "
                                      ++ statusText resp ++ ". " ++ t)))
    /\ (forall resp,
          server (trace st) drop = Responds resp -> ok resp = true ->
          fst dropped = Return tt)
    /\ (forall resp,
          server (trace st) drop = Responds resp -> ok resp = false ->
          fst dropped = Throw (Error ("Failed to delete collection: "
                                      ++ statusText resp))).
Proof.
  intros server className objectId object st H patch drop updated dropped.
  subst patch drop updated dropped.
  rewrite (updateObject_run server className objectId object st H).
  rewrite (deleteCollection_run server className st H). cbn zeta.
  split; [reflexivity |]. split; [reflexivity |].
  split; [| split; [| split]].
  - intros resp -> Hok. cbn [fst]. rewrite Hok. reflexivity.
  - intros resp t -> Hok Ht. cbn [fst]. rewrite Hok, Ht. reflexivity.
  - intros resp -> Hok. cbn [fst]. rewrite Hok. reflexivity.
  - intros resp -> Hok. cbn [fst]. rewrite Hok. reflexivity.
Qed.

Lemma updateObject_and_deleteCollection_send_once_witness :
  fst (weaviate.updateObject agreeableServer "Article" "id-7" bareRow readyState)
  = Return tt
  /\ fst (weaviate.deleteCollection vacantServer "Article" readyState)
     = Throw (Error "Failed to delete collection: Not Found").
Proof.
  pose proof (updateObject_and_deleteCollection_send_once agreeableServer
                "Article" "id-7" bareRow readyState eq_refl)
    as [_ [_ [Hu _]]].
  pose proof (updateObject_and_deleteCollection_send_once vacantServer
                "Article" "id-7" bareRow readyState eq_refl)
    as [_ [_ [_ [_ [_ Hd]]]]].
  split.
  - apply (Hu (mkResponse 200 "OK" (Some "(json)") (Some (VObj []))));
      reflexivity.
  - apply (Hd (mkResponse 404 "Not Found" (Some EmptyString) None));
      reflexivity.
Defined.

(** ** A slash at the end of the configured url *)

Lemma stripTrailingSlash_app_slash u :
  JsString.stripTrailingSlash (u ++ "/") = u.
Proof.
  induction u as [| c r IH]; [reflexivity |].
  cbn [append JsString.stripTrailingSlash].
  destruct (r ++ "/") as [| d r'] eqn:E.
  - destruct r; discriminate E.
  - rewrite IH. reflexivity.
Qed.

(** X8. When the configured url ends with a slash, [createCollection]
    alone drops it: it posts to the url the same settings without that
    slash give, while the other operations keep it and so put two slashes
    before [v1] ([getObjectById] is the example). *)
Theorem createCollection_drops_one_trailing_slash :
  forall server (u : string) (schema : weaviate.CreateCollectionSchema)
         (className objectId : string) (st : State),
    configured st ->
    weaviateUrl (store st) = u ++ "/" ->
    let post := mkRequest POST (u ++ "/v1/schema") (headersOf st)
                  (body (creationRequest st schema)) in
    let get := mkRequest GET (u ++ "//v1/objects/" ++ objectId)
                 (headersOf st) None in
    trace (snd (weaviate.createCollection server schema st))
    = (trace st ++ [(post, server (trace st) post)])%list
    /\ trace (snd (weaviate.getObjectById server className objectId st))
       = (trace st ++ [(get, server (trace st) get)])%list.
Proof.
  intros server u schema className objectId st H Hu post get.
  assert (Ep : creationRequest st schema = post).
  { subst post. unfold creationRequest.
    rewrite Hu, stripTrailingSlash_app_slash. reflexivity. }
  assert (Eg : objectRequest st objectId = get).
  { subst get. unfold objectRequest. rewrite Hu, append_assoc. reflexivity. }
  split.
  - rewrite (createCollection_run server schema st H). cbn zeta.
    rewrite Ep. reflexivity.
  - rewrite (getObjectById_run server className objectId st H). cbn zeta.
    rewrite Eg. reflexivity.
Qed.

Lemma createCollection_drops_one_trailing_slash_witness :
  List.map (fun x => url (fst x))
    (trace (snd (weaviate.createCollection agreeableServer articleSchema
                   slashState)))
  = ["http://db:8080/v1/schema"]
  /\ List.map (fun x => url (fst x))
       (trace (snd (weaviate.getObjectById agreeableServer "Article" "id-7"
                      slashState)))
     = ["http://db:8080//v1/objects/id-7"].
Proof.
  pose proof (createCollection_drops_one_trailing_slash agreeableServer
                "http://db:8080" articleSchema "Article" "id-7" slashState
                eq_refl eq_refl) as [Hc Hg].
  cbn zeta in Hc, Hg. rewrite Hc, Hg. split; reflexivity.
Defined.

(** ** The listing document *)

(** Pushes every concatenation to the right, through literal text too. *)
Ltac normalize_appends :=
  unfold nl, dq; repeat first [rewrite append_assoc | progress (cbn [append])].

Lemma listingQuery_shape c p s l o :
  weaviate.listingQuery c p s l o
  = listHead c ++ "(" ++ sortPrefix s ++ weaviate.paginationDirective l o ++ ")"
    ++ listTail p.
Proof.
  unfold weaviate.listingQuery, listHead, listTail, sortPrefix.
  destruct s as [s |];
    cbn [filter weaviate.sortDirective weaviate.paginationDirective
         JsString.truthy append JsString.join];
    normalize_appends; reflexivity.
Qed.

(** X9. With a url configured, [getCollectionData] sends one POST to the
    query endpoint whose document names the collection and, in this
    order, the sort directive when a sort is given (none otherwise),
    exactly one pagination directive [limit: <l>, offset: <o>] (an absent
    number is printed as [undefined]), the identity field, which is asked
    for even when no property is, and the property names one per line. *)
Theorem getCollectionData_posts_listing_document :
  forall server (className : string) (properties : list weaviate.PropertyRef)
         (sort : option weaviate.SortConfig) (limit offset : option Z)
         (st : State),
    configured st ->
    let document :=
      listHead className ++ "(" ++ sortPrefix sort ++
      "limit: " ++ weaviate.show_num limit ++ ", offset: " ++
      weaviate.show_num offset ++ ")" ++ listTail properties in
    snd (weaviate.getCollectionData server className properties sort limit
           offset st)
    = sent st (queryRequest st document)
        (server (trace st) (queryRequest st document)).
Proof.
  intros server className properties sort limit offset st H document.
  assert (E : weaviate.listingQuery className properties sort limit offset
              = document).
  { subst document. rewrite listingQuery_shape.
    unfold weaviate.paginationDirective. repeat rewrite append_assoc.
    reflexivity. }
  rewrite (getCollectionData_reads server className properties sort limit
             offset st H), E.
  rewrite (executeQuery_run server document (loaded st) H). cbn zeta.
  change (trace (loaded st)) with (trace st).
  change (queryRequest (loaded st) document) with (queryRequest st document).
  destruct (server (trace st) (queryRequest st document)) as [resp | e];
    [| reflexivity].
  destruct (ok resp); [| reflexivity].
  destruct (body_text resp); [| reflexivity].
  destruct (body_json resp); reflexivity.
Qed.

Lemma getCollectionData_posts_listing_document_witness :
  List.map (fun x => queryOf (fst x))
    (trace (snd (weaviate.getCollectionData agreeableServer "Article" []
                   None None (Some 0) readyState)))
  = ["{" ++ nl ++
     "      Get {" ++ nl ++
     "        Article(limit: undefined, offset: 0) {" ++ nl ++
     "          _additional {" ++ nl ++
     "            id" ++ nl ++
     "          }" ++ nl ++
     "          " ++ nl ++
     "        }" ++ nl ++
     "      }" ++ nl ++
     "    }"].
Proof.
  rewrite (getCollectionData_posts_listing_document agreeableServer "Article" []
             None None (Some 0) readyState eq_refl).
  reflexivity.
Defined.

(** ** A search whose listing fails *)

(** X10. A search first lists the collections.  When the schema endpoint
    answers that listing with a status outside 200..299, the search fails
    with [Failed to fetch schema: <status text>] and the schema GET is the
    only request made: no count query and no search query follow. *)
Theorem searchCollections_stops_at_failed_listing :
  forall server (options : weaviate.SearchOptions) (st : State) (resp : Response),
    configured st ->
    server (trace st) (schemaRequest st) = Responds resp ->
    ok resp = false ->
    weaviate.searchCollections server options st
    = (Throw (Error ("Failed to fetch schema: " ++ statusText resp)),
       sent st (schemaRequest st) (Responds resp)).
Proof.
  intros server options st resp H Hs Hok.
  rewrite (searchCollections_reads server options st H).
  rewrite (getCollections_schema_failure server (loaded st) resp H Hs Hok).
  reflexivity.
Qed.

Lemma searchCollections_stops_at_failed_listing_witness :
  weaviate.searchCollections vacantServer proofsSearch readyState
  = (Throw (Error "Failed to fetch schema: Not Found"),
     sent readyState (schemaRequest readyState) notFound).
Proof.
  apply (searchCollections_stops_at_failed_listing vacantServer proofsSearch
           readyState (mkResponse 404 "Not Found" (Some EmptyString) None));
    reflexivity.
Defined.

(** * The handlers on top of the access layer *)

(** ** Settings dialog *)

Lemma hasScheme_http u : hasScheme ("http://" ++ u) = true.
Proof. reflexivity. Qed.

Lemma formatUrl_result u :
  SettingsModal.formatUrl u = EmptyString
  \/ hasScheme (SettingsModal.formatUrl u) = true.
Proof.
  destruct u as [| c r]; [left; reflexivity |]. right.
  destruct (hasScheme (String c r)) eqn:E.
  - rewrite (formatUrl_schemed _ E). exact E.
  - assert (Hne : String c r <> EmptyString) by discriminate.
    rewrite (formatUrl_bare _ Hne E). apply hasScheme_http.
Qed.

Lemma formatUrl_idem u :
  SettingsModal.formatUrl (SettingsModal.formatUrl u) = SettingsModal.formatUrl u.
Proof.
  destruct (formatUrl_result u) as [E | E].
  - rewrite E. reflexivity.
  - apply formatUrl_schemed, E.
Qed.

(** X11. After [handleSave] the connection url and the saved url are the
    same string, which is empty or starts with [http://] or [https://];
    the credential is saved as entered.  Saving again what was saved
    changes nothing. *)
Theorem handleSave_stores_schemed_url :
  forall (form : Settings) (st : State),
    let st' := snd (SettingsModal.handleSave form st) in
    currentUrl st' = weaviateUrl (store st')
    /\ (currentUrl st' = EmptyString \/ hasScheme (currentUrl st') = true)
    /\ currentApiKey st' = apiKey form
    /\ trace st' = trace st
    /\ snd (SettingsModal.handleSave (store st') st') = st'.
Proof.
  intros form st. cbn. split; [reflexivity |].
  split; [apply formatUrl_result |]. split; [reflexivity |].
  split; [reflexivity |]. rewrite formatUrl_idem. reflexivity.
Qed.

(** X12. [testConnection] sends one GET to the schema endpoint of the
    url in the form, with [http://] in front when the url has no scheme
    (an empty url included, unlike [handleSave]) and with the key of the
    form, not the saved one.  It reports success on a 2xx and
    [Connection failed: <status text> (Status: <status>)] otherwise, and
    leaves the saved settings and the connection as they were. *)
Theorem testConnection_probes_without_saving :
  forall server (form : Settings) (st : State),
    let rq := SettingsModal.testRequest form in
    SettingsModal.testConnection server form st
    = (Return
         (match server (trace st) rq with
          | Responds resp =>
              if ok resp then Return tt
              else Throw (Error ("Connection failed: " ++ statusText resp ++
                                 " (Status: " ++ JsString.of_Z (status resp) ++ ")"))
          | Rejects e => Throw e
          end),
       mkState (currentUrl st) (currentApiKey st) (store st)
         (trace st ++ [(rq, server (trace st) rq)])%list)
    /\ url rq = SettingsModal.testUrl (weaviateUrl form) ++ "/v1/schema"
    /\ (hasScheme (weaviateUrl form) = false ->
        url rq = "http://" ++ weaviateUrl form ++ "/v1/schema")
    /\ (hasScheme (weaviateUrl form) = true ->
        url rq = weaviateUrl form ++ "/v1/schema").
Proof.
  intros server form st rq. subst rq. split; [| split; [reflexivity | split]].
  - unfold SettingsModal.testConnection, caught, bind, weaviate.fetch.
    destruct (server (trace st) _) as [resp | e]; [| reflexivity].
    destruct (ok resp); reflexivity.
  - unfold hasScheme. intros E. apply orb_false_iff in E. destruct E as [E1 E2].
    cbn [SettingsModal.testRequest url]. unfold SettingsModal.testUrl.
    rewrite E1, E2. cbn [negb andb]. rewrite append_assoc. reflexivity.
  - unfold hasScheme. intros E.
    cbn [SettingsModal.testRequest url]. unfold SettingsModal.testUrl.
    destruct (JsString.startsWith (weaviateUrl form) "http://");
      [reflexivity |]. rewrite orb_false_l in E. rewrite E. reflexivity.
Qed.

Lemma testConnection_probes_without_saving_witness :
  url (SettingsModal.testRequest typedSettings) = "http://localhost:8080/v1/schema"
  /\ url (SettingsModal.testRequest (mkSettings EmptyString EmptyString))
     = "http:///v1/schema"
  /\ url (SettingsModal.testRequest (mkSettings "https://db" EmptyString))
     = "https://db/v1/schema".
Proof.
  pose proof (testConnection_probes_without_saving agreeableServer typedSettings
                readyState) as [_ [_ [H1 _]]].
  pose proof (testConnection_probes_without_saving agreeableServer
                (mkSettings EmptyString EmptyString) readyState) as [_ [_ [H2 _]]].
  pose proof (testConnection_probes_without_saving agreeableServer
                (mkSettings "https://db" EmptyString) readyState) as [_ [_ [_ H3]]].
  split; [apply H1; reflexivity |].
  split; [apply H2; reflexivity | apply H3; reflexivity].
Defined.

(** ** The app shell *)

Lemma truthy_trim_blank q : JsString.truthy (JsString.trim q) = negb (blank q).
Proof.
  pose proof (notConfigured_blank q) as H. unfold weaviate.notConfigured in H.
  destruct q as [| c r]; [reflexivity |]. cbn [JsString.truthy negb orb] in H.
  rewrite <- H. destruct (JsString.trim (String c r)); reflexivity.
Qed.

(** X13. [checkConnection] decides on the saved url being empty, not
    blank.  With an empty url it sends nothing, does not touch the
    connection, and shows the configuration screen.  With a url made of
    whitespace only it reports a connection, yet the listing it then
    starts is refused before anything is sent and the "not configured"
    error is what the screen shows. *)
Theorem checkConnection_empty_or_blank_url :
  forall server (app : App.AppState) (st : State),
    (weaviateUrl (store st) = EmptyString ->
     App.checkConnection server app st
     = (Return (App.mkApp false false (App.error app) (App.collections app)), st))
    /\ (weaviateUrl (store st) <> EmptyString ->
        blank (weaviateUrl (store st)) = true ->
        App.checkConnection server app st
        = (Return (App.mkApp true false
                     (Some (Error weaviate.notConfiguredMessage))
                     (App.collections app)),
           loaded st)).
Proof.
  intros server app st. split.
  - intros E. unfold App.checkConnection, bind, settings.getSettings.
    rewrite E. reflexivity.
  - intros Hne Hb.
    assert (Hn : weaviate.notConfigured (weaviateUrl (store st)) = true)
      by (rewrite notConfigured_blank; exact Hb).
    unfold App.checkConnection. unfold bind at 1. unfold settings.getSettings.
    destruct (weaviateUrl (store st)) as [| c r] eqn:E; [contradiction |].
    cbn [JsString.truthy]. unfold bind at 1. rewrite initialize_loaded.
    unfold App.loadCollections, bind at 1, caught.
    unfold bind at 1. rewrite initialize_loaded.
    unfold weaviate.getCollections.
    rewrite logged_id, prologue_blank by (cbn; rewrite E; exact Hn).
    reflexivity.
Qed.

Lemma checkConnection_empty_or_blank_url_witness :
  App.checkConnection vacantServer (App.mkApp false true None []) blankState
  = (Return (App.mkApp true false (Some (Error weaviate.notConfiguredMessage)) []),
     loaded blankState)
  /\ App.checkConnection vacantServer (App.mkApp false true None [])
       (mkState EmptyString EmptyString (mkSettings EmptyString EmptyString) [])
     = (Return (App.mkApp false false None []),
        mkState EmptyString EmptyString (mkSettings EmptyString EmptyString) []).
Proof.
  pose proof (checkConnection_empty_or_blank_url vacantServer
                (App.mkApp false true None []) blankState) as [_ Hb].
  pose proof (checkConnection_empty_or_blank_url vacantServer
                (App.mkApp false true None [])
                (mkState EmptyString EmptyString
                   (mkSettings EmptyString EmptyString) [])) as [He _].
  split; [apply Hb; [discriminate | reflexivity] | apply He; reflexivity].
Defined.

(** ** The creation form *)

Lemma upper_char_idem c :
  JsString.upper_char (JsString.upper_char c) = JsString.upper_char c.
Proof. destruct c as [[] [] [] [] [] [] [] []]; reflexivity. Qed.

Lemma firstUpper_capitalize s : firstUpper (weaviate.capitalize s) = firstUpper s.
Proof.
  rewrite capitalize_firstUpper. destruct s as [| c r]; [reflexivity |].
  cbn. rewrite upper_char_idem. reflexivity.
Qed.

Lemma validProperties_some properties :
  hasNamedProperty properties = true ->
  CreateCollectionModal.validProperties properties <> [].
Proof.
  unfold hasNamedProperty, CreateCollectionModal.validProperties.
  induction properties as [| p ps IH]; [discriminate |].
  cbn [existsb filter]. intros H.
  destruct (JsString.truthy (JsString.trim (CreateCollectionModal.fp_name p)));
    [discriminate |]. apply IH. exact H.
Qed.

(** X14. A form with a name that is not blank and at least one property
    whose name is not blank is submitted as one POST: with a url
    configured, [handleSubmit] has [createCollection] post the trimmed
    name with its first character upper-cased (capitalized by the form
    and again by [createCollection], which changes nothing more), the
    trimmed description, and, in their order, the properties whose name
    is not blank, names and descriptions trimmed. *)
Theorem handleSubmit_posts_trimmed_schema :
  forall server (collectionName description : string)
         (properties : list CreateCollectionModal.FormProperty) (st : State),
    configured st ->
    blank collectionName = false ->
    hasNamedProperty properties = true ->
    let schema :=
      weaviate.mkSchema (JsString.trim collectionName)
        (CreateCollectionModal.trimmed_or_undefined description)
        (List.map
           (fun p =>
              weaviate.mkSchemaProperty
                (JsString.trim (CreateCollectionModal.fp_name p))
                (CreateCollectionModal.fp_dataType p)
                (CreateCollectionModal.trimmed_or_undefined
                   (CreateCollectionModal.fp_description p)))
           (List.filter
              (fun p => negb (blank (CreateCollectionModal.fp_name p)))
              properties)) in
    snd (CreateCollectionModal.handleSubmit server collectionName description
           properties st)
    = sent st (creationRequest st schema)
        (server (trace st) (creationRequest st schema)).
Proof.
  intros server collectionName description properties st H Hn Hp schema.
  assert (Ev : CreateCollectionModal.validProperties properties
               = weaviate.cs_properties schema).
  { subst schema. cbn [weaviate.cs_properties].
    unfold CreateCollectionModal.validProperties. f_equal.
    apply filter_ext. intros p. apply truthy_trim_blank. }
  unfold CreateCollectionModal.handleSubmit, caught.
  rewrite truthy_trim_blank, Hn. cbn [negb].
  pose proof (validProperties_some properties Hp) as Hv.
  destruct (CreateCollectionModal.validProperties properties) as [| v vs] eqn:E;
    [contradiction |].
  rewrite (createCollection_run server _ st H). cbn zeta.
  assert (Er : creationRequest st
                 (weaviate.mkSchema
                    (weaviate.capitalize (JsString.trim collectionName))
                    (CreateCollectionModal.trimmed_or_undefined description)
                    (v :: vs))
               = creationRequest st schema).
  { unfold creationRequest. cbn [weaviate.cs_class weaviate.cs_description].
    rewrite firstUpper_capitalize.
    change (weaviate.cs_properties (weaviate.mkSchema _ _ (v :: vs)))
      with (v :: vs).
    rewrite Ev. reflexivity. }
  rewrite Er. reflexivity.
Qed.

Lemma handleSubmit_posts_trimmed_schema_witness :
  List.map (fun x => body (fst x))
    (trace (snd (CreateCollectionModal.handleSubmit agreeableServer " article "
                   "  " articleForm readyState)))
  = [Some (VObj
       [("class", VStr "Article");
        ("description", VUndefined);
        ("properties",
         VArr [VObj [("name", VStr "title"); ("dataType", VArr [VStr "text"]);
                     ("description", VUndefined)];
               VObj [("name", VStr "tags"); ("dataType", VArr [VStr "text[]"]);
                     ("description", VStr "labels")]])])].
Proof.
  rewrite (handleSubmit_posts_trimmed_schema agreeableServer " article " "  "
             articleForm readyState eq_refl eq_refl eq_refl).
  reflexivity.
Defined.

(** ** The search form *)

(** X15. A search with a query that is empty or blank, or with no
    collection chosen, is answered by the prompt alone: nothing is sent
    and neither the settings nor the connection are read or written. *)
Theorem handleSearch_prompts_without_sending :
  forall server (searchQuery selectedCollection : string)
         (searchType : weaviate.SearchType) (limit : Z)
         (selectedProperties : list string) (st : State),
    blank searchQuery = true \/ selectedCollection = EmptyString ->
    SearchView.handleSearch server searchQuery selectedCollection searchType
      limit selectedProperties st
    = (Return (SearchView.Prompt
                 "Please enter a search query and select a collection"), st).
Proof.
  intros server q c ty l props st H. unfold SearchView.handleSearch.
  rewrite truthy_trim_blank. destruct H as [Hb | ->].
  - rewrite Hb. reflexivity.
  - cbn [JsString.truthy negb]. rewrite orb_true_r. reflexivity.
Qed.

Lemma handleSearch_prompts_without_sending_witness :
  SearchView.handleSearch fullLibrary "   " "Article" weaviate.hybrid 10 []
    readyState
  = (Return (SearchView.Prompt
               "Please enter a search query and select a collection"), readyState).
Proof.
  apply (handleSearch_prompts_without_sending fullLibrary "   " "Article"
           weaviate.hybrid 10 [] readyState).
  left. reflexivity.
Defined.

(** ** The collection view *)

Lemma handleSort_sortable properties current columnKey :
  sortable properties current ->
  sortable properties (CollectionView.handleSort properties current columnKey).
Proof.
  intros H. unfold CollectionView.handleSort.
  destruct (CollectionView.isDateColumn properties columnKey) eqn:E;
    [| exact H]. cbn [negb]. unfold CollectionView.nextSort.
  destruct current as [c |].
  - destruct (String.eqb (weaviate.sort_property c) columnKey).
    + destruct (String.eqb (weaviate.sort_order c) "desc"); [| exact I].
      split; [exact E | right; reflexivity].
    + split; [exact E | left; reflexivity].
  - split; [exact E | left; reflexivity].
Qed.

(** X16. Whatever columns are clicked, starting unsorted, the collection
    view never holds a sort on a column that is not a date column, nor an
    order other than [desc] or [asc], so that the sort directive of the
    page query prints the order as it is.  On a date column the clicks
    cycle: newest first, oldest first, unsorted. *)
Theorem handleSort_cycles_over_date_columns :
  forall (properties : list CollectionView.ViewProperty) (clicks : list string)
         (columnKey : string),
    let sort := List.fold_left (CollectionView.handleSort properties) clicks None in
    sortable properties sort
    /\ (forall c, sort = Some c ->
          JsString.toLowerCase (weaviate.sort_order c) = weaviate.sort_order c)
    /\ (CollectionView.isDateColumn properties columnKey = false ->
        CollectionView.handleSort properties sort columnKey = sort)
    /\ (CollectionView.isDateColumn properties columnKey = true ->
        CollectionView.handleSort properties None columnKey
        = Some (weaviate.mkSort columnKey "desc")
        /\ CollectionView.handleSort properties
             (Some (weaviate.mkSort columnKey "desc")) columnKey
           = Some (weaviate.mkSort columnKey "asc")
        /\ CollectionView.handleSort properties
             (Some (weaviate.mkSort columnKey "asc")) columnKey
           = None).
Proof.
  intros properties clicks columnKey sort.
  assert (Hs : sortable properties sort).
  { subst sort. generalize (I : sortable properties None).
    generalize (@None weaviate.SortConfig).
    induction clicks as [| k ks IH]; intros s Hs; [exact Hs |].
    cbn [fold_left]. apply IH, handleSort_sortable, Hs. }
  split; [exact Hs |]. split; [| split].
  - intros c E. rewrite E in Hs. destruct Hs as [_ [-> | ->]]; reflexivity.
  - intros E. unfold CollectionView.handleSort. rewrite E. reflexivity.
  - intros E. unfold CollectionView.handleSort, CollectionView.nextSort.
    rewrite E. cbn [negb weaviate.sort_property weaviate.sort_order].
    rewrite String.eqb_refl. repeat split.
Qed.

Lemma handleSort_cycles_over_date_columns_witness :
  List.fold_left (CollectionView.handleSort articleColumns)
    ["createdAt"; "title"; "createdAt"] None
  = Some (weaviate.mkSort "createdAt" "asc")
  /\ CollectionView.handleSort articleColumns
       (Some (weaviate.mkSort "createdAt" "asc")) "createdAt" = None.
Proof.
  pose proof (handleSort_cycles_over_date_columns articleColumns
                ["createdAt"; "title"; "createdAt"] "createdAt")
    as [_ [_ [_ H]]].
  destruct (H eq_refl) as [_ [_ H3]].
  split; [reflexivity | exact H3].
Defined.

Lemma existsb_eqb_In id (l : list string) :
  existsb (String.eqb id) l = true <-> In id l.
Proof.
  rewrite existsb_exists. split.
  - intros [x [Hx E]]. apply String.eqb_eq in E. subst x. exact Hx.
  - intros H. exists id. split; [exact H | apply String.eqb_refl].
Qed.

(** X17. [handleSelect] toggles one id of the selection and nothing else:
    the id is in the new selection exactly when it was not in the old
    one, every other id stays in or out, the ids that stay keep their
    order, and no id is held twice. *)
Theorem handleSelect_toggles_one_id :
  forall (selectedIds : list string) (id : string),
    NoDup selectedIds ->
    let next := CollectionView.handleSelect selectedIds id in
    NoDup next
    /\ (In id next <-> ~ In id selectedIds)
    /\ (forall x, x <> id -> (In x next <-> In x selectedIds))
    /\ List.filter (fun x => negb (String.eqb x id)) next
       = List.filter (fun x => negb (String.eqb x id)) selectedIds.
Proof.
  intros s id Hn next. subst next. unfold CollectionView.handleSelect.
  destruct (existsb (String.eqb id) s) eqn:E.
  - apply existsb_eqb_In in E. split; [apply NoDup_filter, Hn |].
    split; [| split].
    + rewrite filter_In, String.eqb_refl. cbn. split.
      * intros [_ F]. discriminate F.
      * intros F. contradiction.
    + intros x Hx. rewrite filter_In. split; [intros [H _]; exact H |].
      intros H. split; [exact H |].
      destruct (String.eqb_spec x id); [contradiction | reflexivity].
    + induction s as [| y r IH]; [reflexivity |]. cbn [filter].
      destruct (negb (String.eqb y id)) eqn:Ey; cbn [filter]; rewrite ?Ey.
      * f_equal. clear IH E Hn.
        induction r as [| z r IH]; [reflexivity |]. cbn [filter].
        destruct (negb (String.eqb z id)) eqn:Ez; cbn [filter]; rewrite ?Ez;
          [f_equal |]; exact IH.
      * clear IH E Hn.
        induction r as [| z r IH]; [reflexivity |]. cbn [filter].
        destruct (negb (String.eqb z id)) eqn:Ez; cbn [filter]; rewrite ?Ez;
          [f_equal |]; exact IH.
  - assert (Hni : ~ In id s).
    { intros H. apply existsb_eqb_In in H. rewrite H in E. discriminate E. }
    split; [| split; [| split]].
    + apply NoDup_app; [exact Hn | constructor; [intros [] | constructor] |].
      intros x Hx [<- | []]. contradiction.
    + rewrite in_app_iff. split; [intros _; exact Hni |].
      intros _. right. left. reflexivity.
    + intros x Hx. rewrite in_app_iff. split; [| intros H; left; exact H].
      intros [H | [H | []]]; [exact H | congruence].
    + rewrite filter_app. cbn [filter]. rewrite String.eqb_refl. cbn [negb].
      apply app_nil_r.
Qed.

Lemma handleSelect_toggles_one_id_witness :
  CollectionView.handleSelect ["id-1"; "id-2"; "id-3"] "id-2" = ["id-1"; "id-3"]
  /\ NoDup (CollectionView.handleSelect ["id-1"; "id-3"] "id-2").
Proof.
  assert (Hn : NoDup ["id-1"; "id-3"]).
  { repeat constructor; cbn; intuition discriminate. }
  pose proof (handleSelect_toggles_one_id ["id-1"; "id-3"] "id-2" Hn) as [H _].
  split; [reflexivity | exact H].
Defined.

(** ** The edit form *)

Section Editing.

Variable server : list Exchange -> Request -> FetchResult.

Lemma loadObjectData_run c id s st :
  configured st ->
  EditObjectModal.loadObjectData server c id s st
  = let run := weaviate.getObjectById server c id st in
    (Return
       (match fst run with
        | Return data =>
            if Js.truthy data then EditObjectModal.mkEdit data None
            else EditObjectModal.mkEdit (EditObjectModal.formData s)
                   (Some (Error "Object not found"))
        | Throw e =>
            EditObjectModal.mkEdit (EditObjectModal.formData s) (Some e)
        end), snd run).
Proof.
  intros H. unfold EditObjectModal.loadObjectData, caught.
  unfold bind at 1. unfold bind at 1. rewrite initialize_loaded.
  assert (E : weaviate.getObjectById server c id (loaded st)
              = weaviate.getObjectById server c id st).
  { rewrite (getObjectById_run server c id (loaded st) H).
    rewrite (getObjectById_run server c id st H). reflexivity. }
  rewrite E.
  destruct (weaviate.getObjectById server c id st) as [o st']. reflexivity.
Qed.

Lemma handleSubmit_edit_run c id s st :
  configured st ->
  snd (EditObjectModal.handleSubmit server c id s st)
  = sent st (updateObjectRequest st c id (EditObjectModal.formData s))
      (server (trace st)
         (updateObjectRequest st c id (EditObjectModal.formData s))).
Proof.
  intros H. unfold EditObjectModal.handleSubmit, caught.
  unfold bind at 1. unfold bind at 1. rewrite initialize_loaded.
  rewrite (updateObject_run server c id _ (loaded st) H). cbn zeta.
  change (updateObjectRequest (loaded st) c id (EditObjectModal.formData s))
    with (updateObjectRequest st c id (EditObjectModal.formData s)).
  change (trace (loaded st)) with (trace st).
  destruct (server (trace st) _) as [resp | e]; [| reflexivity].
  destruct (ok resp); [reflexivity |].
  destruct (body_text resp); reflexivity.
Qed.

End Editing.

(** X18. The edit form sends back what it loaded.  When the object GET
    is answered by a 2xx with a JSON object, [loadObjectData] puts its
    [properties] (the empty object when there is none) into the form, and
    an unedited [handleSubmit] then sends them in one PATCH to the same
    object under the collection's name.  When the GET is answered by 404
    the form keeps its data and shows [Object not found]. *)
Theorem edit_form_round_trip :
  forall server (collectionName objectId : string) (s : EditObjectModal.EditState)
         (st : State) (resp : Response),
    configured st ->
    server (trace st) (objectRequest st objectId) = Responds resp ->
    let st1 := sent st (objectRequest st objectId) (Responds resp) in
    (forall t fields,
        ok resp = true -> body_text resp = Some t ->
        body_json resp = Some (VObj fields) ->
        let data := Js.or_else (Js.lookup fields "properties") (VObj []) in
        let patch := updateObjectRequest st collectionName objectId data in
        EditObjectModal.loadObjectData server collectionName objectId s st
        = (Return (EditObjectModal.mkEdit data None), st1)
        /\ snd (EditObjectModal.handleSubmit server collectionName objectId
                  (EditObjectModal.mkEdit data None) st1)
           = sent st1 patch (server (trace st1) patch))
    /\ (status resp = 404 ->
        EditObjectModal.loadObjectData server collectionName objectId s st
        = (Return (EditObjectModal.mkEdit (EditObjectModal.formData s)
                     (Some (Error "Object not found"))), st1)).
Proof.
  intros server c id s st resp H Hs st1. split.
  - intros t fields Hok Ht Hj data patch. split.
    + rewrite (loadObjectData_run server c id s st H). cbn zeta.
      rewrite (getObjectById_run server c id st H). cbn zeta.
      rewrite Hs, Hok, Ht, Hj. cbn [fst snd Js.get obind].
      fold data.
      assert (Hd : Js.truthy data = true).
      { subst data. unfold Js.or_else.
        destruct (Js.truthy (Js.lookup fields "properties")) eqn:E;
          [exact E | reflexivity]. }
      rewrite Hd. reflexivity.
    + exact (handleSubmit_edit_run server c id
               (EditObjectModal.mkEdit data None) st1 H).
  - intros E. rewrite (loadObjectData_run server c id s st H). cbn zeta.
    rewrite (getObjectById_run server c id st H). cbn zeta.
    rewrite Hs. unfold ok. rewrite E. reflexivity.
Qed.

Lemma edit_form_round_trip_witness :
  EditObjectModal.loadObjectData objectServer "Article" "id-7"
    (EditObjectModal.mkEdit (VObj []) None) readyState
  = (Return (EditObjectModal.mkEdit
               (VObj [("title", VStr "On proofs"); ("tags", VArr [VStr "logic"])])
               None),
     sent readyState (objectRequest readyState "id-7")
       (jsonBody 200 "OK" storedObject)).
Proof.
  pose proof (edit_form_round_trip objectServer "Article" "id-7"
                (EditObjectModal.mkEdit (VObj []) None) readyState
                (mkResponse 200 "OK" (Some "(json)") (Some storedObject))
                eq_refl eq_refl) as [H _].
  destruct (H "(json)"
              [("class", VStr "Article"); ("id", VStr "id-7");
               ("properties", VObj [("title", VStr "On proofs");
                                    ("tags", VArr [VStr "logic"])])]
              eq_refl eq_refl eq_refl) as [Hl _].
  exact Hl.
Defined.

Lemma set_field_twice fields k a b :
  Js.set_field (Js.set_field fields k a) k b = Js.set_field fields k b.
Proof.
  induction fields as [| [k' v'] r IH]; cbn.
  - rewrite String.eqb_refl. reflexivity.
  - destruct (String.eqb k' k) eqn:E; cbn.
    + rewrite String.eqb_refl. reflexivity.
    + rewrite E, IH. reflexivity.
Qed.

Lemma remove_at_last items x :
  EditObjectModal.remove_at (items ++ [x]) (List.length items) = items.
Proof.
  induction items as [| y r IH]; [reflexivity |]. cbn. rewrite IH. reflexivity.
Qed.

(** X19. On a form that holds an array under a property, [addArrayItem]
    appends one empty string to that array and [removeArrayItem] at the
    position of the new item gives back the form as it was, key order
    included; neither touches another property.  Where the property is
    missing, [addArrayItem] starts it as an array of one empty string. *)
Theorem array_item_added_then_removed :
  forall (fields : list (string * JsVal)) (propertyName : string)
         (items : list JsVal),
    (Js.lookup fields propertyName = VArr items ->
     let added :=
       VObj (Js.set_field fields propertyName
               (VArr (items ++ [VStr EmptyString]))) in
     EditObjectModal.addArrayItem (VObj fields) propertyName = Return added
     /\ EditObjectModal.removeArrayItem added propertyName (List.length items)
        = Return (VObj fields)
     /\ (forall k, k <> propertyName -> Js.get added k = Js.get (VObj fields) k))
    /\ (Js.lookup fields propertyName = VUndefined ->
        EditObjectModal.addArrayItem (VObj fields) propertyName
        = Return (VObj (Js.set_field fields propertyName
                          (VArr [VStr EmptyString])))).
Proof.
  intros fields name items. split.
  - intros Hl added. subst added.
    unfold EditObjectModal.addArrayItem, EditObjectModal.removeArrayItem,
      EditObjectModal.arrayOf, EditObjectModal.withField.
    cbn [Js.get obind Js.spread]. rewrite Hl.
    cbn [Js.or_else Js.truthy Js.iterate obind]. split; [reflexivity |].
    rewrite lookup_set_field_same.
    cbn [Js.or_else Js.truthy]. split.
    + rewrite remove_at_last, set_field_twice, <- Hl.
      rewrite set_field_same; [reflexivity |]. rewrite Hl. reflexivity.
    + intros k Hk. rewrite (lookup_set_field_other fields name _ k Hk).
      reflexivity.
  - intros Hl.
    unfold EditObjectModal.addArrayItem, EditObjectModal.arrayOf,
      EditObjectModal.withField.
    cbn [Js.get obind Js.spread]. rewrite Hl. reflexivity.
Qed.

Lemma array_item_added_then_removed_witness :
  EditObjectModal.addArrayItem
    (VObj [("title", VStr "On proofs"); ("tags", VArr [VStr "logic"])]) "tags"
  = Return (VObj [("title", VStr "On proofs");
                  ("tags", VArr [VStr "logic"; VStr EmptyString])])
  /\ EditObjectModal.removeArrayItem
       (VObj [("title", VStr "On proofs");
              ("tags", VArr [VStr "logic"; VStr EmptyString])]) "tags" 1
     = Return (VObj [("title", VStr "On proofs"); ("tags", VArr [VStr "logic"])]).
Proof.
  pose proof (array_item_added_then_removed
                [("title", VStr "On proofs"); ("tags", VArr [VStr "logic"])]
                "tags" [VStr "logic"]) as [H _].
  destruct (H eq_refl) as [Ha [Hr _]]. split; [exact Ha | exact Hr].
Defined.

(** ** The property filter of a search *)

Lemma graphqlQuery_vector q c l p1 p2 names :
  weaviate.graphqlQuery (weaviate.mkSearch q c (Some weaviate.vector) l p1) names
  = weaviate.graphqlQuery (weaviate.mkSearch q c (Some weaviate.vector) l p2) names.
Proof. reflexivity. Qed.

Lemma searchCollections_vector server q c l p1 p2 st :
  weaviate.searchCollections server
    (weaviate.mkSearch q c (Some weaviate.vector) l p1) st
  = weaviate.searchCollections server
      (weaviate.mkSearch q c (Some weaviate.vector) l p2) st.
Proof.
  destruct (weaviate.notConfigured (weaviateUrl (store st))) eqn:H.
  - unfold weaviate.searchCollections.
    rewrite !logged_id, !prologue_blank by exact H. reflexivity.
  - rewrite !(searchCollections_reads server _ st H).
    destruct (weaviate.getCollections server (loaded st)) as [[cols | e] st1];
      [| reflexivity].
    cbn [weaviate.so_collectionName].
    rewrite (graphqlQuery_vector q c l p1 p2). reflexivity.
Qed.

(** X20. In vector mode the properties ticked in the search form have no
    effect: whatever the selection, [handleSearch] sends the same requests
    and shows the same rows.  (The [nearText] directive takes no property
    list, and the fields asked for come from the schema, not from the
    selection.) *)
Theorem vector_search_ignores_selected_properties :
  forall server (searchQuery selectedCollection : string) (limit : Z)
         (selection1 selection2 : list string) (st : State),
    SearchView.handleSearch server searchQuery selectedCollection
      weaviate.vector limit selection1 st
    = SearchView.handleSearch server searchQuery selectedCollection
        weaviate.vector limit selection2 st.
Proof.
  intros server q c l s1 s2 st.
  destruct (JsString.truthy (JsString.trim q)) eqn:Hq.
  - destruct (JsString.truthy c) eqn:Hc.
    + rewrite !(handleSearch_run server q c weaviate.vector l _ st Hq Hc).
      unfold viewOptions.
      rewrite (searchCollections_vector server q c (Some l)
                 (match s1 with [] => None | _ => Some s1 end)
                 (match s2 with [] => None | _ => Some s2 end) (loaded st)).
      reflexivity.
    + unfold SearchView.handleSearch. rewrite Hq, Hc. reflexivity.
  - unfold SearchView.handleSearch. rewrite Hq. reflexivity.
Qed.
